(** * Hybrid recommendation scoring and ranking engine

    Shallow embedding of [ai-service/models/recommendation_model.py]
    (class [RecommendationModel]) and of the request handler
    [recommend_equipment] of [ai-service/app.py], followed by the data
    preparation and start-up of the model, query validation, and from
    [app.py] the JSON sanitiser, the fallback model, [initialize_models] and
    the demand prediction handler without a planning model.

    Conventions of the embedding.
    - A Python [str] is the list of its Unicode code points ([list N]), so
      that [len], [strip], [split] and [in] count characters as Python does.
    - A Python / NumPy float is an exact rational ([Q]): the formulas are the
      source's, rounding error of IEEE doubles is not modelled. Where a
      truncation makes the rounding visible ([int(e * 0.7)],
      [int(score * 100)]) the value of the code can be one less than the
      exact one; statements about such values allow for it.
    - A NumPy 64-bit integer is an unbounded integer ([Z]): the wrap-around
      of a product beyond 64 bits and the [OverflowError] raised when a
      duration does not fit in 64 bits are not modelled; statements that
      depend on them carry the bound as a hypothesis.
    - A Python [set] is a [gset]; where the source iterates over a set, the
      iteration order is a field of the model object.
    - The Unicode tables of the Python runtime (lower-casing, word
      characters), the optional lemmatiser and the embedding model are
      external collaborators, held as fields of the model object; the
      process-wide NumPy random generator is part of the explicit [World]
      state that every effectful method threads. An exception raised inside
      a [try] block is a [None] (or an [inl]) caught where the source
      catches it. *)

From Stdlib Require Import ZArith QArith Qround Qabs Lqa Lia List String.
From Stdlib Require Import Sorting.Sorted Sorting.Permutation DecimalString.
From Stdlib.Strings Require Import Byte.
From stdpp Require Import base decidable countable option list sorting gmap sets fin_sets.
Import ListNotations.

Local Open Scope Q_scope.

(** ** Python strings *)

Module Py.

Definition str := list N.

(** Code points of a UTF-8 encoded byte sequence (one to four bytes per
    code point); used only to write the source's string literals. *)
Fixpoint utf8_decode (bs : list N) : str :=
  match bs with
  | [] => []
  | b :: r =>
    if (b <? 128)%N then b :: utf8_decode r
    else if (b <? 224)%N then
      match r with
      | c1 :: r1 => ((b - 192) * 64 + (c1 - 128))%N :: utf8_decode r1
      | _ => []
      end
    else if (b <? 240)%N then
      match r with
      | c1 :: c2 :: r2 =>
        ((b - 224) * 4096 + (c1 - 128) * 64 + (c2 - 128))%N :: utf8_decode r2
      | _ => []
      end
    else
      match r with
      | c1 :: c2 :: c3 :: r3 =>
        ((b - 240) * 262144 + (c1 - 128) * 4096 + (c2 - 128) * 64
         + (c3 - 128))%N :: utf8_decode r3
      | _ => []
      end
  end.

Definition lit (s : string) : str :=
  utf8_decode (map Byte.to_N (list_byte_of_string s)).

(** [str.isspace] on one character: the code points Python treats as
    whitespace in [strip()] and [split()]. *)
Definition isspace (c : N) : bool :=
  ((9 <=? c) && (c <=? 13) || (28 <=? c) && (c <=? 32)
   || (c =? 133) || (c =? 160) || (c =? 5760)
   || (8192 <=? c) && (c <=? 8202) || (c =? 8232) || (c =? 8233)
   || (c =? 8239) || (c =? 8287) || (c =? 12288))%N.

Fixpoint lstrip (s : str) : str :=
  match s with
  | c :: r => if isspace c then lstrip r else s
  | [] => []
  end.

(** [s.strip()] *)
Definition strip (s : str) : str := rev (lstrip (rev (lstrip s))).

(** [s.split()]: maximal runs of non-whitespace characters, in order.
    [cur] is the run being read, most recent character first. *)
Fixpoint split_from (cur : str) (s : str) : list str :=
  match s with
  | [] => match cur with [] => [] | _ => [rev cur] end
  | c :: r =>
    if isspace c
    then match cur with
         | [] => split_from [] r
         | _ => rev cur :: split_from [] r
         end
    else split_from (c :: cur) r
  end.

Definition split (s : str) : list str := split_from [] s.

Fixpoint startswith (s prefix : str) : bool :=
  match prefix, s with
  | [], _ => true
  | p :: prefix', c :: s' => (p =? c)%N && startswith s' prefix'
  | _ :: _, [] => false
  end.

(** [sub in s] for two strings: [sub] occurs in [s] as a substring. *)
Fixpoint contains (s sub : str) : bool :=
  startswith s sub ||
  match s with
  | [] => false
  | _ :: s' => contains s' sub
  end.

(** Truth value of a string ([if s:]). *)
Definition truthy (s : str) : bool :=
  match s with [] => false | _ => true end.

(** Truth value of a value that is [None] or a string. *)
Definition truthy_opt (o : option str) : bool :=
  match o with None => false | Some s => truthy s end.

(** [int(x)]: truncation toward zero. *)
Definition int (x : Q) : Z := Z.quot (Qnum x) (Zpos (Qden x)).

(** [round(x)]: nearest integer, halves go to the even neighbour. *)
Definition round (x : Q) : Z :=
  let f := Qfloor x in
  let r := x - inject_Z f in
  if Qle_bool r (1 # 2)
  then if Qle_bool (1 # 2) r
       then (if Z.even f then f else f + 1)%Z
       else f
  else (f + 1)%Z.

(** [round(x, 3)]. *)
Definition round3 (x : Q) : Q := inject_Z (round (x * 1000)) / 1000.

(** [x < y] on numbers. *)
Definition ltb (x y : Q) : bool := negb (Qle_bool y x).

End Py.

Abbreviation str := Py.str.

(** ** Data model *)

(** One prepared row of [self.configs]: the cleaned text columns and the
    per-day price computed at load time ([prix_jour], a number). *)
Module Row.
Record t := mk {
  type : str;
  budget : str;
  lieu : str;
  camera : str;
  objectif : str;
  lumieres : str;
  prix_jour : Q
}.
End Row.

(** Keys of [budget_patterns] and of the tier table
    [{'low': 1, 'medium': 2, 'high': 3}]. *)
Inductive Budget := Low | Medium | High.

Definition budget_name (b : Budget) : str :=
  match b with
  | Low => Py.lit "low"
  | Medium => Py.lit "medium"
  | High => Py.lit "high"
  end.

(** The dictionary returned by [_extract_enhanced_features]. *)
Module Features.
Record t := mk {
  budget : option Budget;
  lieu : option str;
  type : option str;
  specificity_score : Z
}.
End Features.

Inductive Confidence := excellent | very_good | good | fair | low.

(** One entry of the [recommendations] list. *)
Module Result.
Record t := mk {
  type : str;
  budget : str;
  lieu : str;
  camera : str;
  objectif : str;
  lumieres : str;
  prix_jour : Z;
  prix_total : Z;
  duree : Z;
  score : Q;
  confidence : Confidence;
  complexity_score : Z;
  quality_rating : Z
}.
End Result.

(** The dictionary returned by [get_recommendations]; a key that the
    failure dictionaries do not carry is [None]. *)
Module Response.
Record t := mk {
  success : bool;
  message : str;
  query : option str;
  duration_days : option Z;
  recommendations : list Result.t;
  extracted_features : option Features.t;
  model_confidence : option Q
}.
End Response.

(** The model object ([self]) together with the runtime it relies on.
    - [nlp] is the spaCy pipeline, absent when the French model could not be
      loaded; [lemmatize text] is the list of lemmas of the tokens of [text]
      that are neither stop words nor punctuation, or [None] when the
      pipeline raises.
    - [str_lower] is [str.lower] and [is_word_char] the character class
      [\w] of the regular expressions (Unicode alphanumerics and the
      underscore).
    - [semantic_similarity q] is [embedder.encode] followed by the optional
      PCA projection and [cosine_similarity]: [Some sim] gives the
      similarity [sim i] of the query to the stored embedding of row [i],
      [None] means that the stage raised.
    - [set_order l] is the order in which Python iterates over [set(l)].
    - [argsort_ties a i j] tells whether NumPy's sort of the array [a] leaves
      index [i] before index [j] when the two values are equal; NumPy's
      default sort is not stable and fixes no order among equal values. *)
Record Model := {
  is_initialized : bool;
  configs : list Row.t;
  nlp : option (str -> option (list str));
  str_lower : str -> str;
  is_word_char : N -> bool;
  semantic_similarity : str -> option (nat -> Q);
  set_order : list str -> list str;
  argsort_ties : list Q -> nat -> nat -> bool
}.

(** Process-wide state touched by a request: the NumPy global random
    generator (the unit-interval samples it will deliver and how many were
    consumed) and the texts handed to the embedding model so far. *)
Record World := {
  rng_stream : nat -> Q;
  rng_pos : nat;
  encoded : list str
}.

(** ** Constant tables of the source *)

(** A dictionary literal: a repeated key keeps its first position and takes
    the last value. *)
Fixpoint dict_set (k v : str) (d : list (str * str)) : list (str * str) :=
  match d with
  | [] => [(k, v)]
  | (k', v') :: r =>
    if bool_decide (k' = k) then (k, v) :: r else (k', v') :: dict_set k v r
  end.

Definition dict_literal (items : list (string * string)) : list (str * str) :=
  fold_left (fun d kv => dict_set (Py.lit (fst kv)) (Py.lit (snd kv)) d) items [].

Definition SYNONYMS : list (str * str) := Eval vm_compute in dict_literal [
  ("faible", "low"); ("bas", "low"); ("petit", "low"); ("économique", "low");
  ("pas cher", "low"); ("budget serré", "low"); ("limité", "low");
  ("moyen", "medium"); ("standard", "medium"); ("normal", "medium");
  ("correct", "medium");
  ("élevé", "high"); ("fort", "high"); ("grand", "high"); ("cher", "high");
  ("premium", "high"); ("luxe", "high"); ("haut de gamme", "high");
  ("extérieur", "extérieur"); ("ext", "extérieur"); ("dehors", "extérieur");
  ("plein air", "extérieur"); ("outdoor", "extérieur"); ("nature", "extérieur");
  ("intérieur", "intérieur"); ("int", "intérieur"); ("dedans", "intérieur");
  ("indoor", "intérieur"); ("maison", "intérieur");
  ("studio", "studio"); ("atelier", "studio"); ("salle", "studio");
  ("publicité", "pub"); ("pub", "pub"); ("commercial", "pub");
  ("marketing", "pub");
  ("entretien", "interview"); ("interview", "interview");
  ("reportage", "interview");
  ("docu", "documentaire"); ("documentaire", "documentaire");
  ("reportage", "documentaire");
  ("court", "court-métrage"); ("métrage", "court-métrage");
  ("court-métrage", "court-métrage");
  ("film", "court-métrage"); ("cinéma", "court-métrage");
  ("clip", "clip"); ("musical", "clip"); ("musique", "clip");
  ("vidéo musicale", "clip");
  ("camera", "caméra"); ("appareil", "caméra"); ("boitier", "caméra");
  ("objectif", "objectif"); ("lens", "objectif"); ("optique", "objectif");
  ("lumière", "lumières"); ("éclairage", "lumières"); ("flash", "lumières");
  ("son", "audio"); ("micro", "audio"); ("microphone", "audio")
]%string.

Definition budget_patterns : list (Budget * list str) := Eval vm_compute in [
  (Low, map Py.lit ["low"; "faible"; "petit"; "économique"; "pas cher";
                    "serré"]%string);
  (Medium, map Py.lit ["medium"; "moyen"; "normal"; "standard";
                       "correct"]%string);
  (High, map Py.lit ["high"; "élevé"; "grand"; "cher"; "premium"; "luxe";
                     "haut"]%string)
].

Definition LIEU_VALUES : list str := Eval vm_compute in
  map Py.lit ["intérieur"; "extérieur"; "studio"]%string.

(** ** Text normalisation ([_enhanced_preprocess_text]) *)

(** The accented letters listed in the clean-up pattern. *)
Definition kept_letters : str := Eval vm_compute in
  Py.lit "àâäéèêëïîôöùûüÿç".

(** [re.sub(r'[^\w\s\-...]', ' ', text)]: a character that is not a word
    character, whitespace, a hyphen or a listed letter becomes a space. *)
Definition clean_char (self : Model) (c : N) : N :=
  if is_word_char self c || Py.isspace c || (c =? 45)%N
     || existsb (N.eqb c) kept_letters
  then c else 32%N.

Definition word_at (self : Model) (text : str) : bool :=
  match text with
  | c :: _ => is_word_char self c
  | [] => false
  end.

(** [re.sub(r'\b' + re.escape(syn) + r'\b', std, text)] for a non-empty
    key [syn]: the leftmost occurrences of [syn] that do not overlap and
    have a word boundary on both sides are replaced by [std]. [skip] counts
    the characters of a replaced occurrence still to pass, [prev_word]
    tells whether the previous character is a word character. *)
Fixpoint sub_word (self : Model) (syn std : str) (skip : nat)
  (prev_word : bool) (text : str) : str :=
  match text with
  | [] => []
  | c :: rest =>
    match skip with
    | S k => sub_word self syn std k (is_word_char self c) rest
    | O =>
      if xorb prev_word (is_word_char self c)
         && Py.startswith text syn
         && xorb (word_at self (rev syn))
                 (word_at self (drop (length syn) text))
      then std ++ sub_word self syn std (length syn - 1)
                           (is_word_char self c) rest
      else c :: sub_word self syn std 0 (is_word_char self c) rest
    end
  end.

(** [re.sub(r'\s+', ' ', text)] *)
Fixpoint collapse_spaces (in_space : bool) (text : str) : str :=
  match text with
  | [] => []
  | c :: rest =>
    if Py.isspace c
    then if in_space then collapse_spaces true rest
         else 32%N :: collapse_spaces true rest
    else c :: collapse_spaces false rest
  end.

(** [' '.join(words)] *)
Fixpoint join_spaces (words : list str) : str :=
  match words with
  | [] => []
  | [w] => w
  | w :: rest => w ++ 32%N :: join_spaces rest
  end.

Definition _enhanced_preprocess_text (self : Model) (text : str) : str :=
  if negb (Py.truthy (Py.strip text)) then []
  else
    let text := Py.strip (str_lower self text) in
    let text := map (clean_char self) text in
    let text :=
      fold_left (fun text kv => sub_word self (fst kv) (snd kv) 0 false text)
                SYNONYMS text in
    let text := Py.strip (collapse_spaces false text) in
    match nlp self with
    | Some lemmatize =>
      match lemmatize text with
      | Some (lemma :: lemmas) =>
        text ++ 32%N :: join_spaces (lemma :: lemmas)
      | Some [] => text
      | None => text
      end
    | None => text
    end.

Arguments _enhanced_preprocess_text : simpl never.

(** ** Feature extraction ([_extract_enhanced_features]) *)

Definition any_in (patterns : list str) (text : str) : bool :=
  existsb (Py.contains text) patterns.

(** Budget detection: the first pattern group with a substring hit. *)
Definition detect_budget (processed_query : str) (features : Features.t)
  : Features.t :=
  match find (fun bp => any_in (snd bp) processed_query) budget_patterns with
  | Some (b, _) =>
    Features.mk (Some b) (Features.lieu features) (Features.type features)
                (Features.specificity_score features + 1)
  | None => features
  end.

Definition lieu_hit (words : gset str) (lieu : str) : bool :=
  bool_decide (lieu ∈ words)
  || existsb (fun kv => bool_decide (snd kv = lieu)
                        && bool_decide (fst kv ∈ words)) SYNONYMS.

(** Location detection: the first location, in set order, that is a word of
    the query or has a synonym that is one. *)
Definition detect_lieu (self : Model) (words : gset str)
  (features : Features.t) : Features.t :=
  match find (lieu_hit words) (set_order self LIEU_VALUES) with
  | Some l =>
    Features.mk (Features.budget features) (Some l) (Features.type features)
                (Features.specificity_score features + 1)
  | None => features
  end.

(** [set(self.configs['type'].unique())] in iteration order. *)
Definition TYPE_VALUES (self : Model) : list str :=
  set_order self (map Row.type (configs self)).

(** Type detection: the first known project type that is a word of the
    query. *)
Definition detect_type (self : Model) (words : gset str)
  (features : Features.t) : Features.t :=
  match find (fun ptype => bool_decide (ptype ∈ words)) (TYPE_VALUES self) with
  | Some ty =>
    Features.mk (Features.budget features) (Features.lieu features) (Some ty)
                (Features.specificity_score features + 2)
  | None => features
  end.

(** Context-based type inference, only when no type is set. *)
Definition infer_type (processed_query : str) (features : Features.t)
  : Features.t :=
  if negb (Py.truthy_opt (Features.type features)) then
    if any_in (map Py.lit ["mariage"; "wedding"; "photo"]%string) processed_query
    then Features.mk (Features.budget features) (Features.lieu features)
                     (Some (Py.lit "pub"))
                     (Features.specificity_score features + 1)
    else if any_in (map Py.lit ["entretien"; "reportage"]%string) processed_query
    then Features.mk (Features.budget features) (Features.lieu features)
                     (Some (Py.lit "interview"))
                     (Features.specificity_score features + 1)
    else features
  else features.

Definition _extract_enhanced_features (self : Model) (query : str)
  : Features.t :=
  let processed_query := _enhanced_preprocess_text self query in
  let words : gset str := list_to_set (Py.split processed_query) in
  let features := Features.mk None None None 0 in
  let features := detect_budget processed_query features in
  let features := detect_lieu self words features in
  let features := detect_type self words features in
  infer_type processed_query features.

(** ** Derived catalog columns ([_add_enhanced_features]) *)

(** [_calculate_complexity]: the [complexity_score] column. *)
Definition _calculate_complexity (row : Row.t) : Z :=
  let score := 1%Z in
  let score :=
    if Py.contains (Row.camera row) (Py.lit "FX6")
       || Py.contains (Row.camera row) (Py.lit "C70")
    then (score + 2)%Z
    else if Py.contains (Row.camera row) (Py.lit "R6")
            || Py.contains (Row.camera row) (Py.lit "A7III")
    then (score + 1)%Z
    else score in
  let score :=
    if Py.contains (Row.objectif row) (Py.lit "L")
       || Py.contains (Row.objectif row) (Py.lit "2.8")
    then (score + 1)%Z else score in
  if Py.contains (Row.lumieres row) (Py.lit "Aputure")
     || Py.contains (Row.lumieres row) (Py.lit "Arri")
  then (score + 1)%Z else score.

Definition budget_tier_of_query (b : Budget) : Z :=
  match b with Low => 1 | Medium => 2 | High => 3 end%Z.

(** The [budget_tier] column: [map(budget_tier).fillna(2)]. *)
Definition budget_tier (row : Row.t) : Z :=
  if bool_decide (Row.budget row = Py.lit "low") then 1%Z
  else if bool_decide (Row.budget row = Py.lit "medium") then 2%Z
  else if bool_decide (Row.budget row = Py.lit "high") then 3%Z
  else 2%Z.

(** [Series.max()] of an integer column (an empty column has no row to
    divide, its value is immaterial). *)
Definition series_max (l : list Z) : Z :=
  match l with
  | [] => 0%Z
  | x :: r => fold_left Z.max r x
  end.

(** ** Scoring ([_calculate_enhanced_scores]) *)

Definition qmax (a b : Q) : Q := if Qle_bool a b then b else a.

(** [ndarray.max()]: raises on an empty array. *)
Definition array_max (a : list Q) : option Q :=
  match a with
  | [] => None
  | x :: r => Some (fold_left qmax r x)
  end.

Definition of_nat (n : nat) : Q := inject_Z (Z.of_nat n).

(** Step 2: Jaccard overlap of the word sets plus 0.1 per query word found
    in the configuration text. *)
Definition keyword_score (self : Model) (query_words : gset str)
  (row : Row.t) : Q :=
  let config_text :=
    _enhanced_preprocess_text self
      (Row.type row ++ Py.lit " " ++ Row.budget row ++ Py.lit " "
       ++ Row.lieu row) in
  let config_words : gset str := list_to_set (Py.split config_text) in
  let intersection := size (query_words ∩ config_words) in
  let union := size (query_words ∪ config_words) in
  let exact_matches := size (filter (fun word => word ∈ config_words) query_words) in
  let jaccard :=
    if (0 <? union)%nat then of_nat intersection / of_nat union else 0 in
  jaccard + of_nat exact_matches * 0.1.

(** [(column == value).astype(float)] on one row. *)
Definition match_float (column value : str) : Q :=
  if bool_decide (column = value) then 1 else 0.

Definition boost_strength (extracted : Features.t) : Q :=
  0.3 + inject_Z (Features.specificity_score extracted) * 0.1.

(** Step 3: the boost multiplier of one row. *)
Definition boost (extracted : Features.t) (row : Row.t) : Q :=
  let boosts := 1 in
  let boosts :=
    match Features.type extracted with
    | Some ty =>
      if Py.truthy ty
      then boosts + boost_strength extracted * match_float (Row.type row) ty
      else boosts
    | None => boosts
    end in
  let boosts :=
    match Features.budget extracted with
    | Some b =>
      boosts + boost_strength extracted
               * match_float (Row.budget row) (budget_name b)
    | None => boosts
    end in
  match Features.lieu extracted with
  | Some l =>
    if Py.truthy l
    then boosts + boost_strength extracted * match_float (Row.lieu row) l
    else boosts
  | None => boosts
  end.

(** Step 4: equipment quality of one row. *)
Definition quality_score (self : Model) (row : Row.t) : Q :=
  inject_Z (_calculate_complexity row)
  / inject_Z (series_max (map _calculate_complexity (configs self))).

(** Step 5: price appropriateness of one row. *)
Definition price_score (extracted : Features.t) (row : Row.t) : Q :=
  match Features.budget extracted with
  | Some b =>
    1 - Qabs (inject_Z (budget_tier row - budget_tier_of_query b)) / 3
  | None => 1
  end.

(** Step 6: the combined scores before normalisation, one per row. *)
Definition combined_scores (self : Model) (processed_query : str)
  (semantic_scores : nat -> Q) : list Q :=
  let query_words : gset str := list_to_set (Py.split processed_query) in
  let extracted := _extract_enhanced_features self processed_query in
  imap (fun i row =>
          let base_score :=
            semantic_scores i * 0.4 + keyword_score self query_words row * 0.3 in
          base_score * boost extracted row
          * (1 + quality_score self row * 0.2)
          * (0.8 + price_score extracted row * 0.2))
       (configs self).

(** "Normalize scores": divide by the batch maximum when it is positive. *)
Definition normalize_scores (final_scores : list Q) : option (list Q) :=
  m ← array_max final_scores;
  Some (if Py.ltb 0 m then map (fun x => x / m) final_scores
        else final_scores).

(** The body of the [try] block: [None] when it raises. *)
Definition scores_try (self : Model) (query : str) (w : World)
  : option (list Q) * World :=
  let processed_query := _enhanced_preprocess_text self query in
  if negb (Py.truthy processed_query)
  then (Some (repeat 0 (length (configs self))), w)
  else
    let w := Build_World (rng_stream w) (rng_pos w)
                         (encoded w ++ [processed_query]) in
    match semantic_similarity self processed_query with
    | None => (None, w)
    | Some semantic_scores =>
      (normalize_scores (combined_scores self processed_query semantic_scores),
       w)
    end.

(** [np.random.uniform(low, high, n)] on the global generator. *)
Definition random_uniform (low high : Q) (n : nat) (w : World)
  : list Q * World :=
  (map (fun i => low + (high - low) * rng_stream w (rng_pos w + i)%nat)
       (seq 0 n),
   Build_World (rng_stream w) (rng_pos w + n)%nat (encoded w)).

Definition _calculate_enhanced_scores (self : Model) (query : str) (w : World)
  : list Q * World :=
  match scores_try self query w with
  | (Some final_scores, w) => (final_scores, w)
  | (None, w) => random_uniform 0.1 0.3 (length (configs self)) w
  end.

(** ** Ranking and selection ([get_recommendations]) *)

(** Insertion of index [i] into a list of indices in ascending order of the
    values [a]: before the first index whose value is greater, or equal and
    left after [i] by the sort ([before i j]). *)
Fixpoint insert_index (a : nat -> Q) (before : nat -> nat -> bool) (i : nat)
  (l : list nat) : list nat :=
  match l with
  | [] => [i]
  | j :: r =>
    if Py.ltb (a i) (a j) || Qeq_bool (a i) (a j) && before i j
    then i :: l
    else j :: insert_index a before i r
  end.

(** [a.argsort()]: the indices of [a] in ascending order of value; the order
    among the indices of equal values is the runtime's ([argsort_ties]). *)
Definition argsort (self : Model) (a : list Q) : list nat :=
  fold_right (insert_index (fun i => nth i a 0) (argsort_ties self a)) []
             (seq 0 (length a)).

(** [similarities.argsort()[::-1]] *)
Definition top_indices (self : Model) (similarities : list Q) : list nat :=
  rev (argsort self similarities).

Definition Key : Type := str * str * str.

Definition combo_key (row : Row.t) : Key :=
  (Row.type row, Row.budget row, Row.lieu row).

(** [sum(a == b for a, b in zip(combo_key, seen))] *)
Definition agreement (k seen : Key) : nat :=
  ((if bool_decide (k.1.1 = seen.1.1) then 1 else 0)
   + (if bool_decide (k.1.2 = seen.1.2) then 1 else 0)
   + (if bool_decide (k.2 = seen.2) then 1 else 0))%nat.

Definition similar_count (k : Key) (seen_combinations : gset Key) : nat :=
  size (filter (fun seen => (2 <= agreement k seen)%nat) seen_combinations).

Definition quality_threshold : Q := 0.15.

(** [_calculate_confidence] *)
Definition _calculate_confidence (score : Q) : Confidence :=
  if Py.ltb 0.8 score then excellent
  else if Py.ltb 0.6 score then very_good
  else if Py.ltb 0.4 score then good
  else if Py.ltb 0.2 score then fair
  else low.

(** The [result] dictionary built for an accepted row. The product
    [prix_jour * jours] is exact here; it is the code's value as long as it
    stays within 64 bits (within 2^53 for a column of doubles). *)
Definition make_result (row : Row.t) (jours : Z) (similarity : Q) : Result.t :=
  {| Result.type := Row.type row;
     Result.budget := Row.budget row;
     Result.lieu := Row.lieu row;
     Result.camera := Row.camera row;
     Result.objectif := Row.objectif row;
     Result.lumieres := Row.lumieres row;
     Result.prix_jour := Py.int (Row.prix_jour row);
     Result.prix_total := Py.int (Row.prix_jour row * inject_Z jours);
     Result.duree := jours;
     Result.score := Py.round3 similarity;
     Result.confidence := _calculate_confidence similarity;
     Result.complexity_score := _calculate_complexity row;
     Result.quality_rating := Z.min 5 (Py.round (similarity * 5 + 1)) |}.

(** The loop state: [results] and [seen_combinations]. *)
Definition Selection : Type := list Result.t * gset Key.

(** One iteration of the loop body after the [len(results) >= 5] test.
    [None] is an index error of [iloc] or of [similarities[idx]]. *)
Definition select_step (self : Model) (similarities : list Q) (jours : Z)
  (st : Selection) (idx : nat) : option Selection :=
  let '(results, seen_combinations) := st in
  row ← configs self !! idx;
  if (2 <=? similar_count (combo_key row) seen_combinations)%nat
  then Some (results, seen_combinations)
  else
    let seen_combinations := {[ combo_key row ]} ∪ seen_combinations in
    similarity ← similarities !! idx;
    if Py.ltb similarity quality_threshold
    then Some (results, seen_combinations)
    else Some (results ++ [make_result row jours similarity],
               seen_combinations).

(** [for idx in top_indices: if len(results) >= 5: break ...] *)
Fixpoint select_loop (self : Model) (similarities : list Q) (jours : Z)
  (indices : list nat) (st : Selection) : option Selection :=
  match indices with
  | [] => Some st
  | idx :: rest =>
    if (5 <=? length (fst st))%nat then Some st
    else
      st' ← select_step self similarities jours st idx;
      select_loop self similarities jours rest st'
  end.

Inductive exn :=
| Exception (msg : str)
| IndexError (msg : str).

(** [str(e)] *)
Definition exn_message (e : exn) : str :=
  match e with Exception m => m | IndexError m => m end.

Definition str_of_nat (n : nat) : str :=
  Py.lit (DecimalString.NilEmpty.string_of_uint (Nat.to_uint n)).

(** [np.mean] of a non-empty list. *)
Definition mean (l : list Q) : Q :=
  fold_right Qplus 0 l / of_nat (length l).

Definition query_too_short : Response.t :=
  {| Response.success := false;
     Response.message := Py.lit "Query too short. Please be more specific.";
     Response.query := None;
     Response.duration_days := None;
     Response.recommendations := [];
     Response.extracted_features := None;
     Response.model_confidence := None |}.

(** The dictionary returned by the [except] handler. *)
Definition failure_response (e : exn) : Response.t :=
  {| Response.success := false;
     Response.message := exn_message e;
     Response.query := None;
     Response.duration_days := None;
     Response.recommendations := [];
     Response.extracted_features := None;
     Response.model_confidence := None |}.

(** The dictionary returned after the selection loop. *)
Definition final_response (self : Model) (user_query : str) (jours : Z)
  (results : list Result.t) : Response.t :=
  let success := (0 <? length results)%nat in
  {| Response.success := success;
     Response.message :=
       if success
       then Py.lit "Found " ++ str_of_nat (length results)
            ++ Py.lit " high-quality recommendations"
       else Py.lit "No close matches found";
     Response.query := Some user_query;
     Response.duration_days := Some jours;
     Response.recommendations := results;
     Response.extracted_features :=
       Some (_extract_enhanced_features self user_query);
     Response.model_confidence :=
       Some (if success then mean (map Result.score results) else 0) |}.

(** The body of the [try] block of [get_recommendations]: [inl] when it
    raises, [inr] when it returns. The overflow error that NumPy raises
    while a result is built for a duration beyond 64 bits is outside the
    model. *)
Definition get_recommendations_try (self : Model) (user_query : str)
  (jours : Z) (w : World) : (exn + Response.t) * World :=
  if negb (is_initialized self)
  then (inl (Exception (Py.lit "Enhanced model not initialized")), w)
  else if (length (Py.strip user_query) <? 3)%nat
  then (inr query_too_short, w)
  else
    let '(similarities, w) := _calculate_enhanced_scores self user_query w in
    match select_loop self similarities jours (top_indices self similarities)
                      ([], ∅) with
    | None =>
      (inl (IndexError (Py.lit "single positional indexer is out-of-bounds")),
       w)
    | Some (results, _) => (inr (final_response self user_query jours results), w)
    end.

Definition get_recommendations (self : Model) (user_query : str) (jours : Z)
  (w : World) : Response.t * World :=
  match get_recommendations_try self user_query jours w with
  | (inl e, w) => (failure_response e, w)
  | (inr response, w) => (response, w)
  end.

(** ** The selection loop as the specification words it

    Steps b to e of the specification: the combination enters the seen set
    only when the candidate is accepted. These two definitions follow the
    specification, not the source; they are compared with [select_step]
    and [select_loop] below. *)
Definition select_step_spec (self : Model) (similarities : list Q) (jours : Z)
  (st : Selection) (idx : nat) : option Selection :=
  let '(results, seen_combinations) := st in
  row ← configs self !! idx;
  if (2 <=? similar_count (combo_key row) seen_combinations)%nat
  then Some (results, seen_combinations)
  else
    similarity ← similarities !! idx;
    if Py.ltb similarity quality_threshold
    then Some (results, seen_combinations)
    else Some (results ++ [make_result row jours similarity],
               {[ combo_key row ]} ∪ seen_combinations).

Fixpoint select_loop_spec (self : Model) (similarities : list Q) (jours : Z)
  (indices : list nat) (st : Selection) : option Selection :=
  match indices with
  | [] => Some st
  | idx :: rest =>
    if (5 <=? length (fst st))%nat then Some st
    else
      st' ← select_step_spec self similarities jours st idx;
      select_loop_spec self similarities jours rest st'
  end.

(** ** Predicates used in the statements *)

(** [accepted self sims jours r]: [r] is the result built for a row whose
    score in [sims] is not below the quality threshold. *)
Definition accepted (self : Model) (sims : list Q) (jours : Z) (r : Result.t)
  : Prop :=
  exists (idx : nat) (row : Row.t) (finalScore : Q),
    configs self !! idx = Some row
    /\ sims !! idx = Some finalScore
    /\ quality_threshold <= finalScore
    /\ r = make_result row jours finalScore.

(** A text that is empty or starts with a character that is not
    whitespace. *)
Definition stripped_head (s : str) : Prop :=
  match s with [] => True | c :: _ => Py.isspace c = false end.

(** The combination of a returned recommendation. *)
Definition result_key (r : Result.t) : Key :=
  (Result.type r, Result.budget r, Result.lieu r).

(** ** The request handler ([recommend_equipment] of [app.py])

    The handler is modelled from the parsed JSON body on, for a global
    [recommendation_model] that is absent or a [RecommendationModel]. Of a
    formatted recommendation the fields that depend on Python's [hash] and
    [str.title] ([id], [category]) and the constant texts are left out. *)
Module App.

Record Body := {
  query : option str;
  days : option Z
}.

Record FormattedRec := {
  name : str;
  pricePerDay : Z;
  quantity : Z;
  matchScore : Z;
  rec_confidence : Confidence
}.

Record ResponseData := {
  explanation : str;
  recommendations : list FormattedRec;
  confidence : Q;
  totalEstimatedCost : Z
}.

(** [jsonify({'success': False, 'message': m}), status] or
    [jsonify({'success': True, 'data': d})]. *)
Inductive HttpResponse :=
| Failure (status : nat) (message : str)
| Success (data : ResponseData).

Definition http_success (r : HttpResponse) : bool :=
  match r with Failure _ _ => false | Success _ => true end.

(** One entry of the handler's list. [matchScore] is the exact
    [int(score * 100)]; in doubles it can be one less (28 for a score of
    0.29). *)
Definition format_rec (r : Result.t) : FormattedRec :=
  {| name := Result.camera r ++ Py.lit " + " ++ Result.objectif r;
     pricePerDay := Result.prix_jour r;
     quantity := 1;
     matchScore := Py.int (Result.score r * 100);
     rec_confidence := Result.confidence r |}.

Definition recommend_equipment (recommendation_model : option Model)
  (data : option Body) (w : World) : HttpResponse * World :=
  match data with
  | None => (Failure 400 (Py.lit "Query is required"), w)
  | Some d =>
    if negb (Py.truthy_opt (query d))
    then (Failure 400 (Py.lit "Query is required"), w)
    else
      let query := Py.strip (default [] (query d)) in
      let days := default 1%Z (days d) in
      if (length query <? 3)%nat
      then (Failure 400 (Py.lit "Query must be at least 3 characters long"), w)
      else
        match recommendation_model with
        | None => (Failure 503 (Py.lit "Recommendation model not available"), w)
        | Some model =>
          let '(recs, w) := get_recommendations model query days w in
          if negb (Response.success recs)
          then (Failure 400 (Response.message recs), w)
          else
            let formatted := map format_rec (Response.recommendations recs) in
            (Success
               {| explanation := Response.message recs;
                  recommendations := formatted;
                  confidence := default 0.8 (Response.model_confidence recs);
                  totalEstimatedCost :=
                    fold_left (fun total r => (total + pricePerDay r * days)%Z)
                              formatted 0%Z |},
             w)
        end
  end.

End App.

(** ** Further predicates used in the statements *)

(** [accepted_at self sims jours idx r]: [r] was built from the row at
    position [idx] and its final score, which reaches the threshold. *)
Definition accepted_at (self : Model) (sims : list Q) (jours : Z) (idx : nat)
  (r : Result.t) : Prop :=
  exists (row : Row.t) (finalScore : Q),
    configs self !! idx = Some row
    /\ sims !! idx = Some finalScore
    /\ quality_threshold <= finalScore
    /\ r = make_result row jours finalScore.

(** [ranked results]: the reported scores never increase along the list. *)
Definition ranked (results : list Result.t) : Prop :=
  StronglySorted (fun r1 r2 => Result.score r2 <= Result.score r1) results.

(** [diverse results]: every result agrees on two or more fields with fewer
    than two of the distinct combinations of the results listed before it. *)
Definition diverse (results : list Result.t) : Prop :=
  forall i r,
    results !! i = Some r ->
    (similar_count (result_key r)
       (list_to_set (map result_key (take i results))) < 2)%nat.

(** ** Parts of the scoring formula named in the statements *)

(** The word set of the text built for a configuration in step 2. *)
Definition config_words (self : Model) (row : Row.t) : gset str :=
  list_to_set
    (Py.split
       (_enhanced_preprocess_text self
          (Row.type row ++ Py.lit " " ++ Row.budget row ++ Py.lit " "
           ++ Row.lieu row))).

(** The base score of step 6 for one row. *)
Definition base_score (self : Model) (processed_query : str)
  (semantic_scores : nat -> Q) (i : nat) (row : Row.t) : Q :=
  semantic_scores i * 0.4
  + keyword_score self (list_to_set (Py.split processed_query)) row * 0.3.

(** ** Shapes of a normalised text *)

(** [single_spaced prev_space s]: every whitespace character of [s] is a
    plain space and no two are adjacent ([prev_space] tells whether the
    character before [s] is one). *)
Fixpoint single_spaced (prev_space : bool) (s : str) : Prop :=
  match s with
  | [] => True
  | c :: r =>
    if Py.isspace c
    then c = 32%N /\ prev_space = false /\ single_spaced true r
    else single_spaced false r
  end.

(** [tight_from prev_word s]: in addition every space of [s] stands between
    two characters that are not whitespace ([prev_word] tells whether the
    character before [s] is one of those). *)
Fixpoint tight_from (prev_word : bool) (s : str) : Prop :=
  match s with
  | [] => True
  | c :: r =>
    if Py.isspace c
    then c = 32%N /\ prev_word = true /\ r <> [] /\ tight_from false r
    else tight_from true r
  end.

(** Removal of trailing whitespace, by recursion on the text. *)
Fixpoint rstrip_direct (s : str) : str :=
  match s with
  | [] => []
  | c :: r =>
    match rstrip_direct r with
    | [] => if Py.isspace c then [] else [c]
    | r' => c :: r'
    end
  end.

(** ** Order of the confidence labels *)

(** Rank of a confidence label, from [low] (0) to [excellent] (4). *)
Definition confidence_rank (c : Confidence) : nat :=
  match c with
  | low => 0 | fair => 1 | good => 2 | very_good => 3 | excellent => 4
  end.

(** ** Query validation ([validate_query], [get_query_suggestions]) *)

Definition MOTS_CLES_VALIDES : list str := Eval vm_compute in map Py.lit [
  "film"; "tournage"; "clip"; "pub"; "interview"; "court"; "métrage";
  "documentaire"; "budget"; "prix"; "studio"; "extérieur"; "intérieur";
  "caméra"; "lumière"; "objectif"; "jour"; "location"; "vidéo"; "son";
  "équipement"; "matériel"; "projecteur"; "micro"; "éclairage";
  "mariage"; "wedding"; "photo"; "photography"; "commercial"; "event";
  "corporate"; "nature"; "portrait"; "fashion"; "sport"; "live"
]%string.

(** The words of the "equipment-related context" test. *)
Definition equipment_context_words : list str := Eval vm_compute in map Py.lit [
  "équipement"; "matériel"; "camera"; "caméra"; "film"; "photo";
  "tournage"; "projet"; "location"; "besoin"
]%string.

Definition validate_query (self : Model) (query : str) : bool :=
  if negb (Py.truthy query) || (length (Py.strip query) <? 3)%nat then false
  else
    let query_lower := str_lower self query in
    let has_valid_keyword := any_in MOTS_CLES_VALIDES query_lower in
    let equipment_context := any_in equipment_context_words query_lower in
    has_valid_keyword || equipment_context.

Definition get_query_suggestions : list str := Eval vm_compute in map Py.lit [
  "court métrage en extérieur avec budget moyen";
  "interview professionnelle en studio avec budget élevé";
  "clip musical dehors budget faible";
  "documentaire nature budget économique";
  "publicité luxe en studio";
  "mariage en extérieur avec grand budget";
  "photographe portrait en intérieur";
  "événement live streaming professionnel"
]%string.

(** ** Data preparation ([_clean_and_enhance_data]) *)

(** One row of [self.prix_df]. *)
Module PrixRow.
Record t := mk {
  type : str;
  materiel : str;
  prix_location_par_jour : Q
}.
End PrixRow.

(** One row of [self.configs] as loaded, before the derived columns are
    added. [prix_estime] is [None] when the table has no such column. *)
Module Config.
Record t := mk {
  type : str;
  budget : str;
  lieu : str;
  camera : str;
  objectif : str;
  lumieres : str;
  prix_estime : option Q
}.
End Config.

(** [self.prix_dict]: filled row by row, a later row replaces an earlier one
    with the same (type, materiel). *)
Definition prix_dict_of (prix_df : list PrixRow.t) : gmap (str * str) Q :=
  fold_left
    (fun prix_dict row =>
       <[ (PrixRow.type row, PrixRow.materiel row)
          := PrixRow.prix_location_par_jour row ]> prix_dict)
    prix_df ∅.

(** [_calculate_enhanced_prix]; with numeric prices nothing in its [try]
    block raises. The products by 0.7 and 1.4 are exact here; the code
    multiplies in doubles, and the truncated product can be one less than the
    exact one (118 instead of 119 for an estimate of 170). *)
Definition _calculate_enhanced_prix (prix_dict : gmap (str * str) Q)
  (config : Config.t) : Q :=
  let camera_price :=
    default 0 (prix_dict !! (Py.lit "camera", Config.camera config)) in
  let objectif_price :=
    default 0 (prix_dict !! (Py.lit "objectif", Config.objectif config)) in
  let lumieres_price :=
    default 0 (prix_dict !! (Py.lit "lumieres", Config.lumieres config)) in
  let total := camera_price + objectif_price + lumieres_price in
  if Qeq_bool total 0
  then
    let base_price := default 300 (Config.prix_estime config) in
    if bool_decide (Config.budget config = Py.lit "low")
    then inject_Z (Py.int (base_price * 0.7))
    else if bool_decide (Config.budget config = Py.lit "high")
    then inject_Z (Py.int (base_price * 1.4))
    else inject_Z (Py.int base_price)
  else total.

(** [.str.lower().str.strip()] on one cell. *)
Definition standardize (lower : str -> str) (cell : str) : str :=
  Py.strip (lower cell).

(** [_clean_and_enhance_data] on the two tables once [dropna()] has removed
    the rows with a missing cell: the three key columns are standardised,
    then the price column is computed from the standardised rows. The
    derived columns of [_add_enhanced_features] are functions of these
    ([_calculate_complexity], [budget_tier]). [None]: the method raises; on
    a configuration table without rows [apply] returns a frame instead of a
    column, and assigning it as the complexity column is a [ValueError]. *)
Definition _clean_and_enhance_data (lower : str -> str)
  (configs : list Config.t) (prix_df : list PrixRow.t)
  : option (list Row.t) :=
  let configs :=
    map (fun c =>
           Config.mk (standardize lower (Config.type c))
                     (standardize lower (Config.budget c))
                     (standardize lower (Config.lieu c))
                     (Config.camera c) (Config.objectif c) (Config.lumieres c)
                     (Config.prix_estime c))
        configs in
  let prix_dict := prix_dict_of prix_df in
  let configs :=
    map (fun c =>
           Row.mk (Config.type c) (Config.budget c) (Config.lieu c)
                  (Config.camera c) (Config.objectif c) (Config.lumieres c)
                  (_calculate_enhanced_prix prix_dict c))
        configs in
  match configs with
  | [] => None
  | _ => Some configs
  end.

(** ** JSON sanitising ([sanitize_for_json] in app.py, repeated as
    [convert_to_json_serializable] in planning_model.py) *)

Local Unset Elimination Schemes.

(** The data of a numeric [np.ndarray]: a 0-d array is a single number,
    otherwise the sub-arrays along the first axis. *)
Inductive Ndarray :=
| NdInteger (z : Z)
| NdFloating (x : Q)
| NdAxis (items : list Ndarray).

(** The Python values that reach the sanitiser. Dictionary keys are values
    themselves. *)
Inductive Value :=
| VNone
| VBool (b : bool)
| VInt (z : Z)
| VFloat (x : Q)
| VStr (s : str)
| VNpInteger (z : Z)
| VNpFloating (x : Q)
| VNpBool (b : bool)
| VNdarray (a : Ndarray)
| VDict (items : list (Value * Value))
| VList (items : list Value)
| VTuple (items : list Value).

Local Set Elimination Schemes.

(** [ndarray.tolist()] *)
Fixpoint tolist (a : Ndarray) : Value :=
  match a with
  | NdInteger z => VInt z
  | NdFloating x => VFloat x
  | NdAxis items => VList (map tolist items)
  end.

Fixpoint sanitize_for_json (obj : Value) : Value :=
  match obj with
  | VNpInteger z => VInt z
  | VNpFloating x => VFloat x
  | VNdarray a => tolist a
  | VDict items =>
    VDict (map (fun item => match item with
                            | (key, value) => (key, sanitize_for_json value)
                            end) items)
  | VList items => VList (map sanitize_for_json items)
  | VTuple items => VList (map sanitize_for_json items)
  | _ => obj
  end.

(** No NumPy integer, NumPy float, array or tuple at the top or in any
    position reached through list items and dictionary values. *)
Fixpoint builtin_values (obj : Value) : bool :=
  match obj with
  | VNpInteger _ | VNpFloating _ | VNdarray _ | VTuple _ => false
  | VDict items =>
    forallb (fun item => match item with
                         | (_, value) => builtin_values value
                         end) items
  | VList items => forallb builtin_values items
  | _ => true
  end.

(** The keys of a dictionary, in order, at every depth. *)
Fixpoint dict_keys (obj : Value) : list Value :=
  match obj with
  | VDict items =>
    flat_map (fun item => match item with
                          | (key, value) => key :: dict_keys value
                          end) items
  | VList items => flat_map dict_keys items
  | VTuple items => flat_map dict_keys items
  | _ => []
  end.

(** ** The fallback model of app.py ([FallbackRecommendationModel]) and the
    request handler when it is the installed model *)

Module Fallback.

(** One entry of its [recommendations] list; the confidence label is a plain
    string. *)
Record Rec := {
  type : str;
  budget : str;
  lieu : str;
  camera : str;
  objectif : str;
  lumieres : str;
  prix_jour : Z;
  prix_total : Z;
  duree : Z;
  score : Q;
  confidence : str
}.

Record Response := {
  success : bool;
  message : str;
  query : str;
  duration_days : Z;
  recommendations : list Rec
}.

Definition outdoor_words : list str := Eval vm_compute in
  map Py.lit ["mariage"; "wedding"; "outdoor"; "extérieur"; "photo"]%string.

Definition get_recommendations (lower : str -> str) (query : str) (days : Z)
  : Response :=
  let query_lower := lower query in
  let recommendations :=
    if any_in outdoor_words query_lower
    then [ {| type := Py.lit "wedding";
              budget := Py.lit "high";
              lieu := Py.lit "extérieur";
              camera := Py.lit "Canon R6";
              objectif := Py.lit "Canon 24-70mm f/2.8";
              lumieres := Py.lit "Aputure 300x";
              prix_jour := 450;
              prix_total := 450 * days;
              duree := days;
              score := 0.85;
              confidence := Py.lit "very_good" |} ]
    else [ {| type := Py.lit "general";
              budget := Py.lit "medium";
              lieu := Py.lit "intérieur";
              camera := Py.lit "Canon EOS R";
              objectif := Py.lit "Canon 50mm f/1.8";
              lumieres := Py.lit "Aputure Amaran 100x";
              prix_jour := 320;
              prix_total := 320 * days;
              duree := days;
              score := 0.70;
              confidence := Py.lit "relevant" |} ] in
  {| success := true;
     message := Py.lit "Found " ++ str_of_nat (length recommendations)
                ++ Py.lit " recommendations";
     query := query;
     duration_days := days;
     recommendations := recommendations |}.

Record FormattedRec := {
  name : str;
  pricePerDay : Z;
  quantity : Z;
  matchScore : Z;
  rec_confidence : str
}.

Record ResponseData := {
  explanation : str;
  formatted : list FormattedRec;
  data_confidence : Q;
  totalEstimatedCost : Z
}.

Inductive HttpResponse :=
| Failure (status : nat) (message : str)
| Success (data : ResponseData).

Definition format_rec (r : Rec) : FormattedRec :=
  {| name := camera r ++ Py.lit " + " ++ objectif r;
     pricePerDay := prix_jour r;
     quantity := 1;
     matchScore := Py.int (score r * 100);
     rec_confidence := confidence r |}.

(** [recommend_equipment] of app.py with the fallback object as
    [recommendation_model]; its response has no [model_confidence] key, so
    the handler's default 0.8 is reported. *)
Definition recommend_equipment (lower : str -> str) (data : option App.Body)
  : HttpResponse :=
  match data with
  | None => Failure 400 (Py.lit "Query is required")
  | Some d =>
    if negb (Py.truthy_opt (App.query d))
    then Failure 400 (Py.lit "Query is required")
    else
      let query := Py.strip (default [] (App.query d)) in
      let days := default 1%Z (App.days d) in
      if (length query <? 3)%nat
      then Failure 400 (Py.lit "Query must be at least 3 characters long")
      else
        let recs := get_recommendations lower query days in
        if negb (success recs)
        then Failure 400 (message recs)
        else
          let formatted := map format_rec (recommendations recs) in
          Success
            {| explanation := message recs;
               formatted := formatted;
               data_confidence := 0.8;
               totalEstimatedCost :=
                 fold_left (fun total r => (total + pricePerDay r * days)%Z)
                           formatted 0%Z |}
  end.

End Fallback.

(** ** Start-up ([_create_enhanced_sample_data], [_load_enhanced_data],
    [initialize]; [initialize_models] in app.py) *)

(** [l * n] on a list. *)
Definition times {A : Type} (l : list A) (n : nat) : list A :=
  concat (repeat l n).

(** [pd.DataFrame({...})] accepts columns of one common length only and
    raises [ValueError] otherwise. *)
Definition same_length (lengths : list nat) : bool :=
  match lengths with
  | [] => true
  | n :: rest => forallb (Nat.eqb n) rest
  end.

Definition configs_frame (types budgets lieux cameras objectifs lumieres : list str)
  (prix_estimates : list Z) : option (list Config.t) :=
  if same_length [length types; length budgets; length lieux; length cameras;
                  length objectifs; length lumieres; length prix_estimates]
  then Some (map (fun i =>
                    Config.mk (nth i types []) (nth i budgets [])
                              (nth i lieux []) (nth i cameras [])
                              (nth i objectifs []) (nth i lumieres [])
                              (Some (inject_Z (nth i prix_estimates 0%Z))))
                 (seq 0 (length types)))
  else None.

Definition prix_frame (types materiels : list str) (prix : list Z)
  : option (list PrixRow.t) :=
  if same_length [length types; length materiels; length prix]
  then Some (map (fun i =>
                    PrixRow.mk (nth i types []) (nth i materiels [])
                               (inject_Z (nth i prix 0%Z)))
                 (seq 0 (length types)))
  else None.

(** [np.random.randint(low, high)] on the global generator: the unit-interval
    sample [u] scaled to the integers from [low] to [high - 1]. *)
Definition randint (low high : Z) (u : Q) : Z :=
  (low + Qfloor (u * inject_Z (high - low)))%Z.

(** [_create_enhanced_sample_data]: [Some] of the two tables, [None] when a
    [DataFrame] constructor raises. *)
Definition _create_enhanced_sample_data (w : World)
  : option (list Config.t * list PrixRow.t) * World :=
  let types :=
    times (map Py.lit ["court-métrage"; "interview"; "pub"; "documentaire";
                       "clip"]%string) 200 in
  let budgets := times (map Py.lit ["low"; "medium"; "high"]%string) 334 in
  let lieux :=
    times (map Py.lit ["intérieur"; "studio"; "extérieur"]%string) 334 in
  let cameras :=
    times (map Py.lit [
      "Sony A6400"; "Canon R6"; "Sony FX6"; "Canon C70"; "Sony A7III";
      "Canon EOS R"; "Sony A7R IV"; "Blackmagic URSA Mini Pro"; "Canon C300";
      "Sony FS7"; "Panasonic GH5"; "Canon 5D Mark IV"; "Sony A7S III"
    ]%string) 77 in
  let objectifs :=
    times (map Py.lit [
      "Canon 50mm f/1.8"; "Sigma 24-70mm f/2.8"; "Canon L 24-70mm f/2.8";
      "Sony FE 85mm f/1.4"; "Sigma 18-35mm f/1.8"; "Canon 85mm f/1.2";
      "Sony FE 24-70mm f/2.8"; "Sigma 35mm f/1.4"; "Canon 16-35mm f/2.8"
    ]%string) 112 in
  let lumieres :=
    times (map Py.lit [
      "Neewer LED Panel"; "Aputure Amaran 100x"; "Aputure 300x";
      "Godox SL-60W"; "Aputure Amaran 200x"; "Litepanels Gemini 2x1";
      "Arri Signature Prime 35mm"; "Creamsource Vortex8"
    ]%string) 125 in
  let prix_estimates :=
    map (fun i =>
           let budget := nth i budgets [] in
           let u := rng_stream w (rng_pos w + i)%nat in
           if bool_decide (budget = Py.lit "low") then randint 150 400 u
           else if bool_decide (budget = Py.lit "medium") then randint 350 700 u
           else randint 600 1200 u)
        (seq 0 1000) in
  let w := Build_World (rng_stream w) (rng_pos w + 1000)%nat (encoded w) in
  match configs_frame types budgets lieux cameras objectifs lumieres
                      prix_estimates with
  | None => (None, w)
  | Some configs =>
    let materiels := take 20 cameras ++ take 20 objectifs ++ take 15 lumieres in
    let types_expanded :=
      times [Py.lit "camera"] 20 ++ times [Py.lit "objectif"] 20
      ++ times [Py.lit "lumieres"] 15 in
    let prix_par_jour :=
      (times [200; 250; 450; 180; 220] 4 ++ times [50; 80; 120; 60; 90] 4
       ++ times [40; 60; 100; 70; 110] 3)%Z in
    match prix_frame types_expanded materiels prix_par_jour with
    | None => (None, w)
    | Some prix_df => (Some (configs, prix_df), w)
    end
  end.

(** [_load_enhanced_data]. [files] holds the rows without a missing cell of
    the two CSV files when both exist. [None] in the result: the method
    raises. *)
Definition _load_enhanced_data (lower : str -> str)
  (files : option (list Config.t * list PrixRow.t)) (w : World)
  : option (list Row.t) * World :=
  match files with
  | Some (configs, prix_df) =>
    (_clean_and_enhance_data lower configs prix_df, w)
  | None =>
    match _create_enhanced_sample_data w with
    | (Some (configs, prix_df), w) =>
      (_clean_and_enhance_data lower configs prix_df, w)
    | (None, w) => (None, w)
    end
  end.

(** What start-up finds outside the program.
    - [nlp_models]: outcome of [_load_nlp_models], [None] when loading the
      embedding model raises, otherwise the spaCy pipeline or [None] for
      basic processing.
    - [data_files]: the two CSV files, when both exist.
    - [embed catalog]: outcome of [_precompute_enhanced_embeddings] followed
      by [_setup_advanced_features] on the prepared catalog, [None] when
      encoding raises, otherwise the similarity stage of the model. *)
Record Runtime := {
  nlp_models : option (option (str -> option (list str)));
  data_files : option (list Config.t * list PrixRow.t);
  embed : list Row.t -> option (str -> option (nat -> Q));
  runtime_lower : str -> str;
  runtime_is_word_char : N -> bool;
  runtime_set_order : list str -> list str;
  runtime_argsort_ties : list Q -> nat -> nat -> bool
}.

(** [initialize]: [Some self] when it returns [True], [None] when it returns
    [False]. Of the process state only the random generator is followed
    here; the texts encoded at start-up are not recorded. *)
Definition initialize (rt : Runtime) (w : World) : option Model * World :=
  match nlp_models rt with
  | None => (None, w)
  | Some nlp =>
    match _load_enhanced_data (runtime_lower rt) (data_files rt) w with
    | (None, w) => (None, w)
    | (Some configs, w) =>
      match embed rt configs with
      | None => (None, w)
      | Some similarity =>
        (Some {| is_initialized := true;
                 configs := configs;
                 nlp := nlp;
                 str_lower := runtime_lower rt;
                 is_word_char := runtime_is_word_char rt;
                 semantic_similarity := similarity;
                 set_order := runtime_set_order rt;
                 argsort_ties := runtime_argsort_ties rt |},
         w)
      end
    end
  end.

(** The object that [initialize_models] leaves in the global
    [recommendation_model]. *)
Inductive Recommender :=
| Enhanced (self : Model)
| FallbackModel.

Definition initialize_models (rt : Runtime) (w : World) : Recommender * World :=
  match initialize rt w with
  | (Some self, w) => (Enhanced self, w)
  | (None, w) => (FallbackModel, w)
  end.

(** ** Demand prediction requests ([predict_demand] of app.py) *)

Module Demand.

(** The JSON body; a key that is absent is [None]. A body without any key
    at all is no body ([None] below). *)
Record Body := {
  material_id : option str;
  equipmentId : option str;
  start_date : option str;
  startDate : option str;
  end_date : option str;
  endDate : option str
}.


Record Daily := {
  date : str;
  predicted_demand : Z;
  confidence : Q
}.

Record Advice := {
  advice_type : str;
  advice_message : str;
  priority : str
}.

(** The dictionary built when no trained planning model is available:
    the material, the three entries of [period], the five entries of
    [summary], the daily predictions and the recommendations. *)
Record Prediction := {
  for_material : str;
  period_start : str;
  period_end : str;
  days : Z;
  average_demand : Q;
  maximum_demand : Z;
  minimum_demand : Z;
  total_predicted_demand : Z;
  overall_confidence : Q;
  daily_predictions : list Daily;
  recommendations : list Advice
}.

Inductive HttpResponse :=
| Failure (status : nat) (message : str)
| Success (data : Prediction + Value).

Section Calendar.

(** Dates are day numbers. [strptime text] is
    [datetime.strptime(text, '%Y-%m-%d')]: the day, or the text of the
    [ValueError]; [month] and [strftime] are the month of a day and its
    ['%Y-%m-%d'] form. *)
Variable strptime : str -> str + Z.
Variable month : Z -> Z.
Variable strftime : Z -> str.


End Calendar.

End Demand.

(** ** Concrete catalogs and collaborators used in the examples

    The example texts are lower-case words separated by single spaces, none
    of them a synonym key with another canonical form; without the optional
    lemmatiser the normaliser returns such a text unchanged. The models
    run without the lemmatiser, as the source does when the French
    pipeline is not installed. *)
Module Examples.

(** [str.lower] and [\w] on the code points below 256 (ASCII and the
    Latin-1 letters), which cover the example texts. *)
Definition latin1_lower (text : str) : str :=
  map (fun c =>
         if ((65 <=? c) && (c <=? 90)
             || (192 <=? c) && (c <=? 222) && negb (c =? 215))%N
         then (c + 32)%N else c) text.

Definition latin1_is_word (c : N) : bool :=
  ((48 <=? c) && (c <=? 57) || (65 <=? c) && (c <=? 90) || (c =? 95)
   || (97 <=? c) && (c <=? 122)
   || (c =? 170) || (c =? 178) || (c =? 179) || (c =? 181) || (c =? 185)
   || (c =? 186) || (188 <=? c) && (c <=? 190)
   || (192 <=? c) && (c <=? 255) && negb (c =? 215) && negb (c =? 247))%N.

(** Python's iteration order over a small set, taken here as first-seen
    order without repetitions. *)
Definition first_seen_order (l : list str) : list str := remove_dups l.

(** A sort that leaves equal values in index order, as NumPy's does on the
    two-row catalogs of the examples. *)
Definition index_order_ties : list Q -> nat -> nat -> bool :=
  fun _ _ _ => true.

Definition basic_kit (type budget lieu : string) (prix : Q) : Row.t :=
  Row.mk (Py.lit type) (Py.lit budget) (Py.lit lieu)
         (Py.lit "Sony A6400") (Py.lit "Canon 50mm f/1.8")
         (Py.lit "Neewer LED Panel") prix.

Definition pro_kit (type budget lieu : string) (prix : Q) : Row.t :=
  Row.mk (Py.lit type) (Py.lit budget) (Py.lit lieu)
         (Py.lit "Canon R6") (Py.lit "Sigma 24-70mm f/2.8")
         (Py.lit "Aputure Amaran 100x") prix.

Definition model_of (catalog : list Row.t) (sem : str -> option (nat -> Q))
  : Model :=
  {| is_initialized := true;
     configs := catalog;
     nlp := None;
     str_lower := latin1_lower;
     is_word_char := latin1_is_word;
     semantic_similarity := sem;
     set_order := first_seen_order;
     argsort_ties := index_order_ties |}.

Definition constant_similarity (s : Q) : str -> option (nat -> Q) :=
  fun _ => Some (fun _ => s).

Definition embedder_down : str -> option (nat -> Q) := fun _ => None.

(** Two configurations with the same (type, budget, lieu). *)
Definition twin_catalog : list Row.t :=
  [ basic_kit "pub" "low" "studio" 290; pro_kit "pub" "low" "studio" 390 ].

(** Two configurations that differ in every key field and carry the same
    equipment. *)
Definition tie_catalog : list Row.t :=
  [ basic_kit "pub" "low" "studio" 290;
    basic_kit "clip" "high" "extérieur" 290 ].

Definition single_catalog : list Row.t :=
  [ basic_kit "pub" "low" "studio" 290 ].


Definition twin_model : Model :=
  model_of twin_catalog (constant_similarity (1 # 2)).

Definition tie_model : Model :=
  model_of tie_catalog (constant_similarity (1 # 2)).

(** The embedding model finds the query unrelated to the only row. *)
Definition opposed_model : Model :=
  model_of single_catalog (constant_similarity (-(1 # 2))).

(** The embedding model finds no similarity at all. *)
Definition unrelated_model : Model :=
  model_of tie_catalog (constant_similarity 0).

Definition failing_model : Model := model_of tie_catalog embedder_down.


Definition uninitialized_model : Model :=
  {| is_initialized := false;
     configs := twin_catalog;
     nlp := None;
     str_lower := latin1_lower;
     is_word_char := latin1_is_word;
     semantic_similarity := constant_similarity (1 # 2);
     set_order := first_seen_order;
     argsort_ties := index_order_ties |}.

Definition world0 : World :=
  {| rng_stream := fun i => if (i <? 2)%nat then 0.9 else 0;
     rng_pos := 0;
     encoded := [] |}.

End Examples.

(** ** Tactics *)

(** Reduce the binds of the option monad whose argument is known. *)
Tactic Notation "run_bind" :=
  cbv beta iota delta [mbind option_bind].
Tactic Notation "run_bind" "in" hyp(H) :=
  cbv beta iota delta [mbind option_bind] in H.

(** * Properties *)

(** ** Sanity checks of the Python primitives *)

Example lit_eleve : Py.lit "élevé" = [233; 108; 101; 118; 233]%N.
Proof. reflexivity. Qed.

Example split_example :
  Py.split (Py.lit "  court métrage   studio ")
  = [Py.lit "court"; Py.lit "métrage"; Py.lit "studio"].
Proof. reflexivity. Qed.

Example strip_example : Py.strip (Py.lit "  ab ") = Py.lit "ab".
Proof. reflexivity. Qed.

Example contains_example :
  Py.contains (Py.lit "budget pas cher") (Py.lit "pas cher") = true
  /\ Py.contains (Py.lit "budget") (Py.lit "low") = false.
Proof. split; reflexivity. Qed.

Example round_half_even :
  Py.round (5 # 2) = 2%Z /\ Py.round (7 # 2) = 4%Z /\ Py.round 1.75 = 2%Z
  /\ Py.round 6 = 6%Z /\ Py.round (-(1 # 2)) = 0%Z.
Proof. repeat split; reflexivity. Qed.

Example int_truncates :
  Py.int (7035 # 10) = 703%Z /\ Py.int (-(7 # 2)) = (-3)%Z.
Proof. split; reflexivity. Qed.

Example synonyms_reportage :
  In (Py.lit "reportage", Py.lit "documentaire") SYNONYMS
  /\ ~ In (Py.lit "reportage", Py.lit "interview") SYNONYMS
  /\ length SYNONYMS = 62%nat.
Proof.
  split; [| split]; [vm_compute; tauto | | reflexivity].
  intros H. vm_compute in H. repeat (destruct H as [H | H]; [discriminate |]).
  exact H.
Qed.

Example preprocess_examples :
  _enhanced_preprocess_text Examples.twin_model
    (Py.lit "Interview STUDIO, budget élevé!")
  = Py.lit "interview studio budget high"
  /\ _enhanced_preprocess_text Examples.twin_model
       (Py.lit "pas cher, plein air; int")
     = Py.lit "low extérieur intérieur"
  /\ _enhanced_preprocess_text Examples.twin_model (Py.lit "pub low studio")
     = Py.lit "pub low studio"
  /\ _enhanced_preprocess_text Examples.twin_model
       (Py.lit "clip high extérieur")
     = Py.lit "clip high extérieur"
  /\ _enhanced_preprocess_text Examples.twin_model (Py.lit " ?! ") = [].
Proof. repeat split; vm_compute; reflexivity. Qed.

(** Synonym folding is sequential: the canonical form written for "court"
    contains the later key "métrage", which is folded again. *)
Example preprocess_cascade :
  _enhanced_preprocess_text Examples.twin_model (Py.lit "court métrage")
  = Py.lit "court-court-métrage court-métrage".
Proof. vm_compute. reflexivity. Qed.

Example features_example :
  _extract_enhanced_features
    (Examples.model_of [Examples.basic_kit "interview" "high" "studio" 290]
                       (Examples.constant_similarity (1 # 2)))
    (Py.lit "interview studio budget élevé")
  = Features.mk (Some High) (Some (Py.lit "studio"))
                (Some (Py.lit "interview")) 4.
Proof. vm_compute. reflexivity. Qed.

(** ** Words of a text *)

Lemma split_from_nonempty (s cur t : str) :
  In t (Py.split_from cur s) -> t <> [].
Proof.
  revert cur. induction s as [| c r IH]; intros cur; simpl.
  - destruct cur as [| a cur']; simpl; [tauto |].
    intros [<- | []] E. apply (f_equal (@length N)) in E.
    rewrite length_app in E. simpl in E. lia.
  - destruct (Py.isspace c).
    + destruct cur as [| a cur']; [apply IH |].
      intros [<- | H]; [| eapply IH; exact H].
      intros E. apply (f_equal (@length N)) in E. simpl in E.
      rewrite length_app in E. simpl in E. lia.
    + apply IH.
Qed.

Lemma words_truthy (text w : str) :
  w ∈ (list_to_set (Py.split text) : gset str) -> Py.truthy w = true.
Proof.
  rewrite elem_of_list_to_set, list_elem_of_In. intros H.
  apply split_from_nonempty in H. destruct w; [congruence | reflexivity].
Qed.

(** ** Feature extraction and boosting *)

Lemma detect_type_truthy (self : Model) (text : str) (features : Features.t) :
  Py.truthy_opt (Features.type features) = false ->
  let words : gset str := list_to_set (Py.split text) in
  Py.truthy_opt (Features.type (detect_type self words features))
  = match find (fun ptype => bool_decide (ptype ∈ words)) (TYPE_VALUES self) with
    | Some _ => true
    | None => false
    end.
Proof.
  intros Hnone words. unfold detect_type.
  destruct (find _ (TYPE_VALUES self)) as [ty |] eqn:Hfind; simpl; [| exact Hnone].
  apply find_some in Hfind as [_ Hin].
  apply bool_decide_eq_true in Hin. exact (words_truthy _ _ Hin).
Qed.

Lemma match_float_cases (column value : str) :
  match_float column value = 0 \/ match_float column value = 1.
Proof. unfold match_float. destruct (bool_decide _); auto. Qed.

Lemma boost_bounds (extracted : Features.t) (row : Row.t) :
  0.3 <= boost_strength extracted <= 0.7 ->
  1 <= boost extracted row <= 3.1.
Proof.
  intros Hs. unfold boost.
  set (bs := boost_strength extracted) in *.
  destruct (Features.type extracted) as [ty |];
    [destruct (Py.truthy ty);
     [destruct (match_float_cases (Row.type row) ty) as [-> | ->] |] |];
    (destruct (Features.budget extracted) as [b |];
     [destruct (match_float_cases (Row.budget row) (budget_name b)) as [-> | ->] |]);
    (destruct (Features.lieu extracted) as [l |];
     [destruct (Py.truthy l);
      [destruct (match_float_cases (Row.lieu row) l) as [-> | ->] |] |]);
    lra.
Qed.

(** C10. For every model and query the extracted [specificity_score] is the
    sum of one point for a detected budget, one point for a detected
    location, and two points for an exact type match or else one point for
    an inferred type; it lies between 0 and 4, the boost strength
    [0.3 + 0.1 * specificity_score] lies in [0.3, 0.7] and the boost
    multiplier of every row lies in [1, 3.1]. *)
Theorem specificity_and_boost_bounds (self : Model) (query : str) (row : Row.t) :
  let features := _extract_enhanced_features self query in
  let words : gset str :=
    list_to_set (Py.split (_enhanced_preprocess_text self query)) in
  let exact_type :=
    find (fun ptype => bool_decide (ptype ∈ words)) (TYPE_VALUES self) in
  Features.specificity_score features
  = ((match Features.budget features with Some _ => 1 | None => 0 end)
     + (match Features.lieu features with Some _ => 1 | None => 0 end)
     + (match exact_type, Features.type features with
        | Some _, _ => 2
        | None, Some _ => 1
        | None, None => 0
        end))%Z
  /\ (0 <= Features.specificity_score features <= 4)%Z
  /\ 0.3 <= boost_strength features <= 0.7
  /\ 1 <= boost features row <= 3.1.
Proof.
  intros features words exact_type.
  assert (Hsum : Features.specificity_score features
    = ((match Features.budget features with Some _ => 1 | None => 0 end)
       + (match Features.lieu features with Some _ => 1 | None => 0 end)
       + (match exact_type, Features.type features with
          | Some _, _ => 2
          | None, Some _ => 1
          | None, None => 0
          end))%Z).
  { subst features exact_type words. unfold _extract_enhanced_features.
    set (pq := _enhanced_preprocess_text self query).
    set (f1 := detect_budget pq _).
    set (f2 := detect_lieu self _ f1).
    assert (H1 : Features.type f1 = None /\ Features.lieu f1 = None
                 /\ Features.specificity_score f1
                    = match Features.budget f1 with Some _ => 1 | None => 0 end%Z).
    { subst f1. unfold detect_budget.
      destruct (find _ budget_patterns) as [[b ?] |]; simpl; auto. }
    destruct H1 as (Ht1 & Hl1 & Hs1).
    assert (H2 : Features.type f2 = None /\ Features.budget f2 = Features.budget f1
                 /\ Features.specificity_score f2
                    = (Features.specificity_score f1
                       + match Features.lieu f2 with Some _ => 1 | None => 0 end)%Z).
    { subst f2. unfold detect_lieu.
      destruct (find _ (set_order self LIEU_VALUES)); simpl;
        rewrite ?Hl1; repeat split; auto; lia. }
    destruct H2 as (Ht2 & Hb2 & Hs2).
    assert (Htr := detect_type_truthy self pq f2).
    rewrite Ht2 in Htr. specialize (Htr eq_refl). simpl in Htr.
    unfold detect_type in *.
    destruct (find _ (TYPE_VALUES self)) as [ty |] eqn:Hfind.
    - unfold infer_type. rewrite Htr. simpl. rewrite Hb2. lia.
    - unfold infer_type. rewrite Htr. cbn [negb].
      repeat match goal with
             | |- context [any_in ?l pq] => destruct (any_in l pq)
             end;
        cbn [Features.specificity_score Features.budget Features.lieu
             Features.type];
        rewrite Hb2, ?Ht2; lia. }
  assert (Hrange : (0 <= Features.specificity_score features <= 4)%Z).
  { rewrite Hsum.
    destruct (Features.budget features), (Features.lieu features),
      exact_type, (Features.type features); lia. }
  assert (Hstrength : 0.3 <= boost_strength features <= 0.7).
  { unfold boost_strength.
    assert (H0 : inject_Z 0 <= inject_Z (Features.specificity_score features))
      by (rewrite <- Zle_Qle; lia).
    assert (H4 : inject_Z (Features.specificity_score features) <= inject_Z 4)
      by (rewrite <- Zle_Qle; lia).
    change (inject_Z 0) with 0 in H0. change (inject_Z 4) with 4 in H4.
    lra. }
  repeat split; try tauto; try lia; apply boost_bounds; exact Hstrength.
Qed.

(** ** Numbers *)

Lemma ltb_lt (x y : Q) : Py.ltb x y = true <-> x < y.
Proof.
  unfold Py.ltb. rewrite negb_true_iff. split.
  - intros H. apply Qnot_le_lt. intros Hle.
    apply Qle_bool_iff in Hle. congruence.
  - intros H. destruct (Qle_bool y x) eqn:E; [| reflexivity].
    apply Qle_bool_iff in E. lra.
Qed.

Lemma ltb_ge (x y : Q) : Py.ltb x y = false <-> y <= x.
Proof.
  unfold Py.ltb. rewrite negb_false_iff. apply Qle_bool_iff.
Qed.

Lemma round_ge_floor (x : Q) : (Qfloor x <= Py.round x)%Z.
Proof.
  unfold Py.round.
  destruct (Qle_bool _ (1 # 2)); [destruct (Qle_bool (1 # 2) _) |];
    try destruct (Z.even _); lia.
Qed.


(** ** The selection loop *)

Section SelectionLoop.

Context (self : Model) (sims : list Q) (jours : Z).

Lemma select_step_inv (results : list Result.t) (seen : gset Key) (idx : nat)
  (st' : Selection) :
  select_step self sims jours (results, seen) idx = Some st' ->
  exists row, configs self !! idx = Some row /\
    (((2 <= similar_count (combo_key row) seen)%nat /\ st' = (results, seen))
     \/ ((similar_count (combo_key row) seen < 2)%nat /\
         exists s, sims !! idx = Some s /\
           ((s < quality_threshold
             /\ st' = (results, {[ combo_key row ]} ∪ seen))
            \/ (quality_threshold <= s
                /\ st' = (results ++ [make_result row jours s],
                          {[ combo_key row ]} ∪ seen))))).
Proof.
  unfold select_step.
  destruct (configs self !! idx) as [row |]; run_bind; [| discriminate].
  intros H. exists row. split; [reflexivity |].
  destruct (2 <=? similar_count (combo_key row) seen)%nat eqn:Hsim.
  - apply Nat.leb_le in Hsim. left. split; [exact Hsim | congruence].
  - apply Nat.leb_gt in Hsim. right. split; [exact Hsim |].
    destruct (sims !! idx) as [s |]; [| discriminate].
    exists s. split; [reflexivity |].
    destruct (Py.ltb s quality_threshold) eqn:Hq.
    + apply ltb_lt in Hq. left. split; [exact Hq | congruence].
    + apply ltb_ge in Hq. right. split; [exact Hq | congruence].
Qed.

(** A property of the loop state kept by every iteration holds when the
    loop ends. *)
Lemma select_loop_invariant (P : Selection -> Prop) :
  (forall st idx st',
      P st -> select_step self sims jours st idx = Some st' -> P st') ->
  forall indices st st',
    P st -> select_loop self sims jours indices st = Some st' -> P st'.
Proof.
  intros Hstep indices.
  induction indices as [| idx rest IH]; intros st st' HP; cbn [select_loop].
  - intros [= <-]. exact HP.
  - destruct (5 <=? length st.1)%nat; [intros [= <-]; exact HP |].
    destruct (select_step self sims jours st idx) as [st1 |] eqn:E;
      run_bind; [| discriminate].
    apply IH. eapply Hstep; eassumption.
Qed.

Lemma select_loop_accepted (indices : list nat) (st' : Selection) :
  select_loop self sims jours indices ([], ∅) = Some st' ->
  Forall (accepted self sims jours) st'.1.
Proof.
  apply (select_loop_invariant
           (fun st => Forall (accepted self sims jours) st.1)); [| constructor].
  intros [results seen] idx st1 HP Hstep.
  apply select_step_inv in Hstep as (row & Hrow & [[_ ->] | [_ (s & Hs & H)]]);
    [exact HP |].
  destruct H as [[_ ->] | [Hq ->]]; [exact HP |].
  simpl. apply Forall_app. split; [exact HP |].
  constructor; [| constructor]. exists idx, row, s. auto.
Qed.

(** At most five results are collected. *)
Lemma select_loop_length (indices : list nat) (st st' : Selection) :
  (length st.1 <= 5)%nat ->
  select_loop self sims jours indices st = Some st' ->
  (length st'.1 <= 5)%nat.
Proof.
  revert st. induction indices as [| idx rest IH]; intros st Hlen;
    cbn [select_loop].
  - intros [= <-]. exact Hlen.
  - destruct (5 <=? length st.1)%nat eqn:E; [intros [= <-]; exact Hlen |].
    apply Nat.leb_gt in E.
    destruct (select_step self sims jours st idx) as [st1 |] eqn:Hstep;
      run_bind; [| discriminate].
    apply IH. destruct st as [results seen].
    apply select_step_inv in Hstep as (row & _ & [[_ ->] | [_ (s & _ & H)]]);
      [simpl in *; lia |].
    destruct H as [[_ ->] | [_ ->]]; simpl in *; [lia |].
    rewrite length_app. simpl. lia.
Qed.

(** When every score is below the threshold nothing is accepted. *)
Lemma select_loop_nothing_accepted (indices : list nat) (st' : Selection) :
  Forall (fun s => s < quality_threshold) sims ->
  select_loop self sims jours indices ([], ∅) = Some st' ->
  st'.1 = [].
Proof.
  intros Hlow.
  apply (select_loop_invariant (fun st => st.1 = [])); [| reflexivity].
  intros [results seen] idx st1 HP Hstep. simpl in HP. subst results.
  apply select_step_inv in Hstep as (row & _ & [[_ ->] | [_ (s & Hs & H)]]);
    [reflexivity |].
  destruct H as [[_ ->] | [Hq _]]; [reflexivity |].
  rewrite Forall_forall in Hlow.
  apply list_elem_of_lookup_2, Hlow in Hs. lra.
Qed.

End SelectionLoop.

(** Every entry of a returned [recommendations] list was accepted by the
    loop from the scores of that call. *)
Lemma recommendations_accepted (self : Model) (user_query : str) (jours : Z)
  (w : World) (r : Result.t) :
  In r (Response.recommendations
          (get_recommendations self user_query jours w).1) ->
  accepted self (_calculate_enhanced_scores self user_query w).1 jours r.
Proof.
  unfold get_recommendations, get_recommendations_try.
  destruct (negb (is_initialized self)); [intros [] |].
  destruct (length (Py.strip user_query) <? 3)%nat; [intros [] |].
  destruct (_calculate_enhanced_scores self user_query w) as [sims w1].
  destruct (select_loop self sims jours (top_indices self sims) ([], ∅))
    as [[results seen] |] eqn:Hloop; [| intros []].
  simpl. intros Hin.
  apply select_loop_accepted in Hloop. simpl in Hloop.
  rewrite Forall_forall in Hloop. apply Hloop.
  apply list_elem_of_In. exact Hin.
Qed.

(** ** Ratings and prices of the recommendations *)

(** C9. Every recommendation returned by [get_recommendations] was built
    from a catalog row and its final score, and its [quality_rating] is
    [min(5, round(finalScore * 5 + 1))], an integer between 1 and 5. *)
Theorem quality_rating_range (self : Model) (user_query : str) (jours : Z)
  (w : World) (r : Result.t) :
  In r (Response.recommendations
          (get_recommendations self user_query jours w).1) ->
  exists (idx : nat) (row : Row.t) (finalScore : Q),
    configs self !! idx = Some row
    /\ (_calculate_enhanced_scores self user_query w).1 !! idx = Some finalScore
    /\ r = make_result row jours finalScore
    /\ Result.quality_rating r = Z.min 5 (Py.round (finalScore * 5 + 1))
    /\ (1 <= Result.quality_rating r <= 5)%Z.
Proof.
  intros Hin.
  destruct (recommendations_accepted _ _ _ _ _ Hin)
    as (idx & row & s & Hrow & Hs & Hq & ->).
  exists idx, row, s. repeat split; auto; simpl.
  - assert (H1 : (Qfloor 1 <= Qfloor (s * 5 + 1))%Z).
    { apply Qfloor_resp_le. unfold quality_threshold in Hq. lra. }
    pose proof (round_ge_floor (s * 5 + 1)). change (Qfloor 1) with 1%Z in H1.
    lia.
  - lia.
Qed.

Lemma quality_rating_range_witness :
  exists r,
    In r (Response.recommendations
            (get_recommendations Examples.twin_model (Py.lit "pub low studio")
                                 1 Examples.world0).1)
    /\ (1 <= Result.quality_rating r <= 5)%Z.
Proof.
  destruct (Response.recommendations
              (get_recommendations Examples.twin_model
                 (Py.lit "pub low studio") 1 Examples.world0).1)
    as [| r rest] eqn:E; [vm_compute in E; discriminate |].
  exists r. split; [left; reflexivity |].
  destruct (quality_rating_range Examples.twin_model (Py.lit "pub low studio")
              1 Examples.world0 r) as (idx & row & s & _ & _ & _ & _ & H).
  - rewrite E. left. reflexivity.
  - exact H.
Defined.





(** ** The ranking order *)

Lemma insert_index_perm (a : nat -> Q) (before : nat -> nat -> bool)
  (i : nat) (l : list nat) :
  Permutation (insert_index a before i l) (i :: l).
Proof.
  induction l as [| j r IH]; simpl; [reflexivity |].
  destruct (Py.ltb (a i) (a j) || Qeq_bool (a i) (a j) && before i j);
    [reflexivity |].
  rewrite IH. apply perm_swap.
Qed.

Lemma sort_indices_perm (a : nat -> Q) (before : nat -> nat -> bool)
  (l : list nat) :
  Permutation (fold_right (insert_index a before) [] l) l.
Proof.
  induction l as [| x l IH]; simpl; [reflexivity |].
  rewrite insert_index_perm. constructor. exact IH.
Qed.

(** Whatever the sort does with equal values, insertion keeps the list in
    ascending order of value. *)
Lemma insert_index_sorted (a : nat -> Q) (before : nat -> nat -> bool)
  (i : nat) (l : list nat) :
  StronglySorted (fun x y => a x <= a y) l ->
  StronglySorted (fun x y => a x <= a y) (insert_index a before i l).
Proof.
  induction 1 as [| j r Hr IH Hj]; simpl.
  - repeat constructor.
  - destruct (Py.ltb (a i) (a j) || Qeq_bool (a i) (a j) && before i j) eqn:E.
    + assert (Hle : a i <= a j).
      { apply orb_true_iff in E as [E | E].
        - apply ltb_lt in E. lra.
        - apply andb_true_iff in E as [E _]. apply Qeq_bool_iff in E. lra. }
      constructor; [constructor; assumption |].
      constructor; [exact Hle |].
      eapply Forall_impl; [exact Hj |]. intros y Hy. cbn beta in Hy |- *. lra.
    + assert (Hle : a j <= a i).
      { apply orb_false_iff in E as [E _]. apply ltb_ge in E. exact E. }
      constructor; [exact IH |].
      rewrite (insert_index_perm a before i r).
      constructor; [exact Hle | exact Hj].
Qed.

Lemma sort_indices_sorted (a : nat -> Q) (before : nat -> nat -> bool)
  (l : list nat) :
  StronglySorted (fun x y => a x <= a y)
                 (fold_right (insert_index a before) [] l).
Proof.
  induction l as [| x l IH]; simpl; [constructor |].
  apply insert_index_sorted. exact IH.
Qed.

Lemma argsort_perm (self : Model) (a : list Q) :
  Permutation (argsort self a) (seq 0 (length a)).
Proof. apply sort_indices_perm. Qed.

Lemma argsort_sorted (self : Model) (a : list Q) :
  StronglySorted (fun x y => nth x a 0 <= nth y a 0) (argsort self a).
Proof. apply sort_indices_sorted. Qed.

Lemma strongly_sorted_rev {A : Type} (R : A -> A -> Prop) (l : list A) :
  StronglySorted R l -> StronglySorted (fun x y => R y x) (rev l).
Proof.
  induction 1 as [| x l Hl IH Hx]; simpl; [constructor |].
  apply StronglySorted_app. split; [| split].
  - intros y z Hy Hz. apply list_elem_of_In in Hy.
    apply list_elem_of_In in Hz. destruct Hz as [<- | []].
    apply in_rev in Hy. rewrite Forall_forall in Hx.
    apply Hx, list_elem_of_In, Hy.
  - exact IH.
  - repeat constructor.
Qed.


Lemma top_indices_in_range (self : Model) (similarities : list Q)
  (idx : nat) :
  In idx (top_indices self similarities) -> (idx < length similarities)%nat.
Proof.
  unfold top_indices. rewrite <- in_rev. intros H.
  apply (Permutation_in _ (argsort_perm self similarities)) in H.
  apply in_seq in H. lia.
Qed.

(** The code adds no tie-breaking of its own: the order of two equal values
    is the one the sort leaves them in. *)
Lemma argsort_of_equal_pair (self : Model) (x : Q) :
  argsort self [x; x]
  = if argsort_ties self [x; x] 0 1 then [0%nat; 1%nat] else [1%nat; 0%nat].
Proof.
  unfold argsort. cbn [length seq fold_right insert_index nth].
  assert (Hlt : Py.ltb x x = false) by (apply ltb_ge; lra).
  assert (Heq : Qeq_bool x x = true) by (apply Qeq_bool_iff; reflexivity).
  rewrite Hlt, Heq. cbn [orb andb].
  destruct (argsort_ties self [x; x] 0 1); reflexivity.
Qed.




(** ** The scores have one entry per configuration *)

Lemma normalize_scores_length (raw out : list Q) :
  normalize_scores raw = Some out -> length out = length raw.
Proof.
  unfold normalize_scores. destruct (array_max raw) as [m |]; [| discriminate].
  run_bind. intros [= <-].
  destruct (Py.ltb 0 m); [apply length_map | reflexivity].
Qed.

Lemma scores_try_length (self : Model) (query : str) (w : World)
  (out : list Q) :
  (scores_try self query w).1 = Some out ->
  length out = length (configs self).
Proof.
  unfold scores_try.
  destruct (negb (Py.truthy _)); simpl.
  - intros [= <-]. apply repeat_length.
  - destruct (semantic_similarity self _) as [sem |]; simpl; [| discriminate].
    intros H. apply normalize_scores_length in H. rewrite H.
    unfold combined_scores. apply length_imap.
Qed.

Lemma scores_length (self : Model) (query : str) (w : World) :
  length (_calculate_enhanced_scores self query w).1 = length (configs self).
Proof.
  unfold _calculate_enhanced_scores.
  destruct (scores_try self query w) as [[out |] w1] eqn:E; simpl.
  - apply (scores_try_length self query w). rewrite E. reflexivity.
  - rewrite length_map. apply length_seq.
Qed.

(** ** The loop raises no index error on the walk order *)

Lemma select_step_total (self : Model) (sims : list Q) (jours : Z)
  (st : Selection) (idx : nat) :
  length sims = length (configs self) ->
  (idx < length sims)%nat ->
  is_Some (select_step self sims jours st idx).
Proof.
  intros Hlen Hidx. destruct st as [results seen]. unfold select_step.
  destruct (lookup_lt_is_Some_2 (configs self) idx) as [row ->]; [lia |].
  destruct (lookup_lt_is_Some_2 sims idx) as [s ->]; [lia |].
  run_bind.
  destruct (2 <=? _)%nat; [eauto |]. destruct (Py.ltb s _); eauto.
Qed.

Lemma select_loop_total (self : Model) (sims : list Q) (jours : Z)
  (indices : list nat) (st : Selection) :
  length sims = length (configs self) ->
  Forall (fun idx => (idx < length sims)%nat) indices ->
  is_Some (select_loop self sims jours indices st).
Proof.
  intros Hlen Hall. revert st.
  induction Hall as [| idx rest Hidx _ IH]; intros st; cbn [select_loop];
    [eauto |].
  destruct (5 <=? length st.1)%nat; [eauto |].
  destruct (select_step_total self sims jours st idx Hlen Hidx) as [st1 ->].
  apply IH.
Qed.

Lemma walk_total (self : Model) (user_query : str) (jours : Z) (w : World) :
  let sims := (_calculate_enhanced_scores self user_query w).1 in
  is_Some (select_loop self sims jours (top_indices self sims) ([], ∅)).
Proof.
  intros sims. apply select_loop_total.
  - apply scores_length.
  - rewrite Forall_forall. intros idx Hidx.
    apply (top_indices_in_range self), list_elem_of_In, Hidx.
Qed.

(** On an initialised model the [try] block of [get_recommendations]
    returns: no exception reaches its [except] handler. *)
Lemma initialized_call_returns (self : Model) (user_query : str) (jours : Z)
  (w : World) :
  is_initialized self = true ->
  exists response,
    (get_recommendations_try self user_query jours w).1 = inr response.
Proof.
  intros Hinit. pose proof (walk_total self user_query jours w) as Htotal.
  unfold get_recommendations_try. rewrite Hinit. cbn [negb].
  destruct (length (Py.strip user_query) <? 3)%nat; [eexists; reflexivity |].
  destruct (_calculate_enhanced_scores self user_query w) as [sims w1].
  simpl in Htotal. destruct Htotal as [[results seen] ->].
  eexists. reflexivity.
Qed.

(** ** Short queries *)

(** C6. A query whose stripped text has fewer than three characters makes
    [get_recommendations] return a failure dictionary ([success = False])
    without recommendations; no text is embedded and no random number is
    drawn (the world is unchanged), so no scoring takes place. On an
    initialised model the [try] block returns without raising and the
    dictionary carries the message
    "Query too short. Please be more specific.". *)
Theorem short_query_rejected (self : Model) (user_query : str) (jours : Z)
  (w : World) :
  (length (Py.strip user_query) < 3)%nat ->
  let response := (get_recommendations self user_query jours w).1 in
  Response.success response = false
  /\ Response.recommendations response = []
  /\ (get_recommendations self user_query jours w).2 = w
  /\ (is_initialized self = true ->
      get_recommendations_try self user_query jours w
      = (inr query_too_short, w)
      /\ response = query_too_short
      /\ Response.message response
         = Py.lit "Query too short. Please be more specific.").
Proof.
  intros Hshort response. subst response.
  unfold get_recommendations, get_recommendations_try.
  apply Nat.ltb_lt in Hshort. rewrite Hshort.
  destruct (is_initialized self); cbn [negb fst snd].
  - split; [reflexivity |]. split; [reflexivity |]. split; [reflexivity |].
    intros _. split; [reflexivity |]. split; reflexivity.
  - split; [reflexivity |]. split; [reflexivity |]. split; [reflexivity |].
    intros [=].
Qed.

Lemma short_query_rejected_witness :
  let response :=
    (get_recommendations Examples.twin_model (Py.lit " ab ") 1
                         Examples.world0).1 in
  Response.success response = false
  /\ Response.recommendations response = []
  /\ (get_recommendations Examples.twin_model (Py.lit " ab ") 1
                          Examples.world0).2 = Examples.world0
  /\ (is_initialized Examples.twin_model = true ->
      get_recommendations_try Examples.twin_model (Py.lit " ab ") 1
                              Examples.world0
      = (inr query_too_short, Examples.world0)
      /\ response = query_too_short
      /\ Response.message response
         = Py.lit "Query too short. Please be more specific.").
Proof.
  apply (short_query_rejected Examples.twin_model (Py.lit " ab ") 1
           Examples.world0).
  vm_compute. lia.
Defined.

(** On a model that is not initialised the same call is answered by the
    [except] handler: a failure without recommendations whose message is
    that of the exception. *)
Lemma uninitialized_model_fails (self : Model) (user_query : str) (jours : Z)
  (w : World) :
  is_initialized self = false ->
  get_recommendations self user_query jours w
  = (failure_response (Exception (Py.lit "Enhanced model not initialized")), w).
Proof.
  intros Hinit. unfold get_recommendations, get_recommendations_try.
  rewrite Hinit. reflexivity.
Qed.

Example uninitialized_short_query :
  Response.message
    (get_recommendations Examples.uninitialized_model (Py.lit "ab") 1
                         Examples.world0).1
  = Py.lit "Enhanced model not initialized".
Proof. reflexivity. Qed.

(** ** Stripping twice *)

Lemma lstrip_head (s : str) : stripped_head (Py.lstrip s).
Proof.
  induction s as [| c r IH]; simpl; [exact I |].
  destruct (Py.isspace c) eqn:E; [exact IH | exact E].
Qed.

Lemma lstrip_fixed (s : str) : stripped_head s -> Py.lstrip s = s.
Proof. destruct s as [| c r]; simpl; [reflexivity | intros ->; reflexivity]. Qed.

Lemma lstrip_suffix (s : str) : exists p, s = p ++ Py.lstrip s.
Proof.
  induction s as [| c r [p IH]]; simpl; [exists []; reflexivity |].
  destruct (Py.isspace c); [| exists []; reflexivity].
  exists (c :: p). simpl. rewrite <- IH. reflexivity.
Qed.

Lemma strip_idempotent (s : str) : Py.strip (Py.strip s) = Py.strip s.
Proof.
  unfold Py.strip.
  set (u := Py.lstrip s). set (t := Py.lstrip (rev u)).
  assert (Hhead : stripped_head (rev t)).
  { destruct (lstrip_suffix (rev u)) as [p Hp]. fold t in Hp.
    apply (f_equal (@rev N)) in Hp. rewrite rev_involutive, rev_app_distr in Hp.
    pose proof (lstrip_head s) as Hu. fold u in Hu. rewrite Hp in Hu.
    destruct (rev t) as [| c r]; [exact I | exact Hu]. }
  rewrite (lstrip_fixed _ Hhead), rev_involutive.
  rewrite (lstrip_fixed t); [reflexivity | apply lstrip_head].
Qed.

(** ** Degenerate results *)

Lemma degenerate_response (self : Model) (user_query : str) (jours : Z)
  (w : World) :
  is_initialized self = true ->
  (3 <= length (Py.strip user_query))%nat ->
  Forall (fun s => s < quality_threshold)
         (_calculate_enhanced_scores self user_query w).1 ->
  (get_recommendations self user_query jours w).1
  = final_response self user_query jours [].
Proof.
  intros Hinit Hlen Hlow.
  pose proof (walk_total self user_query jours w) as Htotal.
  unfold get_recommendations, get_recommendations_try.
  rewrite Hinit. apply Nat.ltb_ge in Hlen. rewrite Hlen. simpl negb. cbv iota.
  destruct (_calculate_enhanced_scores self user_query w) as [sims w1].
  simpl in Htotal, Hlow. destruct Htotal as [[results seen] Hloop].
  rewrite Hloop. simpl.
  apply select_loop_nothing_accepted in Hloop; [| exact Hlow].
  simpl in Hloop. subst results. reflexivity.
Qed.

(** C7 (amended). For an initialised model and a query of at least three
    characters, when no candidate's score reaches the quality threshold
    [get_recommendations] returns [success = False] with the message
    "No close matches found", an empty recommendations list and a model
    confidence of 0; the request handler passes that on to the caller as a
    400 failure with the same message. *)
Theorem degenerate_result_reported_as_failure (self : Model)
  (user_query : str) (jours : Z) (w : World) :
  is_initialized self = true ->
  (3 <= length (Py.strip user_query))%nat ->
  Forall (fun s => s < quality_threshold)
         (_calculate_enhanced_scores self user_query w).1 ->
  let response := (get_recommendations self user_query jours w).1 in
  Response.success response = false
  /\ Response.message response = Py.lit "No close matches found"
  /\ Response.recommendations response = []
  /\ Response.model_confidence response = Some 0
  /\ forall (raw_query : str) (days : option Z),
       Py.strip raw_query = user_query ->
       (App.recommend_equipment (Some self)
          (Some {| App.query := Some raw_query; App.days := days |}) w).1
       = App.Failure 400 (Py.lit "No close matches found").
Proof.
  intros Hinit Hlen Hlow response. subst response.
  rewrite (degenerate_response self user_query jours w Hinit Hlen Hlow).
  repeat split.
  intros raw_query days Hraw. unfold App.recommend_equipment.
  cbn [App.query App.days Py.truthy_opt default].
  change (id raw_query) with raw_query. rewrite Hraw.
  assert (Hlen' : (3 <= length user_query)%nat).
  { rewrite <- Hraw, <- strip_idempotent, Hraw. exact Hlen. }
  assert (Htruthy : Py.truthy raw_query = true).
  { destruct raw_query; [| reflexivity].
    subst user_query. simpl in Hlen'. lia. }
  rewrite Htruthy. cbn [negb].
  apply Nat.ltb_ge in Hlen'. rewrite Hlen'.
  pose proof (degenerate_response self user_query (default 1%Z days) w
                Hinit Hlen Hlow) as Hresp.
  destruct (get_recommendations self user_query (default 1%Z days) w)
    as [recs w1].
  simpl in Hresp. subst recs. reflexivity.
Qed.

Lemma degenerate_result_reported_as_failure_witness :
  let response :=
    (get_recommendations Examples.unrelated_model (Py.lit "zzz") 1
                         Examples.world0).1 in
  Response.success response = false
  /\ Response.message response = Py.lit "No close matches found"
  /\ Response.recommendations response = []
  /\ Response.model_confidence response = Some 0
  /\ forall (raw_query : str) (days : option Z),
       Py.strip raw_query = Py.lit "zzz" ->
       (App.recommend_equipment (Some Examples.unrelated_model)
          (Some {| App.query := Some raw_query; App.days := days |})
          Examples.world0).1
       = App.Failure 400 (Py.lit "No close matches found").
Proof.
  apply (degenerate_result_reported_as_failure Examples.unrelated_model
           (Py.lit "zzz") 1 Examples.world0).
  - reflexivity.
  - vm_compute. lia.
  - vm_compute. repeat constructor.
Defined.

(** C7 as stated fails: a valid query for which every score is 0 is
    answered with [success = False], and the caller receives a 400. *)
Lemma degenerate_result_counterexample :
  (3 <= length (Py.strip (Py.lit "zzz")))%nat
  /\ map Qred (_calculate_enhanced_scores Examples.unrelated_model
                 (Py.lit "zzz") Examples.world0).1 = [0; 0]
  /\ Response.success
       (get_recommendations Examples.unrelated_model (Py.lit "zzz") 1
                            Examples.world0).1 = false
  /\ App.http_success
       (App.recommend_equipment (Some Examples.unrelated_model)
          (Some {| App.query := Some (Py.lit "zzz"); App.days := Some 1%Z |})
          Examples.world0).1 = false.
Proof. repeat split; vm_compute; reflexivity. Qed.

(** ** Diversity filter and the seen-combination set *)

(** C1. The code does not keep exact duplicates out: for a catalog holding
    two configurations of the combination (pub, low, studio), both are
    returned, in one recommendation list. *)
Theorem duplicate_combination_accepted :
  map combo_key (configs Examples.twin_model)
  = [(Py.lit "pub", Py.lit "low", Py.lit "studio");
     (Py.lit "pub", Py.lit "low", Py.lit "studio")]
  /\ map result_key
       (Response.recommendations
          (get_recommendations Examples.twin_model (Py.lit "pub low studio") 1
                               Examples.world0).1)
     = [(Py.lit "pub", Py.lit "low", Py.lit "studio");
        (Py.lit "pub", Py.lit "low", Py.lit "studio")]
  /\ map Result.camera
       (Response.recommendations
          (get_recommendations Examples.twin_model (Py.lit "pub low studio") 1
                               Examples.world0).1)
     = [Py.lit "Canon R6"; Py.lit "Sony A6400"].
Proof. repeat split; vm_compute; reflexivity. Qed.

(** A candidate whose combination is the only similar one seen so far
    passes the diversity test, whatever was accepted before. *)
Lemma same_key_counts_once (k : Key) : similar_count k {[ k ]} = 1%nat.
Proof.
  assert (H : (2 <= agreement k k)%nat).
  { unfold agreement. repeat case_bool_decide; simpl; try lia; congruence. }
  unfold similar_count.
  rewrite (filter_singleton_True_L (C := gset Key) _ k H).
  apply size_singleton.
Qed.

(** After one configuration of a combination was accepted, any further
    configuration of the same combination that reaches the quality
    threshold is accepted as well, and leaves the seen set as it was. *)
Lemma exact_duplicate_accepted (self : Model) (sims : list Q) (jours : Z)
  (results : list Result.t) (idx : nat) (row : Row.t) (s : Q) :
  configs self !! idx = Some row ->
  sims !! idx = Some s ->
  quality_threshold <= s ->
  select_step self sims jours (results, {[ combo_key row ]}) idx
  = Some (results ++ [make_result row jours s], {[ combo_key row ]}).
Proof.
  intros Hrow Hs Hq. unfold select_step. rewrite Hrow, Hs. run_bind.
  rewrite same_key_counts_once. cbn [Nat.leb].
  apply ltb_ge in Hq. rewrite Hq.
  rewrite (union_idemp_L ({[ combo_key row ]} : gset Key)). reflexivity.
Qed.

(** C2 (amended). In one iteration of the walk on a candidate [row] with
    score [s]: when the candidate fails the diversity test the seen set is
    unchanged; when it passes, its combination key is added to the seen
    set before the quality test, so the set afterwards is the set before
    plus that key whether or not the candidate is accepted, and a candidate
    below the quality threshold leaves the results unchanged. *)
Theorem seen_key_added_when_diverse (self : Model) (sims : list Q) (jours : Z)
  (results : list Result.t) (seen : gset Key) (idx : nat) (row : Row.t)
  (s : Q) :
  configs self !! idx = Some row ->
  sims !! idx = Some s ->
  exists results' seen',
    select_step self sims jours (results, seen) idx = Some (results', seen')
    /\ ((2 <= similar_count (combo_key row) seen)%nat ->
        seen' = seen /\ results' = results)
    /\ ((similar_count (combo_key row) seen < 2)%nat ->
        seen' = {[ combo_key row ]} ∪ seen
        /\ (s < quality_threshold -> results' = results)
        /\ (quality_threshold <= s ->
            results' = results ++ [make_result row jours s])).
Proof.
  intros Hrow Hs.
  destruct (select_step self sims jours (results, seen) idx)
    as [[results' seen'] |] eqn:Hstep.
  - exists results', seen'. split; [reflexivity |].
    apply select_step_inv in Hstep as (row' & Hrow' & H).
    rewrite Hrow in Hrow'. injection Hrow' as <-.
    destruct H as [[Hsim [= -> ->]] | [Hsim (s' & Hs' & H)]].
    + split; [auto | lia].
    + rewrite Hs in Hs'. injection Hs' as <-.
      split; [lia |]. intros _.
      destruct H as [[Hq [= -> ->]] | [Hq [= -> ->]]];
        (split; [reflexivity |]); split; intros; try reflexivity; lra.
  - exfalso. unfold select_step in Hstep. rewrite Hrow, Hs in Hstep.
    run_bind in Hstep.
    destruct (2 <=? _)%nat; [discriminate |].
    destruct (Py.ltb s _); discriminate.
Qed.

Lemma seen_key_added_when_diverse_witness :
  exists results' seen',
    select_step Examples.tie_model [0; 0] 1 ([], ∅) 1
    = Some (results', seen')
    /\ ((2 <= similar_count
                (Py.lit "clip", Py.lit "high", Py.lit "extérieur") ∅)%nat ->
        seen' = ∅ /\ results' = [])
    /\ ((similar_count (Py.lit "clip", Py.lit "high", Py.lit "extérieur") ∅
         < 2)%nat ->
        seen' = {[ (Py.lit "clip", Py.lit "high", Py.lit "extérieur") ]} ∪ ∅
        /\ (0 < quality_threshold -> results' = [])
        /\ (quality_threshold <= 0 ->
            results'
            = [] ++ [make_result
                       (Examples.basic_kit "clip" "high" "extérieur" 290)
                       1 0])).
Proof.
  apply (seen_key_added_when_diverse Examples.tie_model [0; 0] 1 [] ∅ 1
           (Examples.basic_kit "clip" "high" "extérieur" 290) 0);
    reflexivity.
Defined.

(** C2 as stated fails. With two configurations of score 0 the walk starts
    at the second one; it passes the diversity test (nothing was seen) and
    is skipped by the quality test, yet the seen set, empty before, holds
    its key afterwards. *)
Lemma seen_set_grows_on_quality_skip_counterexample :
  top_indices Examples.tie_model [0; 0] = [1%nat; 0%nat]
  /\ (similar_count (Py.lit "clip", Py.lit "high", Py.lit "extérieur") ∅
      < 2)%nat
  /\ 0 < quality_threshold
  /\ select_step Examples.tie_model [0; 0] 1 ([], ∅) 1
     = Some ([], {[ (Py.lit "clip", Py.lit "high", Py.lit "extérieur") ]} ∪ ∅)
  /\ ({[ (Py.lit "clip", Py.lit "high", Py.lit "extérieur") ]} ∪ ∅ : gset Key)
     <> ∅.
Proof.
  split; [reflexivity |]. split; [vm_compute; lia |].
  split; [reflexivity |]. split.
  - reflexivity.
  - intros H. apply (f_equal size) in H. vm_compute in H. discriminate.
Qed.

(** ** Divisors of the scoring formula

    The rationals divide by zero without raising; the scoring formula never
    does: the complexity of a row is at least 1, so is the column maximum
    of a catalog that has a row. *)

Lemma complexity_range (row : Row.t) : (1 <= _calculate_complexity row <= 5)%Z.
Proof.
  unfold _calculate_complexity.
  repeat match goal with
         | |- context [if ?b then _ else _] => destruct b
         end; lia.
Qed.

Lemma fold_max_ge (r : list Z) (x : Z) : (x <= fold_left Z.max r x)%Z.
Proof.
  revert x. induction r as [| y r IH]; intros x; simpl; [lia |].
  specialize (IH (Z.max x y)). lia.
Qed.

Lemma max_complexity_positive (self : Model) (row : Row.t) (rows : list Row.t) :
  configs self = row :: rows ->
  (1 <= series_max (map _calculate_complexity (configs self)))%Z.
Proof.
  intros ->. simpl.
  pose proof (complexity_range row).
  pose proof (fold_max_ge (map _calculate_complexity rows)
                (_calculate_complexity row)).
  lia.
Qed.

(** ** Batch-maximum normalisation *)

Lemma qmax_cases (a b : Q) :
  (qmax a b = a /\ b <= a) \/ (qmax a b = b /\ a <= b).
Proof.
  unfold qmax. destruct (Qle_bool a b) eqn:E.
  - right. split; [reflexivity | apply Qle_bool_iff, E].
  - left. split; [reflexivity |].
    apply Qlt_le_weak, Qnot_le_lt. intros H. apply Qle_bool_iff in H. congruence.
Qed.

Lemma fold_qmax_spec (r : list Q) (x : Q) :
  In (fold_left qmax r x) (x :: r)
  /\ forall y, In y (x :: r) -> y <= fold_left qmax r x.
Proof.
  revert x. induction r as [| z r IH]; intros x; simpl.
  - split; [auto |]. intros y [<- | []]. lra.
  - destruct (IH (qmax x z)) as [Hin Hub]. split.
    + destruct Hin as [Heq | Hin]; [| auto].
      rewrite <- Heq. destruct (qmax_cases x z) as [[-> _] | [-> _]]; auto.
    + intros y Hy.
      assert (Hm : qmax x z <= fold_left qmax r (qmax x z)) by (apply Hub; left; reflexivity).
      destruct (qmax_cases x z) as [[Hq Hle] | [Hq Hle]];
        destruct Hy as [<- | [<- | Hy]];
        try (apply Hub; right; exact Hy); rewrite Hq in Hm |- *; lra.
Qed.

Lemma array_max_spec (a : list Q) (m : Q) :
  array_max a = Some m -> In m a /\ forall y, In y a -> y <= m.
Proof.
  destruct a as [| x r]; simpl; [discriminate |].
  intros [= <-]. apply fold_qmax_spec.
Qed.

Lemma map_lookup_inv {A B : Type} (f : A -> B) (l : list A) (i : nat) (y : B) :
  map f l !! i = Some y -> exists x, l !! i = Some x /\ y = f x.
Proof.
  revert i. induction l as [| a l IH]; intros [| i]; simpl; try discriminate.
  - intros [= <-]. eauto.
  - apply IH.
Qed.

Lemma normalize_scores_spec (raw out : list Q) :
  normalize_scores raw = Some out ->
  (forall s, In s out -> s <= 1)
  /\ (forall i r s, raw !! i = Some r -> out !! i = Some s -> 0 <= r -> 0 <= s)
  /\ (forall i r s, raw !! i = Some r -> out !! i = Some s -> r < 0 -> s < 0)
  /\ ((exists r, In r raw /\ 0 < r) -> exists s, In s out /\ s == 1)
  /\ ((forall r, In r raw -> r <= 0) -> out = raw).
Proof.
  unfold normalize_scores.
  destruct (array_max raw) as [m |] eqn:Hmax; [| discriminate].
  run_bind. intros [= <-].
  apply array_max_spec in Hmax as [Hin Hub].
  destruct (Py.ltb 0 m) eqn:Hpos.
  - apply ltb_lt in Hpos. repeat split.
    + intros s Hs. apply in_map_iff in Hs as (r & <- & Hr).
      apply Qle_shift_div_r; [exact Hpos |]. specialize (Hub r Hr). lra.
    + intros i r s Hr Hs Hr0. apply map_lookup_inv in Hs as (r' & Hr' & ->).
      rewrite Hr in Hr'. injection Hr' as <-.
      apply Qle_shift_div_l; [exact Hpos | lra].
    + intros i r s Hr Hs Hr0. apply map_lookup_inv in Hs as (r' & Hr' & ->).
      rewrite Hr in Hr'. injection Hr' as <-.
      apply Qlt_shift_div_r; [exact Hpos | lra].
    + intros _. exists (m / m).
      split; [exact (in_map (fun x => x / m) raw m Hin) |].
      apply Qmult_inv_r. lra.
    + intros Hneg. specialize (Hneg m Hin). lra.
  - apply ltb_ge in Hpos. repeat split.
    + intros s Hs. specialize (Hub s Hs). lra.
    + intros i r s Hr Hs Hr0. rewrite Hr in Hs. injection Hs as <-. exact Hr0.
    + intros i r s Hr Hs Hr0. rewrite Hr in Hs. injection Hs as <-. exact Hr0.
    + intros (r & Hr & Hr0). specialize (Hub r Hr). lra.
Qed.

(** C3 (amended). When the scoring stage returns, every final score is at
    most 1. For an empty normalised query all scores are 0. Otherwise, with
    [raw] the combined scores before normalisation: a candidate with a
    non-negative raw score has a non-negative final score, one with a
    negative raw score a negative final score; if some raw score is
    positive, at least one candidate has final score 1; if no raw score is
    positive the scores are returned as they are. *)
Theorem normalized_scores_bounds (self : Model) (query : str) (w : World)
  (out : list Q) :
  (scores_try self query w).1 = Some out ->
  let processed_query := _enhanced_preprocess_text self query in
  (forall s, In s out -> s <= 1)
  /\ (Py.truthy processed_query = false
      -> out = repeat 0 (length (configs self)))
  /\ forall semantic_scores,
       Py.truthy processed_query = true ->
       semantic_similarity self processed_query = Some semantic_scores ->
       let raw := combined_scores self processed_query semantic_scores in
       (forall i r s,
           raw !! i = Some r -> out !! i = Some s -> 0 <= r -> 0 <= s)
       /\ (forall i r s,
              raw !! i = Some r -> out !! i = Some s -> r < 0 -> s < 0)
       /\ ((exists r, In r raw /\ 0 < r) -> exists s, In s out /\ s == 1)
       /\ ((forall r, In r raw -> r <= 0) -> out = raw).
Proof.
  intros H processed_query. unfold scores_try in H.
  fold processed_query in H.
  destruct (Py.truthy processed_query) eqn:Htruthy; simpl in H.
  - destruct (semantic_similarity self processed_query) as [sem |] eqn:Hsem;
      simpl in H; [| discriminate].
    apply normalize_scores_spec in H as (H1 & H2 & H3 & H4 & H5).
    split; [exact H1 |]. split; [discriminate |].
    intros semantic_scores _ [= <-]. auto.
  - injection H as <-. split; [| split; [reflexivity | discriminate]].
    intros s Hs. apply repeat_spec in Hs. subst s. lra.
Qed.

Lemma normalized_scores_bounds_witness :
  exists out,
    (scores_try Examples.twin_model (Py.lit "pub low studio")
                Examples.world0).1 = Some out
    /\ (forall s, In s out -> s <= 1)
    /\ exists s, In s out /\ s == 1.
Proof.
  destruct (scores_try Examples.twin_model (Py.lit "pub low studio")
                       Examples.world0).1 as [out |] eqn:E;
    [| vm_compute in E; discriminate].
  exists out. split; [reflexivity |].
  destruct (normalized_scores_bounds Examples.twin_model
              (Py.lit "pub low studio") Examples.world0 out E)
    as (Hle & _ & Hraw).
  split; [exact Hle |].
  destruct (Hraw (fun _ => 1 # 2) eq_refl eq_refl) as (_ & _ & Hone & _).
  apply Hone. eexists. split; [left; reflexivity |]. vm_compute. reflexivity.
Defined.

(** C3 as stated fails: for a single row that the embedding model rates at
    cosine similarity -1/2 and that shares no word with the query, the raw
    score is negative, it is returned without normalisation, so the final
    score is below 0 and no candidate has final score 1. *)
Lemma negative_final_score_counterexample :
  map Qred (combined_scores Examples.opposed_model (Py.lit "zzz")
              (fun _ => -(1 # 2))) = [-(6 # 25)]
  /\ (scores_try Examples.opposed_model (Py.lit "zzz") Examples.world0).1
     = Some (combined_scores Examples.opposed_model (Py.lit "zzz")
               (fun _ => -(1 # 2)))
  /\ map Qred (_calculate_enhanced_scores Examples.opposed_model
                 (Py.lit "zzz") Examples.world0).1 = [-(6 # 25)]
  /\ ~ (0 <= -(6 # 25)).
Proof.
  repeat split; try (vm_compute; reflexivity).
  intros H. vm_compute in H. apply H. reflexivity.
Qed.

(** ** Repeated calls *)

(** The [try] block of the scoring method raises exactly when the
    normalised query is not empty and either the embedding stage raises or
    the catalog is empty. *)
Lemma scores_try_raises_iff (self : Model) (query : str) (w : World) :
  (scores_try self query w).1 = None
  <-> Py.truthy (_enhanced_preprocess_text self query) = true
      /\ (semantic_similarity self (_enhanced_preprocess_text self query) = None
          \/ configs self = []).
Proof.
  unfold scores_try.
  destruct (Py.truthy (_enhanced_preprocess_text self query)); simpl;
    [| split; [discriminate | intros [[=] _]]].
  destruct (semantic_similarity self _) as [sem |]; simpl;
    [| split; auto].
  unfold normalize_scores, combined_scores.
  destruct (configs self) as [| row rows]; simpl.
  - split; auto.
  - split; [discriminate | intros [_ [[=] | [=]]]].
Qed.

(** What the [try] block computes does not depend on the world. *)
Lemma scores_try_world (self : Model) (query : str) (w w' : World) :
  (scores_try self query w).1 = (scores_try self query w').1.
Proof.
  unfold scores_try.
  destruct (negb (Py.truthy _)); [reflexivity |].
  destruct (semantic_similarity self _); reflexivity.
Qed.

Lemma scores_try_rng (self : Model) (query : str) (w : World) :
  rng_pos (scores_try self query w).2 = rng_pos w
  /\ rng_stream (scores_try self query w).2 = rng_stream w.
Proof.
  unfold scores_try.
  destruct (negb (Py.truthy _)); [split; reflexivity |].
  destruct (semantic_similarity self _); split; reflexivity.
Qed.

Lemma scores_of_successful_try (self : Model) (query : str) (w : World)
  (out : list Q) :
  (scores_try self query w).1 = Some out ->
  (_calculate_enhanced_scores self query w).1 = out
  /\ rng_pos (_calculate_enhanced_scores self query w).2 = rng_pos w.
Proof.
  intros H. pose proof (scores_try_rng self query w) as [Hpos _].
  unfold _calculate_enhanced_scores.
  destruct (scores_try self query w) as [[out' |] w1]; simpl in *;
    [| discriminate].
  injection H as ->. auto.
Qed.

(** When the [try] block raises, the scores are the next draws of the
    global random generator, scaled into [0.1, 0.3). *)
Lemma scores_of_failed_try (self : Model) (query : str) (w : World) :
  (scores_try self query w).1 = None ->
  _calculate_enhanced_scores self query w
  = random_uniform 0.1 0.3 (length (configs self)) (scores_try self query w).2.
Proof.
  intros H. unfold _calculate_enhanced_scores.
  destruct (scores_try self query w) as [[out |] w1]; simpl in *;
    [discriminate | reflexivity].
Qed.

(** The response is a function of the scores; the world after the call is
    the world after scoring. *)
Lemma response_of_scores (self : Model) (user_query : str) (jours : Z)
  (w w' : World) :
  (_calculate_enhanced_scores self user_query w).1
  = (_calculate_enhanced_scores self user_query w').1 ->
  (get_recommendations self user_query jours w).1
  = (get_recommendations self user_query jours w').1.
Proof.
  intros H. unfold get_recommendations, get_recommendations_try.
  destruct (negb (is_initialized self)); [reflexivity |].
  destruct (length (Py.strip user_query) <? 3)%nat; [reflexivity |].
  destruct (_calculate_enhanced_scores self user_query w) as [sims w1].
  destruct (_calculate_enhanced_scores self user_query w') as [sims' w1'].
  simpl in H. subst sims'.
  destruct (select_loop self sims jours (top_indices self sims) ([], ∅))
    as [[results seen] |]; reflexivity.
Qed.

Lemma world_after_call (self : Model) (user_query : str) (jours : Z)
  (w : World) :
  (get_recommendations self user_query jours w).2 = w
  \/ (get_recommendations self user_query jours w).2
     = (_calculate_enhanced_scores self user_query w).2.
Proof.
  unfold get_recommendations, get_recommendations_try.
  destruct (negb (is_initialized self)); [left; reflexivity |].
  destruct (length (Py.strip user_query) <? 3)%nat; [left; reflexivity |].
  destruct (_calculate_enhanced_scores self user_query w) as [sims w1].
  destruct (select_loop self sims jours (top_indices self sims) ([], ∅))
    as [[results seen] |]; right; reflexivity.
Qed.

(** C4 (amended). When the scoring stage does not raise, the response of
    [get_recommendations] does not depend on the world: a second call with
    the same query and duration on the same model returns the identical
    response (same ordered list, same scores), as does a call from any
    other state of the random generator, and the call draws no random
    number. *)
Theorem responses_repeat_when_scoring_succeeds (self : Model)
  (user_query : str) (jours : Z) (w : World) :
  is_Some (scores_try self user_query w).1 ->
  let first := get_recommendations self user_query jours w in
  let second := get_recommendations self user_query jours first.2 in
  second.1 = first.1
  /\ rng_pos first.2 = rng_pos w
  /\ forall w', (get_recommendations self user_query jours w').1 = first.1.
Proof.
  intros [out Hout] first second.
  assert (Hany : forall w',
             (get_recommendations self user_query jours w').1 = first.1).
  { intros w'. apply response_of_scores.
    pose proof (scores_try_world self user_query w' w) as Hw.
    rewrite Hout in Hw.
    apply scores_of_successful_try in Hw as [-> _].
    apply scores_of_successful_try in Hout as [-> _]. reflexivity. }
  split; [apply Hany |]. split; [| exact Hany].
  subst first. destruct (world_after_call self user_query jours w) as [-> | ->];
    [reflexivity |].
  apply scores_of_successful_try in Hout as [_ H]. exact H.
Qed.

Lemma responses_repeat_when_scoring_succeeds_witness :
  let first :=
    get_recommendations Examples.twin_model (Py.lit "pub low studio") 1
                        Examples.world0 in
  let second :=
    get_recommendations Examples.twin_model (Py.lit "pub low studio") 1
                        first.2 in
  second.1 = first.1
  /\ rng_pos first.2 = rng_pos Examples.world0
  /\ forall w',
       (get_recommendations Examples.twin_model (Py.lit "pub low studio") 1
                            w').1 = first.1.
Proof.
  apply (responses_repeat_when_scoring_succeeds Examples.twin_model
           (Py.lit "pub low studio") 1 Examples.world0).
  vm_compute. eexists. reflexivity.
Defined.

(** C4 as stated fails: when the embedding stage raises, the scores are
    fresh draws of the global random generator, and two successive calls
    with the same query on the same model return different lists. *)
Lemma random_fallback_counterexample :
  let first :=
    get_recommendations Examples.failing_model (Py.lit "zzz") 1
                        Examples.world0 in
  let second :=
    get_recommendations Examples.failing_model (Py.lit "zzz") 1 first.2 in
  (scores_try Examples.failing_model (Py.lit "zzz") Examples.world0).1 = None
  /\ Response.success first.1 = true
  /\ length (Response.recommendations first.1) = 2%nat
  /\ Response.success second.1 = false
  /\ Response.recommendations second.1 = []
  /\ second.1 <> first.1.
Proof.
  cbv zeta. repeat split; try (vm_compute; reflexivity).
  intros H. apply (f_equal Response.success) in H.
  vm_compute in H. discriminate.
Qed.

(** ** The seen set and the returned list

    Adding the combination of a candidate that fails the quality test does
    not change what the loop returns: the walk goes by non-increasing
    score, so after the first candidate below the threshold no candidate
    is accepted any more. *)

Lemma top_indices_non_increasing (self : Model) (similarities : list Q) :
  StronglySorted
    (fun a b => nth b similarities 0 <= nth a similarities 0)
    (top_indices self similarities).
Proof.
  exact (strongly_sorted_rev _ _ (argsort_sorted self similarities)).
Qed.

Lemma select_loops_agree (self : Model) (sims : list Q) (jours : Z)
  (indices : list nat) :
  length sims = length (configs self) ->
  Forall (fun idx => (idx < length sims)%nat) indices ->
  StronglySorted (fun a b => nth b sims 0 <= nth a sims 0) indices ->
  forall st st' : Selection,
    st.1 = st'.1 ->
    st.2 = st'.2
    \/ Forall (fun idx => nth idx sims 0 < quality_threshold) indices ->
    fst <$> select_loop self sims jours indices st
    = fst <$> select_loop_spec self sims jours indices st'.
Proof.
  intros Hlen Hrange Hsorted.
  induction Hsorted as [| idx rest Hrest IH Hidx];
    intros [results seen] [results' seen'] Hres Hseen;
    cbn [select_loop select_loop_spec fst snd] in *; subst results'.
  - reflexivity.
  - apply Forall_cons in Hrange as [Hi Hrange].
    destruct (5 <=? length results)%nat; [reflexivity |].
    destruct (lookup_lt_is_Some_2 (configs self) idx) as [row Hrow]; [lia |].
    destruct (lookup_lt_is_Some_2 sims idx) as [s Hs]; [lia |].
    pose proof (nth_lookup_Some _ _ 0 _ Hs) as Hnth.
    unfold select_step, select_step_spec. rewrite Hrow, Hs.
    run_bind.
    destruct Hseen as [-> | Hlow].
    + destruct (2 <=? similar_count (combo_key row) seen')%nat;
        [apply (IH Hrange); auto |].
      destruct (Py.ltb s quality_threshold) eqn:Hq;
        [| apply (IH Hrange); auto].
      apply ltb_lt in Hq. apply (IH Hrange); [reflexivity |]. right.
      eapply Forall_impl; [exact Hidx |]. intros b Hb. simpl in Hb.
      rewrite Hnth in Hb. lra.
    + apply Forall_cons in Hlow as [Hlow0 Hlow].
      rewrite Hnth in Hlow0. apply ltb_lt in Hlow0. rewrite Hlow0.
      destruct (2 <=? similar_count (combo_key row) seen)%nat,
               (2 <=? similar_count (combo_key row) seen')%nat;
        apply (IH Hrange); auto.
Qed.

(** The list returned by the source's loop on its walk order is the list
    returned by the loop worded as in the specification. *)
Theorem selection_agrees_with_specified_loop (self : Model) (sims : list Q)
  (jours : Z) :
  length sims = length (configs self) ->
  fst <$> select_loop self sims jours (top_indices self sims) ([], ∅)
  = fst <$> select_loop_spec self sims jours (top_indices self sims) ([], ∅).
Proof.
  intros Hlen. apply select_loops_agree; auto.
  - rewrite Forall_forall. intros idx Hidx.
    apply (top_indices_in_range self), list_elem_of_In, Hidx.
  - apply top_indices_non_increasing.
Qed.

(** * Further properties of the service *)

(** ** Rounding is monotone *)

Lemma round_le_floor_succ (x : Q) : (Py.round x <= Qfloor x + 1)%Z.
Proof.
  unfold Py.round.
  destruct (Qle_bool _ (1 # 2)); [destruct (Qle_bool (1 # 2) _) |];
    try destruct (Z.even _); lia.
Qed.

Lemma round_monotone (x y : Q) : x <= y -> (Py.round x <= Py.round y)%Z.
Proof.
  intros Hxy. pose proof (Qfloor_resp_le _ _ Hxy) as Hf.
  destruct (Z.eq_dec (Qfloor x) (Qfloor y)) as [Heq | Hne].
  - unfold Py.round. rewrite <- Heq.
    set (f := Qfloor x).
    destruct (Qle_bool (x - inject_Z f) (1 # 2)) eqn:E1;
      destruct (Qle_bool (1 # 2) (x - inject_Z f)) eqn:E2;
      destruct (Qle_bool (y - inject_Z f) (1 # 2)) eqn:E3;
      destruct (Qle_bool (1 # 2) (y - inject_Z f)) eqn:E4;
      try destruct (Z.even f); try lia; exfalso;
      repeat match goal with
             | H : Qle_bool _ _ = true |- _ => apply Qle_bool_iff in H
             | H : Qle_bool ?a ?b = false |- _ =>
               assert (b < a)
                 by (apply Qnot_le_lt; intros Hc; apply Qle_bool_iff in Hc;
                     congruence);
               clear H
             end; lra.
  - pose proof (round_le_floor_succ x). pose proof (round_ge_floor y). lia.
Qed.

Lemma round3_monotone (x y : Q) : x <= y -> Py.round3 x <= Py.round3 y.
Proof.
  intros Hxy. unfold Py.round3.
  assert (H : (Py.round (x * 1000) <= Py.round (y * 1000))%Z)
    by (apply round_monotone; lra).
  rewrite Zle_Qle in H.
  unfold Qdiv. apply Qmult_le_compat_r; [exact H | discriminate].
Qed.

(** ** What the selection loop collects *)

Lemma sublist_strongly_sorted {A : Type} (R : A -> A -> Prop) (l1 l2 : list A) :
  l1 `sublist_of` l2 -> StronglySorted R l2 -> StronglySorted R l1.
Proof.
  induction 1 as [| x l1 l2 Hsub IH | x l1 l2 Hsub IH]; intros Hs.
  - constructor.
  - apply StronglySorted_inv in Hs as [Hs Hx].
    constructor; [apply IH, Hs |].
    rewrite Forall_forall in Hx |- *. intros y Hy.
    apply Hx. eapply elem_of_sublist; eassumption.
  - apply StronglySorted_inv in Hs as [Hs _]. apply IH, Hs.
Qed.

Section Collected.

Context (self : Model) (sims : list Q) (jours : Z).

(** The results of the loop are the results it started with followed by
    the results built for a sub-sequence of the walked indices, each of
    them with a score at or above the threshold. *)
Lemma select_loop_picks (indices : list nat) (st st' : Selection) :
  select_loop self sims jours indices st = Some st' ->
  exists picked new,
    picked `sublist_of` indices
    /\ Forall2 (accepted_at self sims jours) picked new
    /\ st'.1 = st.1 ++ new.
Proof.
  revert st. induction indices as [| idx rest IH]; intros st;
    cbn [select_loop].
  - intros [= <-]. exists [], []. rewrite app_nil_r.
    repeat split; constructor.
  - destruct (5 <=? length st.1)%nat.
    { intros [= <-]. exists [], []. rewrite app_nil_r.
      repeat split; [apply sublist_nil_l | constructor]. }
    destruct (select_step self sims jours st idx) as [st1 |] eqn:Hstep;
      run_bind; [| discriminate].
    intros Hloop. destruct (IH _ Hloop) as (picked & new & Hsub & Hall & Hres).
    destruct st as [results seen].
    apply select_step_inv in Hstep as (row & Hrow & [[_ ->] | [_ (s & Hs & H)]]).
    + exists picked, new. repeat split; [constructor; exact Hsub | exact Hall | exact Hres].
    + destruct H as [[_ ->] | [Hq ->]].
      * exists picked, new.
        repeat split; [constructor; exact Hsub | exact Hall | exact Hres].
      * exists (idx :: picked), (make_result row jours s :: new).
        repeat split.
        -- constructor. exact Hsub.
        -- constructor; [| exact Hall]. exists row, s. auto.
        -- rewrite Hres. cbn [fst]. rewrite <- app_assoc. reflexivity.
Qed.

Lemma accepted_scores_ranked (picked : list nat) (new : list Result.t) :
  StronglySorted (fun a b => nth b sims 0 <= nth a sims 0) picked ->
  Forall2 (accepted_at self sims jours) picked new ->
  ranked new.
Proof.
  intros Hs Hall. unfold ranked.
  induction Hall as [| idx r picked new Hr Hall IH]; [constructor |].
  apply StronglySorted_inv in Hs as [Hs Hidx].
  constructor; [apply IH, Hs |].
  destruct Hr as (row & s & _ & Hsidx & _ & ->).
  apply nth_lookup_Some with (d := 0) in Hsidx.
  clear IH Hs. induction Hall as [| idx' r' picked new Hr' Hall IH];
    constructor.
  - apply Forall_cons in Hidx as [Hle _].
    destruct Hr' as (row' & s' & _ & Hs' & _ & ->).
    apply nth_lookup_Some with (d := 0) in Hs'.
    cbn [Result.score make_result]. apply round3_monotone.
    rewrite Hsidx, Hs' in Hle. exact Hle.
  - apply IH. apply Forall_cons in Hidx as [_ H]. exact H.
Qed.

End Collected.

(** The response is a failure without recommendations, or the dictionary
    built from what the loop collected on the walk order. *)
Lemma get_recommendations_cases (self : Model) (user_query : str) (jours : Z)
  (w : World) :
  let response := (get_recommendations self user_query jours w).1 in
  let sims := (_calculate_enhanced_scores self user_query w).1 in
  (Response.success response = false
   /\ Response.recommendations response = []
   /\ (is_initialized self = false
       \/ (length (Py.strip user_query) < 3)%nat))
  \/ (is_initialized self = true
      /\ (3 <= length (Py.strip user_query))%nat
      /\ exists results seen,
        select_loop self sims jours (top_indices self sims) ([], ∅)
        = Some (results, seen)
        /\ response = final_response self user_query jours results).
Proof.
  intros response sims. subst response sims.
  pose proof (walk_total self user_query jours w) as Htotal.
  unfold get_recommendations, get_recommendations_try.
  destruct (is_initialized self); cbn [negb];
    [| left; repeat split; left; reflexivity].
  destruct (length (Py.strip user_query) <? 3)%nat eqn:Hlen.
  { apply Nat.ltb_lt in Hlen. left. repeat split. right. exact Hlen. }
  apply Nat.ltb_ge in Hlen.
  destruct (_calculate_enhanced_scores self user_query w) as [sims w1].
  cbn [fst] in *. destruct Htotal as [[results seen] Hloop].
  rewrite Hloop. right. repeat split; [exact Hlen |].
  exists results, seen. split; reflexivity.
Qed.

(** X1. [get_recommendations] never returns more than five recommendations,
    whatever the model, the query, the duration and the process state. *)
Theorem at_most_five_recommendations (self : Model) (user_query : str)
  (jours : Z) (w : World) :
  (length (Response.recommendations
             (get_recommendations self user_query jours w).1) <= 5)%nat.
Proof.
  destruct (get_recommendations_cases self user_query jours w)
    as [(_ & -> & _) | (_ & _ & results & seen & Hloop & ->)];
    [simpl; lia |].
  apply select_loop_length in Hloop; [exact Hloop | simpl; lia].
Qed.

(** X2. [get_recommendations] reports [success = True] exactly when its
    recommendations list is not empty, and the message of a success counts
    the recommendations: "Found n high-quality recommendations". *)
Theorem success_iff_recommendations (self : Model) (user_query : str)
  (jours : Z) (w : World) :
  let response := (get_recommendations self user_query jours w).1 in
  (Response.success response = true
   <-> Response.recommendations response <> [])
  /\ (Response.success response = true ->
      Response.message response
      = Py.lit "Found "
        ++ str_of_nat (length (Response.recommendations response))
        ++ Py.lit " high-quality recommendations").
Proof.
  intros response. subst response.
  destruct (get_recommendations_cases self user_query jours w)
    as [(Hs & Hr & _) | (_ & _ & results & seen & _ & ->)].
  - rewrite Hs, Hr. split; [split; [discriminate | congruence] | discriminate].
  - unfold final_response. cbn [Response.success Response.recommendations
                                 Response.message].
    destruct results as [| r results]; cbn [length Nat.ltb Nat.leb].
    + split; [split; [discriminate | congruence] | discriminate].
    + split; [split; [discriminate | reflexivity] | reflexivity].
Qed.

(** X3. The recommendations are listed by non-increasing reported score: no
    recommendation has a higher score than one listed before it. *)
Theorem recommendations_ranked (self : Model) (user_query : str) (jours : Z)
  (w : World) :
  ranked (Response.recommendations
            (get_recommendations self user_query jours w).1).
Proof.
  destruct (get_recommendations_cases self user_query jours w)
    as [(_ & -> & _) | (_ & _ & results & seen & Hloop & ->)];
    [constructor |].
  apply select_loop_picks in Hloop as (picked & new & Hsub & Hall & Hres).
  cbn [fst app] in Hres. cbn [final_response Response.recommendations].
  subst results.
  eapply accepted_scores_ranked; [| exact Hall].
  eapply sublist_strongly_sorted; [exact Hsub |].
  apply top_indices_non_increasing.
Qed.

(** ** Diversity of the returned list *)

Lemma result_key_make_result (row : Row.t) (jours : Z) (s : Q) :
  result_key (make_result row jours s) = combo_key row.
Proof. reflexivity. Qed.

Lemma similar_count_mono (k : Key) (X Y : gset Key) :
  X ⊆ Y -> (similar_count k X <= similar_count k Y)%nat.
Proof.
  intros HXY. unfold similar_count. apply subseteq_size.
  intros x Hx. apply elem_of_filter in Hx as [HP Hx].
  apply elem_of_filter. split; [exact HP | apply HXY, Hx].
Qed.

Lemma diverse_snoc (results : list Result.t) (r : Result.t) :
  diverse results ->
  (similar_count (result_key r) (list_to_set (map result_key results)) < 2)%nat ->
  diverse (results ++ [r]).
Proof.
  intros Hd Hr i r' Hi.
  destruct (decide (i < length results)%nat) as [Hlt | Hge].
  - rewrite lookup_app_l in Hi by exact Hlt.
    rewrite take_app_le by lia. apply Hd, Hi.
  - rewrite lookup_app_r in Hi by lia.
    destruct (i - length results)%nat as [| n] eqn:E; [| destruct n; discriminate].
    injection Hi as <-.
    assert (i = length results) as -> by lia.
    rewrite take_app_length. exact Hr.
Qed.

Lemma select_loop_diverse (self : Model) (sims : list Q) (jours : Z)
  (indices : list nat) (st' : Selection) :
  select_loop self sims jours indices ([], ∅) = Some st' ->
  diverse st'.1.
Proof.
  intros Hloop.
  enough (H : list_to_set (map result_key st'.1) ⊆ st'.2 /\ diverse st'.1)
    by apply H.
  revert Hloop.
  apply (select_loop_invariant self sims jours
           (fun st => list_to_set (map result_key st.1) ⊆ st.2 /\ diverse st.1)).
  - intros [results seen] idx st1 [Hsub Hd] Hstep. cbn [fst snd] in *.
    apply select_step_inv in Hstep
        as (row & _ & [[_ ->] | [Hsim (s & _ & [[_ ->] | [_ ->]])]]);
      cbn [fst snd].
    + auto.
    + split; [| exact Hd].
      etrans; [exact Hsub | apply union_subseteq_r].
    + split.
      * rewrite map_app, list_to_set_app_L. cbn [map list_to_set].
        rewrite result_key_make_result.
        apply union_least; [etrans; [exact Hsub | apply union_subseteq_r] |].
        apply union_least; [apply union_subseteq_l | apply empty_subseteq].
      * apply diverse_snoc; [exact Hd |].
        rewrite result_key_make_result.
        eapply Nat.le_lt_trans; [| exact Hsim].
        apply similar_count_mono, Hsub.
  - cbn [fst snd map list_to_set]. split; [apply empty_subseteq |].
    intros i r Hi. discriminate.
Qed.

(** X4. In the returned list every recommendation agrees on two or more of
    (type, budget, lieu) with fewer than two of the distinct combinations of
    the recommendations listed before it. *)
Theorem recommendations_diverse (self : Model) (user_query : str) (jours : Z)
  (w : World) :
  diverse (Response.recommendations
             (get_recommendations self user_query jours w).1).
Proof.
  destruct (get_recommendations_cases self user_query jours w)
    as [(_ & -> & _) | (_ & _ & results & seen & Hloop & ->)].
  - intros i r Hi. discriminate.
  - apply select_loop_diverse in Hloop. exact Hloop.
Qed.

(** ** Scores reported with a success *)

Lemma mean_lower_bound (c : Q) (l : list Q) :
  l <> [] -> Forall (fun x => c <= x) l -> c <= mean l.
Proof.
  intros Hne Hall. unfold mean, of_nat.
  assert (Hsum : c * inject_Z (Z.of_nat (length l)) <= fold_right Qplus 0 l).
  { clear Hne. induction Hall as [| x l Hx Hall IH].
    - cbn [length fold_right]. change (inject_Z (Z.of_nat 0)) with 0. lra.
    - cbn [length fold_right]. rewrite Nat2Z.inj_succ, <- Z.add_1_r.
      rewrite inject_Z_plus. change (inject_Z 1) with 1. lra. }
  assert (Hpos : 0 < inject_Z (Z.of_nat (length l))).
  { change 0 with (inject_Z 0). rewrite <- Zlt_Qlt.
    destruct l; [congruence | simpl; lia]. }
  apply Qle_shift_div_l; assumption.
Qed.


Lemma reported_score_floor (self : Model) (sims : list Q) (jours : Z)
  (r : Result.t) :
  accepted self sims jours r -> quality_threshold <= Result.score r.
Proof.
  intros (idx & row & s & _ & _ & Hq & ->). cbn [Result.score make_result].
  apply (round3_monotone quality_threshold s) in Hq.
  assert (H : Py.round3 quality_threshold == quality_threshold)
    by (vm_compute; reflexivity).
  rewrite <- H. exact Hq.
Qed.



(** ** The first recommendation *)

Lemma walk_head (self : Model) (sims : list Q) :
  sims <> [] ->
  exists i0 rest s0,
    top_indices self sims = i0 :: rest
    /\ sims !! i0 = Some s0
    /\ forall s, In s sims -> s <= s0.
Proof.
  intros Hne.
  pose proof (top_indices_non_increasing self sims) as Hsorted.
  assert (Hperm : Permutation (top_indices self sims) (seq 0 (length sims))).
  { unfold top_indices. rewrite <- Permutation_rev. apply argsort_perm. }
  destruct (top_indices self sims) as [| i0 rest] eqn:Hwalk.
  { apply Permutation_length in Hperm. rewrite length_seq in Hperm.
    destruct sims; [congruence | discriminate]. }
  assert (Hi0 : (i0 < length sims)%nat).
  { apply (top_indices_in_range self). rewrite Hwalk. left. reflexivity. }
  destruct (lookup_lt_is_Some_2 sims i0 Hi0) as [s0 Hs0].
  exists i0, rest, s0. repeat split; [exact Hs0 |].
  intros s Hs. apply list_elem_of_In, list_elem_of_lookup in Hs as [idx Hidx].
  assert (Hin : In idx (i0 :: rest)).
  { apply (Permutation_in _ (Permutation_sym Hperm)), in_seq.
    apply lookup_lt_Some in Hidx. lia. }
  apply nth_lookup_Some with (d := 0) in Hs0.
  apply nth_lookup_Some with (d := 0) in Hidx.
  destruct Hin as [<- | Hin].
  - rewrite Hs0 in Hidx. subst s. lra.
  - apply StronglySorted_inv in Hsorted as [_ Hall].
    rewrite Forall_forall in Hall.
    apply list_elem_of_In, Hall in Hin. rewrite Hs0, Hidx in Hin. exact Hin.
Qed.

Lemma similar_count_empty (k : Key) : similar_count k ∅ = 0%nat.
Proof.
  unfold similar_count.
  assert (H : filter (fun seen => (2 <= agreement k seen)%nat) (∅ : gset Key)
              = ∅) by (apply leibniz_equiv, filter_empty; apply _).
  rewrite H. apply size_empty.
Qed.

(** When the best score reaches the threshold, the first walked candidate is
    accepted and stays the first result. *)
Lemma best_candidate_first (self : Model) (sims : list Q) (jours : Z)
  (i0 : nat) (rest : list nat) (row : Row.t) (s0 : Q) (st' : Selection) :
  configs self !! i0 = Some row ->
  sims !! i0 = Some s0 ->
  quality_threshold <= s0 ->
  select_loop self sims jours (i0 :: rest) ([], ∅) = Some st' ->
  exists more, st'.1 = make_result row jours s0 :: more.
Proof.
  intros Hrow Hs0 Hq. cbn [select_loop fst length Nat.leb].
  unfold select_step. rewrite Hrow, Hs0. run_bind.
  rewrite similar_count_empty. cbn [Nat.leb].
  apply ltb_ge in Hq. rewrite Hq. cbn [app].
  intros Hloop. apply select_loop_picks in Hloop as (_ & new & _ & _ & ->).
  exists new. reflexivity.
Qed.

(** X6. For an initialised model, a query of at least three characters and
    a duration that fits in 64 bits (beyond that, building a result raises an
    overflow error), [get_recommendations] succeeds exactly when some
    configuration's final score reaches the quality threshold 0.15. *)
Theorem success_iff_score_reaches_threshold (self : Model) (user_query : str)
  (jours : Z) (w : World) :
  is_initialized self = true ->
  (3 <= length (Py.strip user_query))%nat ->
  (- 2 ^ 63 <= jours < 2 ^ 63)%Z ->
  Response.success (get_recommendations self user_query jours w).1 = true
  <-> exists s,
        In s (_calculate_enhanced_scores self user_query w).1
        /\ quality_threshold <= s.
Proof.
  intros Hinit Hlen _.
  pose proof (recommendations_accepted self user_query jours w) as Hacc.
  pose proof (scores_length self user_query w) as Hslen.
  destruct (get_recommendations_cases self user_query jours w)
    as [(_ & _ & [Hc | Hc]) | (_ & _ & results & seen & Hloop & Heq)];
    [congruence | lia |].
  rewrite Heq in *. clear Heq.
  set (sims := (_calculate_enhanced_scores self user_query w).1) in *.
  cbn [final_response Response.success Response.recommendations] in *.
  split.
  - intros Hs. destruct results as [| r results]; [discriminate |].
    destruct (Hacc r (or_introl eq_refl)) as (idx & row & s & _ & Hidx & Hq & _).
    exists s. split; [| exact Hq].
    apply list_elem_of_In. eapply list_elem_of_lookup_2. exact Hidx.
  - intros (s & Hin & Hq).
    assert (Hne : sims <> []) by (intros E; rewrite E in Hin; destruct Hin).
    destruct (walk_head self sims Hne) as (i0 & rest & s0 & Hwalk & Hs0 & Hmax).
    rewrite Hwalk in Hloop.
    destruct (lookup_lt_is_Some_2 (configs self) i0) as [row Hrow].
    { rewrite <- Hslen. eapply lookup_lt_Some. exact Hs0. }
    assert (Hq0 : quality_threshold <= s0) by (specialize (Hmax s Hin); lra).
    destruct (best_candidate_first _ _ _ _ _ _ _ _ Hrow Hs0 Hq0 Hloop)
      as [more Hres].
    cbn [fst] in Hres. rewrite Hres. reflexivity.
Qed.

Lemma success_iff_score_reaches_threshold_witness :
  Response.success
    (get_recommendations Examples.twin_model (Py.lit "pub low studio") 1
                         Examples.world0).1 = true
  <-> exists s,
        In s (_calculate_enhanced_scores Examples.twin_model
                (Py.lit "pub low studio") Examples.world0).1
        /\ quality_threshold <= s.
Proof.
  apply (success_iff_score_reaches_threshold Examples.twin_model
           (Py.lit "pub low studio") 1 Examples.world0).
  - reflexivity.
  - vm_compute. lia.
  - lia.
Defined.

(** X7. The first recommendation is built from a configuration whose final
    score is the maximum over the catalog. *)
Theorem first_recommendation_is_best (self : Model) (user_query : str)
  (jours : Z) (w : World) (top : Result.t) (others : list Result.t) :
  Response.recommendations (get_recommendations self user_query jours w).1
  = top :: others ->
  exists i0 row s0,
    configs self !! i0 = Some row
    /\ (_calculate_enhanced_scores self user_query w).1 !! i0 = Some s0
    /\ top = make_result row jours s0
    /\ forall s, In s (_calculate_enhanced_scores self user_query w).1 ->
                 s <= s0.
Proof.
  intros Hrecs.
  pose proof (recommendations_accepted self user_query jours w) as Hacc.
  pose proof (scores_length self user_query w) as Hslen.
  destruct (get_recommendations_cases self user_query jours w)
    as [(_ & Hr & _) | (_ & _ & results & seen & Hloop & Heq)];
    [congruence |].
  rewrite Heq in *. clear Heq.
  set (sims := (_calculate_enhanced_scores self user_query w).1) in *.
  cbn [final_response Response.recommendations] in *. subst results.
  destruct (Hacc top (or_introl eq_refl)) as (idx & row1 & s & _ & Hidx & Hq & _).
  assert (Hne : sims <> []) by (intros E; rewrite E in Hidx; discriminate).
  destruct (walk_head self sims Hne) as (i0 & rest & s0 & Hwalk & Hs0 & Hmax).
  rewrite Hwalk in Hloop.
  destruct (lookup_lt_is_Some_2 (configs self) i0) as [row Hrow].
  { rewrite <- Hslen. eapply lookup_lt_Some. exact Hs0. }
  assert (Hq0 : quality_threshold <= s0).
  { assert (Hin : In s sims)
      by (apply list_elem_of_In; eapply list_elem_of_lookup_2; exact Hidx).
    specialize (Hmax s Hin). lra. }
  destruct (best_candidate_first _ _ _ _ _ _ _ _ Hrow Hs0 Hq0 Hloop)
    as [more Hres].
  cbn [fst] in Hres. injection Hres as -> _.
  exists i0, row, s0. auto.
Qed.

Lemma first_recommendation_is_best_witness :
  exists top others,
    Response.recommendations
      (get_recommendations Examples.twin_model (Py.lit "pub low studio") 1
                           Examples.world0).1
    = top :: others
    /\ exists i0 row s0,
        configs Examples.twin_model !! i0 = Some row
        /\ (_calculate_enhanced_scores Examples.twin_model
              (Py.lit "pub low studio") Examples.world0).1 !! i0 = Some s0
        /\ top = make_result row 1 s0
        /\ forall s,
             In s (_calculate_enhanced_scores Examples.twin_model
                     (Py.lit "pub low studio") Examples.world0).1 ->
             s <= s0.
Proof.
  destruct (Response.recommendations
              (get_recommendations Examples.twin_model
                 (Py.lit "pub low studio") 1 Examples.world0).1)
    as [| top others] eqn:E.
  - vm_compute in E. discriminate E.
  - exists top, others. split; [reflexivity |].
    exact (first_recommendation_is_best Examples.twin_model
             (Py.lit "pub low studio") 1 Examples.world0 top others E).
Defined.

(** ** The lexical score *)

Lemma of_nat_nonneg (n : nat) : 0 <= of_nat n.
Proof.
  unfold of_nat. change 0 with (inject_Z 0). rewrite <- Zle_Qle. lia.
Qed.

Lemma of_nat_le (n m : nat) : (n <= m)%nat -> of_nat n <= of_nat m.
Proof. intros H. unfold of_nat. rewrite <- Zle_Qle. lia. Qed.

Lemma of_nat_pos (n : nat) : (0 < n)%nat -> 0 < of_nat n.
Proof.
  intros H. unfold of_nat. change 0 with (inject_Z 0). rewrite <- Zlt_Qlt. lia.
Qed.

Lemma filter_elem_of_intersection (X Y : gset str) :
  filter (fun word => word ∈ Y) X = X ∩ Y.
Proof.
  apply set_eq. intros x.
  rewrite elem_of_filter, elem_of_intersection. tauto.
Qed.

(** X8. The lexical score of step 2 is the Jaccard ratio of the two word sets
    plus 0.1 per shared word (the exact-match count is the size of the
    intersection); it is 0 when no word is shared, above 0.1 otherwise, never
    negative and at most 1 plus 0.1 per query word. *)
Theorem keyword_score_bounds (self : Model) (query_words : gset str)
  (row : Row.t) :
  let shared := size (query_words ∩ config_words self row) in
  let all := size (query_words ∪ config_words self row) in
  keyword_score self query_words row
  = (if (0 <? all)%nat then of_nat shared / of_nat all else 0)
    + of_nat shared * 0.1
  /\ 0 <= keyword_score self query_words row
  /\ keyword_score self query_words row <= 1 + of_nat (size query_words) * 0.1
  /\ (shared = 0%nat -> keyword_score self query_words row == 0)
  /\ ((0 < shared)%nat -> 0.1 < keyword_score self query_words row).
Proof.
  intros shared all.
  assert (Heq : keyword_score self query_words row
                = (if (0 <? all)%nat then of_nat shared / of_nat all else 0)
                  + of_nat shared * 0.1).
  { unfold keyword_score. fold (config_words self row).
    rewrite filter_elem_of_intersection. reflexivity. }
  assert (Hsa : (shared <= all)%nat).
  { apply subseteq_size. intros x Hx.
    apply elem_of_intersection in Hx as [Hx _].
    apply elem_of_union. left. exact Hx. }
  assert (Hsq : (shared <= size query_words)%nat).
  { apply subseteq_size. intros x Hx.
    apply elem_of_intersection in Hx as [Hx _]. exact Hx. }
  pose proof (of_nat_nonneg shared) as H0.
  pose proof (of_nat_le _ _ Hsa) as H1.
  pose proof (of_nat_le _ _ Hsq) as H2.
  assert (Hj : 0 <= (if (0 <? all)%nat then of_nat shared / of_nat all else 0)
               /\ (if (0 <? all)%nat then of_nat shared / of_nat all else 0) <= 1
               /\ ((0 < shared)%nat ->
                   0 < (if (0 <? all)%nat then of_nat shared / of_nat all else 0))).
  { destruct (0 <? all)%nat eqn:E.
    - apply Nat.ltb_lt, of_nat_pos in E. repeat split.
      + apply Qle_shift_div_l; [exact E | lra].
      + apply Qle_shift_div_r; [exact E | lra].
      + intros Hs. apply of_nat_pos in Hs.
        apply Qlt_shift_div_l; [exact E | lra].
    - apply Nat.ltb_ge in E. repeat split; try lra. intros Hs. lia. }
  destruct Hj as (Hj0 & Hj1 & Hj2).
  split; [exact Heq |]. rewrite Heq.
  repeat split; try lra.
  - intros Hs. rewrite Hs in *.
    destruct (0 <? all)%nat; unfold of_nat; simpl; reflexivity.
  - intros Hs. specialize (Hj2 Hs). apply of_nat_pos in Hs.
    assert (1 <= of_nat shared).
    { unfold of_nat. change 1 with (inject_Z 1). rewrite <- Zle_Qle.
      unfold of_nat in Hs. change 0 with (inject_Z 0) in Hs.
      rewrite <- Zlt_Qlt in Hs. lia. }
    lra.
Qed.

(** ** The weighting factors *)

Lemma price_factor_bounds (extracted : Features.t) (row : Row.t) :
  (1 # 3) <= price_score extracted row <= 1.
Proof.
  unfold price_score.
  destruct (Features.budget extracted) as [b |]; [| lra].
  assert (Ht : (1 <= budget_tier row <= 3)%Z).
  { unfold budget_tier. repeat case_bool_decide; lia. }
  assert (Hq : (1 <= budget_tier_of_query b <= 3)%Z) by (destruct b; simpl; lia).
  remember (budget_tier row - budget_tier_of_query b)%Z as d eqn:Hdef.
  assert (Habs : 0 <= Qabs (inject_Z d) <= 2).
  { split; [apply Qabs_nonneg |].
    apply Qabs_Qle_condition. split.
    - change (- (2)) with (inject_Z (-2)). rewrite <- Zle_Qle. lia.
    - change 2 with (inject_Z 2). rewrite <- Zle_Qle. lia. }
  unfold Qdiv. setoid_replace (/ 3) with (1 # 3) using relation Qeq by reflexivity.
  lra.
Qed.

(** X9. The price factor of step 5 lies between 1/3 and 1; it is 1 when the
    query names no budget, and with a budget it is 1 exactly for the rows of
    the same budget tier (rows whose budget is none of low, medium, high count
    as medium). *)
Theorem price_score_range (extracted : Features.t) (row : Row.t) :
  1 / 3 <= price_score extracted row <= 1
  /\ (Features.budget extracted = None -> price_score extracted row = 1)
  /\ forall b,
       Features.budget extracted = Some b ->
       (price_score extracted row == 1
        <-> budget_tier row = budget_tier_of_query b)
       /\ (Row.budget row = budget_name b -> price_score extracted row == 1).
Proof.
  unfold price_score.
  destruct (Features.budget extracted) as [b |].
  - assert (Ht : (1 <= budget_tier row <= 3)%Z).
    { unfold budget_tier. repeat case_bool_decide; lia. }
    assert (Hq : (1 <= budget_tier_of_query b <= 3)%Z) by (destruct b; simpl; lia).
    remember (budget_tier row - budget_tier_of_query b)%Z as d eqn:Hdef.
    assert (Hd : (-2 <= d <= 2)%Z) by lia.
    assert (Habs : 0 <= Qabs (inject_Z d) <= 2).
    { split; [apply Qabs_nonneg |].
      apply Qabs_Qle_condition. split.
      - change (- (2)) with (inject_Z (-2)). rewrite <- Zle_Qle. lia.
      - change 2 with (inject_Z 2). rewrite <- Zle_Qle. lia. }
    split; [unfold Qdiv; setoid_replace (/ 3) with (1 # 3) using relation Qeq by reflexivity;
            lra |].
    split; [discriminate |].
    intros b' [= <-]. split.
    + split.
      * intros H. assert (Hz : Qabs (inject_Z d) == 0).
        { revert H. unfold Qdiv.
          setoid_replace (/ 3) with (1 # 3) using relation Qeq by reflexivity. intros H. lra. }
        pose proof (Qle_Qabs (inject_Z d)) as H1.
        pose proof (Qle_Qabs (- inject_Z d)) as H2.
        rewrite Qabs_opp in H2.
        assert (Hd0 : inject_Z d == inject_Z 0).
        { change (inject_Z 0) with 0. apply Qle_antisym.
          - rewrite Hz in H1. exact H1.
          - rewrite Hz in H2. lra. }
        unfold Qeq in Hd0. simpl in Hd0. lia.
      * intros H. assert (d = 0%Z) as -> by lia.
        reflexivity.
    + intros Hb. assert (d = 0%Z) as ->; [| reflexivity].
      subst d. unfold budget_tier. rewrite Hb.
      destruct b; vm_compute; reflexivity.
  - split; [unfold Qdiv; setoid_replace (/ 3) with (1 # 3) using relation Qeq by reflexivity;
            lra |].
    split; [reflexivity | discriminate].
Qed.

Lemma fold_max_ge_elem (r : list Z) (x y : Z) :
  In y r -> (y <= fold_left Z.max r x)%Z.
Proof.
  revert x. induction r as [| z r IH]; intros x; simpl; [tauto |].
  intros [-> | Hy]; [| apply IH, Hy].
  pose proof (fold_max_ge r (Z.max x y)). lia.
Qed.

Lemma series_max_ge (l : list Z) (y : Z) : In y l -> (y <= series_max l)%Z.
Proof.
  destruct l as [| x r]; simpl; [tauto |].
  intros [<- | Hy]; [apply fold_max_ge | apply fold_max_ge_elem, Hy].
Qed.

Lemma fold_max_in (r : list Z) (x : Z) : In (fold_left Z.max r x) (x :: r).
Proof.
  revert x. induction r as [| z r IH]; intros x; simpl; [auto |].
  destruct (IH (Z.max x z)) as [H | H]; [| auto].
  rewrite <- H. destruct (Z.max_spec x z) as [[_ ->] | [_ ->]]; auto.
Qed.

Lemma quality_factor_bounds (self : Model) (row : Row.t) :
  In row (configs self) -> 0 < quality_score self row <= 1.
Proof.
  intros Hrow. unfold quality_score.
  set (m := series_max (map _calculate_complexity (configs self))).
  assert (H : (1 <= _calculate_complexity row <= m)%Z).
  { split; [apply complexity_range |]. apply series_max_ge, in_map, Hrow. }
  assert (Hm : 0 < inject_Z m).
  { change 0 with (inject_Z 0). rewrite <- Zlt_Qlt. lia. }
  destruct H as [H1 H2].
  rewrite Zle_Qle in H1, H2. change (inject_Z 1) with 1 in H1. split.
  - apply Qlt_shift_div_l; [exact Hm | lra].
  - apply Qle_shift_div_r; [exact Hm | lra].
Qed.

(** X10. The quality factor of step 4 of a catalog row lies in (0, 1], and
    some row of the catalog has quality factor 1. *)
Theorem quality_score_range (self : Model) (row : Row.t) :
  In row (configs self) ->
  0 < quality_score self row <= 1
  /\ exists best, In best (configs self) /\ quality_score self best == 1.
Proof.
  intros Hrow. unfold quality_score.
  set (m := series_max (map _calculate_complexity (configs self))).
  assert (Hle : forall r, In r (configs self) ->
                          (1 <= _calculate_complexity r <= m)%Z).
  { intros r Hr. split; [apply complexity_range |].
    apply series_max_ge, in_map, Hr. }
  assert (Hm : 0 < inject_Z m).
  { change 0 with (inject_Z 0). rewrite <- Zlt_Qlt.
    specialize (Hle row Hrow). lia. }
  split.
  - destruct (Hle row Hrow) as [H1 H2].
    rewrite Zle_Qle in H1, H2. change (inject_Z 1) with 1 in H1. split.
    + apply Qlt_shift_div_l; [exact Hm | lra].
    + apply Qle_shift_div_r; [exact Hm | lra].
  - assert (Hin : In m (map _calculate_complexity (configs self))).
    { subst m. destruct (configs self) as [| r0 rs]; [destruct Hrow |].
      cbn [map series_max]. apply fold_max_in. }
    apply in_map_iff in Hin as (best & Hbest & Hin).
    exists best. split; [exact Hin |]. rewrite Hbest.
    apply Qmult_inv_r. lra.
Qed.

Lemma quality_score_range_witness :
  let row := Examples.basic_kit "pub" "low" "studio" 290 in
  0 < quality_score Examples.twin_model row <= 1
  /\ exists best,
       In best (configs Examples.twin_model)
       /\ quality_score Examples.twin_model best == 1.
Proof.
  apply (quality_score_range Examples.twin_model
           (Examples.basic_kit "pub" "low" "studio" 290)).
  left. reflexivity.
Defined.

(** ** The combined score *)

Lemma features_specificity_range (self : Model) (query : str) :
  (0 <= Features.specificity_score (_extract_enhanced_features self query)
   <= 4)%Z.
Proof.
  unfold _extract_enhanced_features.
  set (pq := _enhanced_preprocess_text self query).
  set (f1 := detect_budget pq _).
  set (f2 := detect_lieu self _ f1).
  assert (H1 : Features.type f1 = None
               /\ (0 <= Features.specificity_score f1 <= 1)%Z).
  { subst f1. unfold detect_budget.
    destruct (find _ budget_patterns) as [[b ?] |]; simpl; split; auto; lia. }
  destruct H1 as (Ht1 & Hs1).
  assert (H2 : Features.type f2 = None
               /\ (0 <= Features.specificity_score f2 <= 2)%Z).
  { subst f2. unfold detect_lieu.
    destruct (find _ (set_order self LIEU_VALUES)); simpl; split; auto; lia. }
  destruct H2 as (Ht2 & Hs2).
  assert (Htr := detect_type_truthy self pq f2).
  rewrite Ht2 in Htr. specialize (Htr eq_refl). simpl in Htr.
  unfold detect_type in *.
  destruct (find _ (TYPE_VALUES self)) as [ty |] eqn:Hfind.
  - unfold infer_type. rewrite Htr. simpl. lia.
  - unfold infer_type. rewrite Htr. cbn [negb].
    repeat match goal with
           | |- context [any_in ?l pq] => destruct (any_in l pq)
           end;
      cbn [Features.specificity_score]; lia.
Qed.

(** X11. The raw score of step 6 is the base score [0.4 * semantic + 0.3 *
    lexical] multiplied by boost, quality and price factors whose product lies
    between 13/15 and 3.72: the raw score has the sign of the base score and
    is within these multiples of it. *)
Theorem combined_score_sign (self : Model) (processed_query : str)
  (semantic_scores : nat -> Q) (i : nat) (r : Q) :
  combined_scores self processed_query semantic_scores !! i = Some r ->
  exists row,
    configs self !! i = Some row
    /\ let b := base_score self processed_query semantic_scores i row in
       (0 <= b -> (13 # 15) * b <= r <= 3.72 * b)
       /\ (b <= 0 -> 3.72 * b <= r <= (13 # 15) * b)
       /\ (0 < r <-> 0 < b)
       /\ (r < 0 <-> b < 0).
Proof.
  unfold combined_scores. rewrite list_lookup_imap.
  destruct (configs self !! i) as [row |] eqn:Hrow; [| discriminate].
  cbn [fmap option_fmap option_map]. intros [= <-]. exists row.
  split; [reflexivity |].
  fold (base_score self processed_query semantic_scores i row).
  set (b := base_score self processed_query semantic_scores i row).
  set (extracted := _extract_enhanced_features self processed_query).
  assert (Hrow' : In row (configs self)).
  { apply list_elem_of_In. eapply list_elem_of_lookup_2. exact Hrow. }
  assert (Hboost : 1 <= boost extracted row <= 3.1).
  { apply boost_bounds. unfold boost_strength.
    pose proof (features_specificity_range self processed_query) as [H0 H4].
    fold extracted in H0, H4. rewrite Zle_Qle in H0, H4.
    change (inject_Z 0) with 0 in H0. change (inject_Z 4) with 4 in H4.
    lra. }
  assert (Hq : 0 < quality_score self row <= 1).
  { apply quality_factor_bounds. exact Hrow'. }
  assert (Hp : (1 # 3) <= price_score extracted row <= 1).
  { apply price_factor_bounds. }
  set (bo := boost extracted row) in *.
  set (q := quality_score self row) in *.
  set (p := price_score extracted row) in *.
  cbv zeta.
  assert (Hf : (13 # 15) <= bo * (1 + q * 0.2) * (0.8 + p * 0.2) <= 3.72).
  { assert (H1 : 1 <= bo * (1 + q * 0.2) <= 3.72) by nra.
    nra. }
  set (f := bo * (1 + q * 0.2) * (0.8 + p * 0.2)) in *.
  assert (Heq : b * bo * (1 + q * 0.2) * (0.8 + p * 0.2) == b * f)
    by (subst f; ring).
  rewrite Heq.
  repeat split; intros; nra.
Qed.

Lemma combined_score_sign_witness :
  exists r row,
    combined_scores Examples.twin_model (Py.lit "pub low studio")
                    (fun _ => 1 # 2) !! 0%nat = Some r
    /\ configs Examples.twin_model !! 0%nat = Some row
    /\ let b := base_score Examples.twin_model (Py.lit "pub low studio")
                           (fun _ => 1 # 2) 0 row in
       (0 <= b -> (13 # 15) * b <= r <= 3.72 * b)
       /\ (b <= 0 -> 3.72 * b <= r <= (13 # 15) * b)
       /\ (0 < r <-> 0 < b)
       /\ (r < 0 <-> b < 0).
Proof.
  destruct (combined_scores Examples.twin_model (Py.lit "pub low studio")
              (fun _ => 1 # 2) !! 0%nat) as [r |] eqn:E.
  - destruct (combined_score_sign Examples.twin_model
                (Py.lit "pub low studio") (fun _ => 1 # 2) 0 r E)
      as (row & Hrow & H).
    exists r, row. split; [reflexivity |]. split; [exact Hrow | exact H].
  - vm_compute in E. discriminate E.
Defined.

(** ** The random fallback of the scoring method *)

Lemma round_of_fallback_range (x : Q) : 1.75 <= x -> x < 2.5 -> Py.round x = 2%Z.
Proof.
  intros Hlo Hhi.
  pose proof (Qfloor_le x) as Hf1. pose proof (Qlt_floor x) as Hf2.
  assert (Hf : Qfloor x = 1%Z \/ Qfloor x = 2%Z).
  { assert (H1 : (0 < Qfloor x + 1)%Z).
    { rewrite Zlt_Qlt. change (inject_Z 0) with 0. lra. }
    assert (H2 : (Qfloor x < 3)%Z).
    { rewrite Zlt_Qlt. change (inject_Z 3) with 3. lra. }
    assert (H3 : (1 < Qfloor x + 1)%Z).
    { rewrite Zlt_Qlt. change (inject_Z 1) with 1. lra. }
    lia. }
  unfold Py.round.
  destruct Hf as [E | E]; rewrite E in *; cbn [Z.even];
    change (inject_Z 1) with 1 in *; change (inject_Z 2) with 2 in *;
    change (inject_Z (1 + 1)) with 2 in *; change (inject_Z (2 + 1)) with 3 in *.
  - destruct (Qle_bool (x - 1) (1 # 2)) eqn:E1; [| reflexivity].
    apply Qle_bool_iff in E1. lra.
  - destruct (Qle_bool (x - 2) (1 # 2)) eqn:E1.
    + destruct (Qle_bool (1 # 2) (x - 2)) eqn:E2; [| reflexivity].
      apply Qle_bool_iff in E2. lra.
    + exfalso. assert (x - 2 <= 1 # 2) by lra.
      apply Qle_bool_iff in H. congruence.
Qed.

(** X12. When the scoring stage raises, the scores are drawn from [0.1, 0.3)
    (for generator samples in [0, 1)); every recommendation then returned has
    quality rating 2 and the confidence label fair or low. *)
Theorem fallback_scores_and_ratings (self : Model) (user_query : str)
  (jours : Z) (w : World) :
  (forall i, 0 <= rng_stream w i < 1) ->
  (scores_try self user_query w).1 = None ->
  (forall s, In s (_calculate_enhanced_scores self user_query w).1 ->
             0.1 <= s < 0.3)
  /\ forall r,
       In r (Response.recommendations
               (get_recommendations self user_query jours w).1) ->
       Result.quality_rating r = 2%Z
       /\ (Result.confidence r = fair \/ Result.confidence r = low).
Proof.
  intros Hrng Hfail.
  assert (Hrange : forall s,
             In s (_calculate_enhanced_scores self user_query w).1 ->
             0.1 <= s < 0.3).
  { rewrite (scores_of_failed_try self user_query w Hfail).
    unfold random_uniform. cbn [fst]. intros s Hs.
    apply in_map_iff in Hs as (i & <- & _).
    destruct (scores_try_rng self user_query w) as [_ ->].
    specialize (Hrng (rng_pos (scores_try self user_query w).2 + i)%nat).
    lra. }
  split; [exact Hrange |].
  intros r Hr. apply recommendations_accepted in Hr
    as (idx & row & s & _ & Hs & Hq & ->).
  assert (Hin : In s (_calculate_enhanced_scores self user_query w).1).
  { apply list_elem_of_In. eapply list_elem_of_lookup_2. exact Hs. }
  specialize (Hrange s Hin). unfold quality_threshold in Hq.
  cbn [Result.quality_rating Result.confidence make_result]. split.
  - rewrite round_of_fallback_range by lra. reflexivity.
  - unfold _calculate_confidence.
    assert (H8 : Py.ltb 0.8 s = false) by (apply ltb_ge; lra).
    assert (H6 : Py.ltb 0.6 s = false) by (apply ltb_ge; lra).
    assert (H4 : Py.ltb 0.4 s = false) by (apply ltb_ge; lra).
    rewrite H8, H6, H4. destruct (Py.ltb 0.2 s); auto.
Qed.

Lemma fallback_scores_and_ratings_witness :
  (forall s,
     In s (_calculate_enhanced_scores Examples.failing_model
             (Py.lit "pub low studio") Examples.world0).1 ->
     0.1 <= s < 0.3)
  /\ forall r,
       In r (Response.recommendations
               (get_recommendations Examples.failing_model
                  (Py.lit "pub low studio") 1 Examples.world0).1) ->
       Result.quality_rating r = 2%Z
       /\ (Result.confidence r = fair \/ Result.confidence r = low).
Proof.
  apply (fallback_scores_and_ratings Examples.failing_model
           (Py.lit "pub low studio") 1 Examples.world0).
  - intros i. unfold Examples.world0. cbn [rng_stream].
    destruct (i <? 2)%nat; split; lra.
  - vm_compute. reflexivity.
Defined.

(** ** Queries that normalise to nothing *)

(** X13. A query of at least three characters whose normalised text is empty
    gets all-zero scores without touching the embedding model or the random
    generator, and is answered with "No close matches found" and no
    recommendation. *)
Theorem wordless_query_not_embedded (self : Model) (user_query : str)
  (jours : Z) (w : World) :
  is_initialized self = true ->
  (3 <= length (Py.strip user_query))%nat ->
  _enhanced_preprocess_text self user_query = [] ->
  get_recommendations self user_query jours w
  = (final_response self user_query jours [], w)
  /\ Response.message (get_recommendations self user_query jours w).1
     = Py.lit "No close matches found".
Proof.
  intros Hinit Hlen Hempty.
  assert (Hscores : _calculate_enhanced_scores self user_query w
                    = (repeat 0 (length (configs self)), w)).
  { unfold _calculate_enhanced_scores, scores_try. rewrite Hempty. reflexivity. }
  pose proof (walk_total self user_query jours w) as Htotal.
  assert (H : get_recommendations self user_query jours w
              = (final_response self user_query jours [], w)).
  { unfold get_recommendations, get_recommendations_try.
    rewrite Hinit. apply Nat.ltb_ge in Hlen. rewrite Hlen. cbn [negb].
    rewrite Hscores in *. cbn [fst] in Htotal.
    destruct Htotal as [[results seen] Hloop]. rewrite Hloop.
    apply select_loop_nothing_accepted in Hloop.
    - cbn [fst] in Hloop. subst results. reflexivity.
    - rewrite Forall_forall. intros s Hs.
      apply list_elem_of_In, repeat_spec in Hs. subst s. reflexivity. }
  rewrite H. split; reflexivity.
Qed.

Lemma wordless_query_not_embedded_witness :
  get_recommendations Examples.twin_model (Py.lit "?!?") 1 Examples.world0
  = (final_response Examples.twin_model (Py.lit "?!?") 1 [], Examples.world0)
  /\ Response.message
       (get_recommendations Examples.twin_model (Py.lit "?!?") 1
                            Examples.world0).1
     = Py.lit "No close matches found".
Proof.
  apply (wordless_query_not_embedded Examples.twin_model (Py.lit "?!?") 1
           Examples.world0).
  - reflexivity.
  - vm_compute. lia.
  - vm_compute. reflexivity.
Defined.

(** ** Shape of a normalised text *)

Lemma lstrip_app (l m : str) :
  Py.lstrip (l ++ m)
  = match Py.lstrip l with [] => Py.lstrip m | l' => l' ++ m end.
Proof.
  induction l as [| c l IH]; simpl; [reflexivity |].
  destruct (Py.isspace c); [exact IH | reflexivity].
Qed.

Lemma rstrip_direct_spec (s : str) :
  rev (Py.lstrip (rev s)) = rstrip_direct s.
Proof.
  induction s as [| c r IH]; [reflexivity |].
  cbn [rev rstrip_direct]. rewrite lstrip_app, <- IH.
  destruct (Py.lstrip (rev r)) as [| a l] eqn:E.
  - cbn [rev Py.lstrip]. destruct (Py.isspace c); reflexivity.
  - rewrite rev_app_distr. change (rev [c]) with [c]. cbn [app].
    destruct (rev (a :: l)) as [| b l'] eqn:E'; [| reflexivity].
    apply (f_equal (@length N)) in E'. rewrite length_rev in E'. discriminate.
Qed.

Lemma collapse_single_spaced (b : bool) (t : str) :
  single_spaced b (collapse_spaces b t).
Proof.
  revert b. induction t as [| c r IH]; intros b; [exact I |].
  cbn [collapse_spaces]. destruct (Py.isspace c) eqn:E.
  - destruct b; [apply IH |].
    cbn [single_spaced]. change (Py.isspace 32) with true.
    repeat split. apply IH.
  - cbn [single_spaced]. rewrite E. apply IH.
Qed.

Lemma lstrip_single_spaced (s : str) :
  single_spaced false s -> single_spaced true (Py.lstrip s).
Proof.
  destruct s as [| c r]; [intros _; exact I |].
  cbn [single_spaced Py.lstrip]. destruct (Py.isspace c) eqn:E.
  - intros (_ & _ & H). destruct r as [| d r']; [exact I |].
    cbn [single_spaced Py.lstrip] in *.
    destruct (Py.isspace d) eqn:E'; [destruct H as (_ & [=] & _) |].
    cbn [single_spaced]. rewrite E'. exact H.
  - intros H. cbn [single_spaced]. rewrite E. exact H.
Qed.

Lemma rstrip_tight (b : bool) (s : str) :
  single_spaced b s -> tight_from (negb b) (rstrip_direct s).
Proof.
  revert b. induction s as [| c r IH]; intros b; [intros _; exact I |].
  cbn [single_spaced rstrip_direct]. destruct (Py.isspace c) eqn:E.
  - intros (-> & -> & H). specialize (IH true H). cbn [negb] in *.
    destruct (rstrip_direct r) as [| d r'] eqn:Er; [exact I |].
    cbn [tight_from]. change (Py.isspace 32) with true.
    repeat split; [discriminate | exact IH].
  - intros H. specialize (IH false H). cbn [negb] in IH.
    destruct (rstrip_direct r) as [| d r'] eqn:Er.
    + cbn [tight_from]. rewrite E. exact I.
    + cbn [tight_from]. rewrite E. exact IH.
Qed.

Lemma split_from_nonempty_acc (cur s : str) :
  cur <> [] -> Py.split_from cur s <> [].
Proof.
  revert cur. induction s as [| c r IH]; intros cur Hcur; cbn [Py.split_from].
  - destruct cur; [congruence | discriminate].
  - destruct (Py.isspace c); [destruct cur; [congruence | discriminate] |].
    apply IH. discriminate.
Qed.

Lemma join_split_from (cur s : str) :
  tight_from (match cur with [] => false | _ => true end) s ->
  join_spaces (Py.split_from cur s) = rev cur ++ s.
Proof.
  revert cur. induction s as [| c r IH]; intros cur; cbn [Py.split_from].
  - intros _. rewrite app_nil_r. destruct cur; reflexivity.
  - cbn [tight_from]. destruct (Py.isspace c) eqn:E.
    + intros (-> & Hcur & Hr & H).
      destruct cur as [| a cur']; [discriminate |].
      specialize (IH [] H). cbn [rev app] in IH.
      destruct r as [| d r']; [congruence |].
      assert (Hne : Py.split_from [] (d :: r') <> []).
      { cbn [Py.split_from tight_from] in *.
        destruct (Py.isspace d); [destruct H as (_ & [=] & _) |].
        apply split_from_nonempty_acc. discriminate. }
      destruct (Py.split_from [] (d :: r')) as [| w ws]; [congruence |].
      change (join_spaces (rev (a :: cur') :: w :: ws))
        with (rev (a :: cur') ++ 32%N :: join_spaces (w :: ws)).
      rewrite IH. reflexivity.
    + intros H. rewrite (IH (c :: cur) H). cbn [rev].
      rewrite <- app_assoc. reflexivity.
Qed.

(** X14. Without the lemmatiser the normalised text consists of words separated
    by single spaces, with no whitespace at either end: splitting it and
    joining the words with one space gives it back; a text of whitespace only
    is normalised to the empty text. *)
Theorem normalised_text_single_spaced (self : Model) (text : str) :
  nlp self = None ->
  let out := _enhanced_preprocess_text self text in
  join_spaces (Py.split out) = out
  /\ Py.strip out = out
  /\ tight_from false out
  /\ (Py.strip text = [] -> out = []).
Proof.
  intros Hnlp out. subst out. unfold _enhanced_preprocess_text.
  rewrite Hnlp.
  destruct (Py.strip text) as [| c0 r0] eqn:Hstrip; cbn [Py.truthy negb].
  { split; [reflexivity |]. split; [reflexivity |]. split; [exact I |].
    reflexivity. }
  generalize (fold_left
                (fun text kv => sub_word self (fst kv) (snd kv) 0 false text)
                SYNONYMS
                (map (clean_char self) (Py.strip (str_lower self text)))).
  intros t.
  assert (Htight : tight_from false (Py.strip (collapse_spaces false t))).
  { unfold Py.strip. rewrite rstrip_direct_spec.
    apply (rstrip_tight true), lstrip_single_spaced, collapse_single_spaced. }
  split; [apply (join_split_from [] _ Htight) |].
  split; [apply strip_idempotent |].
  split; [exact Htight | discriminate].
Qed.

Lemma normalised_text_single_spaced_witness :
  let out := _enhanced_preprocess_text Examples.twin_model
               (Py.lit "  Pub,   LOW studio ") in
  join_spaces (Py.split out) = out
  /\ Py.strip out = out
  /\ tight_from false out
  /\ (Py.strip (Py.lit "  Pub,   LOW studio ") = [] -> out = []).
Proof.
  apply (normalised_text_single_spaced Examples.twin_model
           (Py.lit "  Pub,   LOW studio ")).
  reflexivity.
Defined.

(** ** Confidence labels and quality ratings *)

(** X15. The confidence label never decreases when the score increases, in the
    order low, fair, good, very_good, excellent. *)
Theorem confidence_monotone (s1 s2 : Q) :
  s1 <= s2 ->
  (confidence_rank (_calculate_confidence s1)
   <= confidence_rank (_calculate_confidence s2))%nat.
Proof.
  intros Hle. unfold _calculate_confidence.
  repeat match goal with
         | |- context [Py.ltb ?a ?b] =>
           let E := fresh "E" in
           destruct (Py.ltb a b) eqn:E;
           [apply ltb_lt in E | apply ltb_ge in E]
         end; simpl; try lia; exfalso; lra.
Qed.

Lemma confidence_monotone_witness :
  (confidence_rank (_calculate_confidence 0.3)
   <= confidence_rank (_calculate_confidence 0.7))%nat.
Proof.
  apply (confidence_monotone 0.3 0.7). lra.
Defined.

Lemma round_low_range (x : Q) : 1.75 <= x -> x <= 2 -> Py.round x = 2%Z.
Proof.
  intros Hlo Hhi. destruct (Qlt_le_dec x 2) as [Hlt | Hge].
  - apply round_of_fallback_range; lra.
  - assert (Hx : x == 2) by lra.
    pose proof (round_monotone x 2 Hhi). pose proof (round_monotone 2 x Hge).
    change (Py.round 2) with 2%Z in *. lia.
Qed.

(** X16. Every returned recommendation has a quality rating between 2 and 5;
    one labelled excellent is rated 5, one labelled low is rated 2. *)
Theorem ratings_agree_with_labels (self : Model) (user_query : str)
  (jours : Z) (w : World) (r : Result.t) :
  In r (Response.recommendations
          (get_recommendations self user_query jours w).1) ->
  (2 <= Result.quality_rating r <= 5)%Z
  /\ (Result.confidence r = excellent -> Result.quality_rating r = 5%Z)
  /\ (Result.confidence r = low -> Result.quality_rating r = 2%Z).
Proof.
  intros Hr. apply recommendations_accepted in Hr
    as (idx & row & s & _ & _ & Hq & ->).
  unfold quality_threshold in Hq.
  cbn [Result.quality_rating Result.confidence make_result].
  assert (H2 : (2 <= Py.round (s * 5 + 1))%Z).
  { pose proof (round_monotone 1.75 (s * 5 + 1)) as H.
    change (Py.round 1.75) with 2%Z in H. apply H. lra. }
  split; [lia |]. split.
  - unfold _calculate_confidence.
    destruct (Py.ltb 0.8 s) eqn:E;
      [| repeat match goal with
                | |- context [Py.ltb ?a ?b] => destruct (Py.ltb a b)
                end; discriminate].
    intros _. apply ltb_lt in E.
    pose proof (round_monotone 5 (s * 5 + 1)) as H.
    change (Py.round 5) with 5%Z in H.
    assert (5 <= s * 5 + 1) by lra. specialize (H H0). lia.
  - unfold _calculate_confidence.
    repeat match goal with
           | |- context [Py.ltb ?a ?b] =>
             let E := fresh "E" in
             destruct (Py.ltb a b) eqn:E; [discriminate |]
           end.
    intros _. apply ltb_ge in E2.
    rewrite round_low_range by lra. reflexivity.
Qed.

Lemma ratings_agree_with_labels_witness :
  exists r,
    In r (Response.recommendations
            (get_recommendations Examples.twin_model
               (Py.lit "pub low studio") 1 Examples.world0).1)
    /\ (2 <= Result.quality_rating r <= 5)%Z
    /\ (Result.confidence r = excellent -> Result.quality_rating r = 5%Z)
    /\ (Result.confidence r = low -> Result.quality_rating r = 2%Z).
Proof.
  assert (Hin : exists r,
    In r (Response.recommendations
            (get_recommendations Examples.twin_model
               (Py.lit "pub low studio") 1 Examples.world0).1)).
  { destruct (Response.recommendations
                (get_recommendations Examples.twin_model
                   (Py.lit "pub low studio") 1 Examples.world0).1)
      as [| top others] eqn:E.
    - vm_compute in E. discriminate E.
    - exists top. left. reflexivity. }
  destruct Hin as [r Hr]. exists r. split; [exact Hr |].
  exact (ratings_agree_with_labels Examples.twin_model
           (Py.lit "pub low studio") 1 Examples.world0 r Hr).
Defined.

(** ** Budget detection *)

(** X17. Budget detection takes the first group, in the order low, medium,
    high, one of whose patterns occurs in the text: any low pattern gives low,
    whatever else the text holds; without one, any medium pattern gives
    medium; without a low and a medium pattern, any high pattern gives high.
    With no pattern at all the features are unchanged, and a detected budget
    always comes from a pattern that occurs in the text. *)
Theorem budget_first_group_wins (processed_query : str)
  (features : Features.t) :
  let detected := Features.budget (detect_budget processed_query features) in
  (any_in (map Py.lit ["low"; "faible"; "petit"; "économique"; "pas cher";
                       "serré"]%string) processed_query = true ->
   detected = Some Low)
  /\ (any_in (map Py.lit ["low"; "faible"; "petit"; "économique"; "pas cher";
                          "serré"]%string) processed_query = false ->
      any_in (map Py.lit ["medium"; "moyen"; "normal"; "standard";
                          "correct"]%string) processed_query = true ->
      detected = Some Medium)
  /\ (any_in (map Py.lit ["low"; "faible"; "petit"; "économique"; "pas cher";
                          "serré"]%string) processed_query = false ->
      any_in (map Py.lit ["medium"; "moyen"; "normal"; "standard";
                          "correct"]%string) processed_query = false ->
      any_in (map Py.lit ["high"; "élevé"; "grand"; "cher"; "premium"; "luxe";
                          "haut"]%string) processed_query = true ->
      detected = Some High)
  /\ ((forall group, In group budget_patterns ->
                     any_in (snd group) processed_query = false) ->
      detect_budget processed_query features = features)
  /\ (forall b, detected = Some b ->
       Features.budget features = Some b
       \/ exists patterns pattern,
            In (b, patterns) budget_patterns
            /\ In pattern patterns
            /\ Py.contains processed_query pattern = true).
Proof.
  intros detected. subst detected. split; [| split; [| split; [| split]]].
  - intros Hlow. unfold detect_budget, budget_patterns. cbn [find snd].
    lazymatch goal with
    | |- context [if any_in ?l processed_query then Some (Low, _) else _] =>
      change (any_in l processed_query)
        with (any_in (map Py.lit ["low"; "faible"; "petit"; "économique";
                                  "pas cher"; "serré"]%string) processed_query)
    end.
    rewrite Hlow. reflexivity.
  - intros Hlow Hmed. unfold detect_budget, budget_patterns. cbn [find snd].
    lazymatch goal with
    | |- context [if any_in ?l processed_query then Some (Low, _) else _] =>
      change (any_in l processed_query)
        with (any_in (map Py.lit ["low"; "faible"; "petit"; "économique";
                                  "pas cher"; "serré"]%string) processed_query)
    end.
    rewrite Hlow.
    lazymatch goal with
    | |- context [if any_in ?l processed_query then Some (Medium, _) else _] =>
      change (any_in l processed_query)
        with (any_in (map Py.lit ["medium"; "moyen"; "normal"; "standard";
                                  "correct"]%string) processed_query)
    end.
    rewrite Hmed. reflexivity.
  - intros Hlow Hmed Hhigh. unfold detect_budget, budget_patterns.
    cbn [find snd].
    lazymatch goal with
    | |- context [if any_in ?l processed_query then Some (Low, _) else _] =>
      change (any_in l processed_query)
        with (any_in (map Py.lit ["low"; "faible"; "petit"; "économique";
                                  "pas cher"; "serré"]%string) processed_query)
    end.
    rewrite Hlow.
    lazymatch goal with
    | |- context [if any_in ?l processed_query then Some (Medium, _) else _] =>
      change (any_in l processed_query)
        with (any_in (map Py.lit ["medium"; "moyen"; "normal"; "standard";
                                  "correct"]%string) processed_query)
    end.
    rewrite Hmed.
    lazymatch goal with
    | |- context [if any_in ?l processed_query then Some (High, _) else _] =>
      change (any_in l processed_query)
        with (any_in (map Py.lit ["high"; "élevé"; "grand"; "cher"; "premium";
                                  "luxe"; "haut"]%string) processed_query)
    end.
    rewrite Hhigh. reflexivity.
  - intros Hnone. unfold detect_budget.
    destruct (find _ budget_patterns) as [[b pats] |] eqn:Hfind;
      [| reflexivity].
    apply find_some in Hfind as [Hin Hhit].
    rewrite (Hnone _ Hin) in Hhit. discriminate.
  - intros b. unfold detect_budget.
    destruct (find _ budget_patterns) as [[b' pats] |] eqn:Hfind;
      [| intros H; left; exact H].
    cbn [Features.budget]. intros [= <-]. right.
    apply find_some in Hfind as [Hin Hhit]. cbn [snd] in Hhit.
    apply existsb_exists in Hhit as (pattern & Hp & Hc).
    exists pats, pattern. auto.
Qed.

Lemma budget_first_group_wins_witness :
  Features.budget
    (detect_budget (Py.lit "clip pas cher budget standard")
                   (Features.mk None None None 0))
  = Some Low
  /\ Features.budget
       (detect_budget (Py.lit "clip budget cher")
                      (Features.mk None None None 0))
     = Some High.
Proof.
  split.
  - refine (proj1 (budget_first_group_wins
                     (Py.lit "clip pas cher budget standard")
                     (Features.mk None None None 0)) _).
    vm_compute. reflexivity.
  - refine (proj1 (proj2 (proj2 (budget_first_group_wins
                                   (Py.lit "clip budget cher")
                                   (Features.mk None None None 0)))) _ _ _);
      vm_compute; reflexivity.
Defined.

(** ** Query validation *)





(** X19. Every text of [get_query_suggestions] (they are in lower case) passes
    [validate_query]: it has at least eight characters and contains one of the
    valid keywords. *)
Theorem suggestions_are_valid_queries (self : Model) (s : str) :
  In s get_query_suggestions ->
  str_lower self s = s ->
  validate_query self s = true
  /\ (8 <= length (Py.strip s))%nat
  /\ (any_in MOTS_CLES_VALIDES s = true).
Proof.
  intros Hin Hlower.
  unfold validate_query. rewrite Hlower.
  unfold get_query_suggestions in Hin. cbn [In] in Hin.
  repeat (destruct Hin as [<- | Hin];
          [split; [vm_compute; reflexivity
                  | split; [vm_compute; lia | vm_compute; reflexivity]] |]).
  destruct Hin.
Qed.

Lemma suggestions_are_valid_queries_witness :
  let s := Py.lit "clip musical dehors budget faible" in
  In s get_query_suggestions
  /\ str_lower Examples.twin_model s = s
  /\ validate_query Examples.twin_model s = true.
Proof.
  assert (Hin : In (Py.lit "clip musical dehors budget faible")
                   get_query_suggestions)
    by (vm_compute; tauto).
  assert (Hlow : str_lower Examples.twin_model
                   (Py.lit "clip musical dehors budget faible")
                 = Py.lit "clip musical dehors budget faible")
    by (vm_compute; reflexivity).
  split; [exact Hin |]. split; [exact Hlow |].
  exact (proj1 (suggestions_are_valid_queries Examples.twin_model _ Hin Hlow)).
Defined.

(** ** The request handler *)

Lemma int_lower_bound (x : Q) (z : Z) :
  (0 <= z)%Z -> inject_Z z <= x -> (z <= Py.int x)%Z.
Proof.
  intros Hz Hx.
  assert (Hnum : (0 <= Qnum x)%Z).
  { assert (H0 : 0 <= x).
    { apply Qle_trans with (inject_Z z); [| exact Hx].
      change 0 with (inject_Z 0). rewrite <- Zle_Qle. exact Hz. }
    unfold Qle in H0. simpl in H0. lia. }
  unfold Py.int. rewrite Z.quot_div_nonneg by lia.
  apply Qfloor_resp_le in Hx. rewrite Qfloor_Z in Hx.
  destruct x as [n d]. exact Hx.
Qed.

Lemma cost_fold (days : Z) (l : list App.FormattedRec) (acc : Z) :
  fold_left (fun total r => (total + App.pricePerDay r * days)%Z) l acc
  = (acc + days * fold_right Z.add 0 (map App.pricePerDay l))%Z.
Proof.
  revert acc. induction l as [| r l IH]; intros acc; cbn [fold_left map fold_right].
  - lia.
  - rewrite IH. lia.
Qed.

(** X20. With an initialised model installed the request handler answers a
    body whose number of days fits in 64 bits (beyond that, building a result
    raises an overflow error) either with status 400 and one of three messages (query required,
    query of fewer than three characters, no close matches), never with the
    model's own "Query too short"; or with a success that lists between one
    and five recommendations, each with quantity 1 and a match score of at
    least 15, a confidence of at least 0.15, and a total cost equal to the
    number of days times the sum of the per-day prices. *)
Theorem handler_outcomes (model : Model) (body : App.Body) (w : World) :
  is_initialized model = true ->
  (- 2 ^ 63 <= default 1 (App.days body) < 2 ^ 63)%Z ->
  match (App.recommend_equipment (Some model) (Some body) w).1 with
  | App.Failure status message =>
    status = 400%nat
    /\ In message [Py.lit "Query is required";
                   Py.lit "Query must be at least 3 characters long";
                   Py.lit "No close matches found"]
  | App.Success d =>
    let n := length (App.recommendations d) in
    (1 <= n <= 5)%nat
    /\ App.explanation d
       = Py.lit "Found " ++ str_of_nat n ++ Py.lit " high-quality recommendations"
    /\ App.totalEstimatedCost d
       = (default 1 (App.days body)
          * fold_right Z.add 0 (map App.pricePerDay (App.recommendations d)))%Z
    /\ Forall (fun r => (15 <= App.matchScore r)%Z /\ App.quantity r = 1%Z)
              (App.recommendations d)
    /\ 0.15 <= App.confidence d
  end.
Proof.
  intros Hinit _. unfold App.recommend_equipment.
  destruct (negb (Py.truthy_opt (App.query body)));
    [cbn [fst]; split; [reflexivity | left; reflexivity] |].
  set (query := Py.strip (default [] (App.query body))).
  set (days := default 1%Z (App.days body)).
  destruct (length query <? 3)%nat eqn:Hlen;
    [cbn [fst]; split; [reflexivity | right; left; reflexivity] |].
  apply Nat.ltb_ge in Hlen.
  assert (Hstrip : (3 <= length (Py.strip query))%nat)
    by (unfold query; rewrite strip_idempotent; exact Hlen).
  pose proof (get_recommendations_cases model query days w) as Hcases.
  pose proof (fun r => recommendations_accepted model query days w r) as Hacc.
  destruct (get_recommendations model query days w) as [recs w1].
  cbn [fst] in Hcases, Hacc.
  destruct Hcases as [(_ & _ & [Hno | Hshort]) | (_ & _ & results & seen & Hloop & ->)];
    [congruence | lia |].
  apply select_loop_length in Hloop; [| cbn; lia]. cbn [fst] in Hloop.
  unfold final_response in *. cbn [Response.success Response.message
    Response.recommendations Response.model_confidence] in *.
  destruct (0 <? length results)%nat eqn:Hpos; cbn [negb fst].
  - apply Nat.ltb_lt in Hpos.
    cbn [App.recommendations App.explanation App.totalEstimatedCost
         App.confidence default].
    rewrite length_map.
    split; [lia |]. split; [reflexivity |].
    split; [rewrite cost_fold; lia |].
    assert (Hfloor : Forall (fun r => quality_threshold <= Result.score r) results).
    { rewrite Forall_forall. intros r Hr.
      eapply reported_score_floor. apply Hacc.
      apply list_elem_of_In. exact Hr. }
    split.
    + rewrite Forall_map. eapply Forall_impl; [exact Hfloor |].
      intros r Hr. cbn beta in Hr |- *.
      cbn [App.matchScore App.quantity App.format_rec].
      split; [| reflexivity].
      apply int_lower_bound; [lia |].
      unfold quality_threshold in Hr.
      change (inject_Z 15) with 15. lra.
    + apply mean_lower_bound.
      * destruct results; [simpl in Hpos; lia | discriminate].
      * rewrite Forall_map. exact Hfloor.
  - split; [reflexivity | right; right; left; reflexivity].
Qed.

Lemma handler_outcomes_witness :
  let body := {| App.query := Some (Py.lit " pub low studio ");
                 App.days := Some 3%Z |} in
  match (App.recommend_equipment (Some Examples.twin_model) (Some body)
                                 Examples.world0).1 with
  | App.Failure status message =>
    status = 400%nat
    /\ In message [Py.lit "Query is required";
                   Py.lit "Query must be at least 3 characters long";
                   Py.lit "No close matches found"]
  | App.Success d =>
    let n := length (App.recommendations d) in
    (1 <= n <= 5)%nat
    /\ App.explanation d
       = Py.lit "Found " ++ str_of_nat n ++ Py.lit " high-quality recommendations"
    /\ App.totalEstimatedCost d
       = (default 1 (App.days body)
          * fold_right Z.add 0 (map App.pricePerDay (App.recommendations d)))%Z
    /\ Forall (fun r => (15 <= App.matchScore r)%Z /\ App.quantity r = 1%Z)
              (App.recommendations d)
    /\ 0.15 <= App.confidence d
  end.
Proof.
  apply (handler_outcomes Examples.twin_model
           {| App.query := Some (Py.lit " pub low studio ");
              App.days := Some 3%Z |} Examples.world0).
  - reflexivity.
  - cbn [App.days default from_option id]. lia.
Defined.

(** ** Prices computed at load time *)

Lemma prix_dict_of_snoc (prix_df : list PrixRow.t) (row : PrixRow.t) :
  prix_dict_of (prix_df ++ [row])
  = <[ (PrixRow.type row, PrixRow.materiel row)
       := PrixRow.prix_location_par_jour row ]> (prix_dict_of prix_df).
Proof. unfold prix_dict_of. rewrite fold_left_app. reflexivity. Qed.

(** X21. The price dictionary built from the price table gives, for a
    (type, materiel) key, the price of the last row of the table with that
    key, and nothing for a key that no row has. *)
Theorem prix_dict_last_row_wins (prix_df : list PrixRow.t) (key : str * str) :
  prix_dict_of prix_df !! key
  = PrixRow.prix_location_par_jour
      <$> last (filter (fun row => (PrixRow.type row, PrixRow.materiel row) = key)
                       prix_df).
Proof.
  induction prix_df as [| row prix_df IH] using rev_ind.
  - reflexivity.
  - rewrite prix_dict_of_snoc, filter_app.
    destruct (decide ((PrixRow.type row, PrixRow.materiel row) = key)) as [He | Hne].
    + rewrite He, lookup_insert_eq.
      rewrite (filter_cons_True _ row []) by exact He.
      rewrite filter_nil, last_snoc. reflexivity.
    + rewrite lookup_insert_ne by exact Hne.
      rewrite (filter_cons_False _ row []) by exact Hne.
      rewrite filter_nil, app_nil_r. exact IH.
Qed.

Lemma int_floor (x : Q) : 0 <= x -> Py.int x = Qfloor x.
Proof.
  intros Hx. unfold Py.int.
  assert (Hnum : (0 <= Qnum x)%Z) by (unfold Qle in Hx; simpl in Hx; lia).
  rewrite Z.quot_div_nonneg by lia. destruct x as [n d]. reflexivity.
Qed.

Lemma int_monotone (x y : Q) : 0 <= x -> x <= y -> (Py.int x <= Py.int y)%Z.
Proof.
  intros Hx Hxy. rewrite !int_floor by lra. apply Qfloor_resp_le. exact Hxy.
Qed.

Lemma int_of_scaled_whole (n : positive) (z : Z) (x : Q) :
  (0 <= z)%Z -> x == inject_Z z ->
  Py.int (x * (Z.pos n # 10)) = (Z.pos n * z / 10)%Z.
Proof.
  intros Hz Hx.
  assert (Hnonneg : 0 <= x * (Z.pos n # 10)).
  { rewrite Hx. unfold Qle, Qmult, inject_Z. cbn [Qnum Qden]. nia. }
  rewrite (int_floor _ Hnonneg).
  assert (Heq : x * (Z.pos n # 10) == inject_Z z * (Z.pos n # 10))
    by (rewrite Hx; reflexivity).
  rewrite (Qfloor_comp _ _ Heq).
  unfold Qfloor, Qmult, inject_Z. cbn [Qnum Qden].
  rewrite Z.mul_comm. reflexivity.
Qed.

(** X22. [_calculate_enhanced_prix]: when the table prices of the three parts
    are whole numbers that do not sum to 0, the price is their sum, whatever
    the budget and the estimate. When no part has a table price, the price
    is a whole number computed from the estimate [e] (300 when there is
    none): [int(e)] for a budget that is neither low nor high, and for an
    estimate that is not negative [0 <= low <= other <= high]; without an
    estimate the three prices are 210, 300 and 420. For a whole estimate up
    to 10^9 the low price is [7 * e / 10] rounded down, or one less, and the
    high price [14 * e / 10] rounded down, or one less (the code multiplies
    in doubles: it gives 118 for an estimate of 170, the exact product
    119). *)
Theorem enhanced_prix_cases (prix_dict : gmap (str * str) Q) (c : Config.t) :
  let part kind name := default 0 (prix_dict !! (Py.lit kind, name)) in
  let camera_price := part "camera"%string (Config.camera c) in
  let objectif_price := part "objectif"%string (Config.objectif c) in
  let lumieres_price := part "lumieres"%string (Config.lumieres c) in
  let price budget estimate :=
    _calculate_enhanced_prix prix_dict
      (Config.mk (Config.type c) budget (Config.lieu c) (Config.camera c)
                 (Config.objectif c) (Config.lumieres c) estimate) in
  (forall z1 z2 z3 : Z,
     camera_price == inject_Z z1 ->
     objectif_price == inject_Z z2 ->
     lumieres_price == inject_Z z3 ->
     (z1 + z2 + z3 <> 0)%Z ->
     (Z.abs z1 + Z.abs z2 + Z.abs z3 <= 2 ^ 53)%Z ->
     forall budget estimate,
       price budget estimate == inject_Z (z1 + z2 + z3))
  /\ (camera_price == 0 -> objectif_price == 0 -> lumieres_price == 0 ->
      forall budget estimate,
        let base_price := default 300 estimate in
        (budget <> Py.lit "low" -> budget <> Py.lit "high" ->
         price budget estimate = inject_Z (Py.int base_price))
        /\ (exists whole : Z, price budget estimate = inject_Z whole)
        /\ (0 <= base_price ->
            0 <= price (Py.lit "low") estimate
            /\ price (Py.lit "low") estimate <= price budget estimate
            /\ price budget estimate <= price (Py.lit "high") estimate)
        /\ (estimate = None ->
            price (Py.lit "low") estimate = 210
            /\ price (Py.lit "high") estimate = 420
            /\ (budget <> Py.lit "low" -> budget <> Py.lit "high" ->
                price budget estimate = 300))
        /\ (forall e : Z,
              base_price == inject_Z e -> (0 <= e <= 10 ^ 9)%Z ->
              exists low high : Z,
                price (Py.lit "low") estimate = inject_Z low
                /\ price (Py.lit "high") estimate = inject_Z high
                /\ (7 * e / 10 - 1 <= low <= 7 * e / 10)%Z
                /\ (14 * e / 10 - 1 <= high <= 14 * e / 10)%Z)).
Proof.
  intros part camera_price objectif_price lumieres_price price.
  assert (Hprice : forall budget estimate,
    price budget estimate
    = if Qeq_bool (camera_price + objectif_price + lumieres_price) 0
      then
        if bool_decide (budget = Py.lit "low")
        then inject_Z (Py.int (default 300 estimate * 0.7))
        else if bool_decide (budget = Py.lit "high")
             then inject_Z (Py.int (default 300 estimate * 1.4))
             else inject_Z (Py.int (default 300 estimate))
      else camera_price + objectif_price + lumieres_price)
    by reflexivity.
  split.
  - intros z1 z2 z3 H1 H2 H3 Hsum _ budget estimate. rewrite Hprice.
    assert (Htotal : camera_price + objectif_price + lumieres_price
                     == inject_Z (z1 + z2 + z3))
      by (rewrite H1, H2, H3, !inject_Z_plus; reflexivity).
    destruct (Qeq_bool (camera_price + objectif_price + lumieres_price) 0)
      eqn:E; [| exact Htotal].
    apply Qeq_bool_eq in E. rewrite Htotal in E.
    unfold Qeq in E. cbn [Qnum Qden inject_Z] in E. lia.
  - intros H1 H2 H3 budget estimate base_price.
    assert (Hzero : Qeq_bool (camera_price + objectif_price + lumieres_price) 0
                    = true)
      by (apply Qeq_bool_iff; rewrite H1, H2, H3; reflexivity).
    assert (Hunfold : forall b,
      price b estimate
      = if bool_decide (b = Py.lit "low")
        then inject_Z (Py.int (base_price * 0.7))
        else if bool_decide (b = Py.lit "high")
             then inject_Z (Py.int (base_price * 1.4))
             else inject_Z (Py.int base_price))
      by (intros b; rewrite Hprice, Hzero; reflexivity).
    assert (Hlow : price (Py.lit "low") estimate
                   = inject_Z (Py.int (base_price * 0.7))).
    { rewrite Hunfold. rewrite bool_decide_eq_true_2 by reflexivity.
      reflexivity. }
    assert (Hhigh : price (Py.lit "high") estimate
                    = inject_Z (Py.int (base_price * 1.4))).
    { rewrite Hunfold.
      rewrite (bool_decide_eq_false_2 (Py.lit "high" = Py.lit "low"))
        by (vm_compute; discriminate).
      rewrite bool_decide_eq_true_2 by reflexivity. reflexivity. }
    assert (Hmid : budget <> Py.lit "low" -> budget <> Py.lit "high" ->
                   price budget estimate = inject_Z (Py.int base_price)).
    { intros Hb1 Hb2. rewrite Hunfold.
      rewrite !bool_decide_eq_false_2 by assumption. reflexivity. }
    split; [exact Hmid |]. split.
    { rewrite Hunfold. destruct (bool_decide (budget = Py.lit "low"));
        [eexists; reflexivity |].
      destruct (bool_decide (budget = Py.lit "high")); eexists; reflexivity. }
    split.
    { intros Hbase. rewrite Hlow, Hhigh, (Hunfold budget).
      assert (Hl0 : (0 <= Py.int (base_price * 0.7))%Z)
        by (change 0%Z with (Py.int 0); apply int_monotone; lra).
      assert (Hl : (Py.int (base_price * 0.7) <= Py.int base_price)%Z)
        by (apply int_monotone; lra).
      assert (Hh : (Py.int base_price <= Py.int (base_price * 1.4))%Z)
        by (apply int_monotone; lra).
      split; [change 0 with (inject_Z 0); rewrite <- Zle_Qle; exact Hl0 |].
      destruct (bool_decide (budget = Py.lit "low"));
        [split; rewrite <- Zle_Qle; lia |].
      destruct (bool_decide (budget = Py.lit "high"));
        split; rewrite <- Zle_Qle; lia. }
    split.
    { intros ->. subst base_price. cbn [default] in *.
      rewrite Hlow, Hhigh. split; [reflexivity |]. split; [reflexivity |].
      intros Hb1 Hb2. rewrite (Hmid Hb1 Hb2). reflexivity. }
    intros e He [He0 _].
    exists (Py.int (base_price * 0.7)), (Py.int (base_price * 1.4)).
    split; [exact Hlow |]. split; [exact Hhigh |].
    change 0.7 with (7 # 10). change 1.4 with (14 # 10).
    rewrite (int_of_scaled_whole 7 e base_price He0 He).
    rewrite (int_of_scaled_whole 14 e base_price He0 He).
    lia.
Qed.

Lemma enhanced_prix_cases_witness :
  let c := Config.mk (Py.lit "clip") (Py.lit "low") (Py.lit "studio")
                     (Py.lit "Sony A6400") (Py.lit "Canon 50mm f/1.8")
                     (Py.lit "Neewer LED Panel") None in
  _calculate_enhanced_prix ∅ c = 210
  /\ _calculate_enhanced_prix
       (prix_dict_of [PrixRow.mk (Py.lit "camera") (Py.lit "Sony A6400") 200])
       c == inject_Z (200 + 0 + 0).
Proof.
  intros c. split.
  - pose proof (enhanced_prix_cases ∅ c) as H. cbv zeta in H.
    destruct H as [_ Hfallback].
    destruct (Hfallback ltac:(vm_compute; reflexivity)
                        ltac:(vm_compute; reflexivity)
                        ltac:(vm_compute; reflexivity) (Py.lit "low") None)
      as (_ & _ & _ & Hdefault & _).
    exact (proj1 (Hdefault eq_refl)).
  - pose proof (enhanced_prix_cases
                  (prix_dict_of
                     [PrixRow.mk (Py.lit "camera") (Py.lit "Sony A6400") 200])
                  c) as H.
    cbv zeta in H. destruct H as [Hpriced _].
    refine (Hpriced 200%Z 0%Z 0%Z _ _ _ _ _ (Py.lit "low") None);
      vm_compute; first [reflexivity | discriminate].
Defined.

Lemma prix_dict_of_elem (prix_df : list PrixRow.t) (key : str * str) (v : Q) :
  prix_dict_of prix_df !! key = Some v ->
  exists row, In row prix_df /\ v = PrixRow.prix_location_par_jour row.
Proof.
  induction prix_df as [| row prix_df IH] using rev_ind.
  - intros H. unfold prix_dict_of in H. cbn [fold_left] in H.
    rewrite lookup_empty in H. discriminate.
  - rewrite prix_dict_of_snoc.
    destruct (decide ((PrixRow.type row, PrixRow.materiel row) = key)) as [He | Hne].
    + rewrite He, lookup_insert_eq. intros [= <-].
      exists row. split; [apply in_or_app; right; left; reflexivity | reflexivity].
    + rewrite lookup_insert_ne by exact Hne. intros H.
      destruct (IH H) as (r & Hr & Hv). exists r.
      split; [apply in_or_app; left; exact Hr | exact Hv].
Qed.

Lemma part_price_property (P : Q -> Prop) (prix_df : list PrixRow.t)
  (key : str * str) :
  P 0 ->
  (forall row, In row prix_df -> P (PrixRow.prix_location_par_jour row)) ->
  P (default 0 (prix_dict_of prix_df !! key)).
Proof.
  intros H0 Hall.
  destruct (prix_dict_of prix_df !! key) as [v |] eqn:E; [| exact H0].
  apply prix_dict_of_elem in E as (row & Hrow & ->). apply Hall, Hrow.
Qed.

(** X23. [_clean_and_enhance_data] raises exactly when the configuration
    table has no row. Otherwise it keeps one row per configuration; type,
    budget and lieu of every row carry no whitespace at either end; all
    per-day prices are non-negative when the table prices and the estimates
    are; and all are whole numbers when the table prices are. *)
Theorem prepared_catalog_invariants (lower : str -> str)
  (configs : list Config.t) (prix_df : list PrixRow.t) :
  (_clean_and_enhance_data lower configs prix_df = None <-> configs = [])
  /\ forall catalog,
       _clean_and_enhance_data lower configs prix_df = Some catalog ->
       length catalog = length configs
       /\ Forall (fun row =>
                    Py.strip (Row.type row) = Row.type row
                    /\ Py.strip (Row.budget row) = Row.budget row
                    /\ Py.strip (Row.lieu row) = Row.lieu row)
                 catalog
       /\ ((forall row, In row prix_df ->
                        0 <= PrixRow.prix_location_par_jour row) ->
           (forall c e, In c configs -> Config.prix_estime c = Some e ->
                        0 <= e) ->
           Forall (fun row => 0 <= Row.prix_jour row) catalog)
       /\ ((forall row, In row prix_df ->
              exists whole : Z,
                PrixRow.prix_location_par_jour row == inject_Z whole) ->
           Forall (fun row =>
                     exists whole : Z, Row.prix_jour row == inject_Z whole)
                  catalog).
Proof.
  set (rows :=
    map (fun c =>
           Row.mk (Config.type c) (Config.budget c) (Config.lieu c)
                  (Config.camera c) (Config.objectif c) (Config.lumieres c)
                  (_calculate_enhanced_prix (prix_dict_of prix_df) c))
        (map (fun c =>
                Config.mk (standardize lower (Config.type c))
                          (standardize lower (Config.budget c))
                          (standardize lower (Config.lieu c))
                          (Config.camera c) (Config.objectif c)
                          (Config.lumieres c) (Config.prix_estime c))
             configs)).
  assert (Hdef : _clean_and_enhance_data lower configs prix_df
                 = match rows with [] => None | _ => Some rows end)
    by reflexivity.
  assert (Hlen : length rows = length configs)
    by (subst rows; rewrite !length_map; reflexivity).
  rewrite Hdef. split.
  - destruct rows as [| r rows']; destruct configs as [| c configs'];
      try discriminate Hlen; split; intros H; try reflexivity; discriminate H.
  - intros catalog Hcat.
    assert (Hrows : catalog = rows)
      by (destruct rows; [discriminate Hcat | injection Hcat as <-; reflexivity]).
    subst catalog. clear Hcat Hdef.
    split; [exact Hlen |]. subst rows.
    split.
    { rewrite !Forall_map. apply Forall_forall. intros c _.
      cbn [Row.type Row.budget Row.lieu Config.type Config.budget Config.lieu].
      unfold standardize. rewrite !strip_idempotent. repeat split. }
    split.
    + intros Hprix Hest. rewrite !Forall_map. apply Forall_forall. intros c Hc.
      apply list_elem_of_In in Hc.
      cbn [Row.prix_jour]. unfold _calculate_enhanced_prix.
      cbn [Config.camera Config.objectif Config.lumieres Config.budget
           Config.prix_estime].
      pose proof (part_price_property (fun v => 0 <= v) prix_df
                    (Py.lit "camera", Config.camera c)
                    ltac:(cbn beta; lra) Hprix) as H1.
      pose proof (part_price_property (fun v => 0 <= v) prix_df
                    (Py.lit "objectif", Config.objectif c)
                    ltac:(cbn beta; lra) Hprix) as H2.
      pose proof (part_price_property (fun v => 0 <= v) prix_df
                    (Py.lit "lumieres", Config.lumieres c)
                    ltac:(cbn beta; lra) Hprix) as H3.
      cbn beta in H1, H2, H3.
      destruct (Qeq_bool _ 0); [| lra].
      assert (Hbase : 0 <= default 300 (Config.prix_estime c)).
      { destruct (Config.prix_estime c) as [e |] eqn:E; cbn [default];
          [apply (Hest c e Hc E) | lra]. }
      assert (Hint : forall x, 0 <= x -> 0 <= inject_Z (Py.int x)).
      { intros x Hx. change 0 with (inject_Z 0). rewrite <- Zle_Qle.
        change 0%Z with (Py.int 0). apply int_monotone; [lra | exact Hx]. }
      destruct (bool_decide _); [apply Hint; lra |].
      destruct (bool_decide _); apply Hint; lra.
    + intros Hprix. rewrite !Forall_map. apply Forall_forall. intros c _.
      cbn [Row.prix_jour]. unfold _calculate_enhanced_prix.
      cbn [Config.camera Config.objectif Config.lumieres Config.budget
           Config.prix_estime].
      assert (H0 : exists whole : Z, 0 == inject_Z whole)
        by (exists 0%Z; reflexivity).
      destruct (part_price_property
                  (fun v => exists whole : Z, v == inject_Z whole)
                  prix_df (Py.lit "camera", Config.camera c) H0 Hprix)
        as [z1 H1].
      destruct (part_price_property
                  (fun v => exists whole : Z, v == inject_Z whole)
                  prix_df (Py.lit "objectif", Config.objectif c) H0 Hprix)
        as [z2 H2].
      destruct (part_price_property
                  (fun v => exists whole : Z, v == inject_Z whole)
                  prix_df (Py.lit "lumieres", Config.lumieres c) H0 Hprix)
        as [z3 H3].
      destruct (Qeq_bool _ 0).
      * destruct (bool_decide _); [eexists; reflexivity |].
        destruct (bool_decide _); eexists; reflexivity.
      * exists (z1 + z2 + z3)%Z. rewrite !inject_Z_plus, H1, H2, H3.
        reflexivity.
Qed.

Lemma prepared_catalog_invariants_witness :
  let configs :=
    [Config.mk (Py.lit " Clip ") (Py.lit "LOW") (Py.lit "studio ")
               (Py.lit "Sony A6400") (Py.lit "Canon 50mm f/1.8")
               (Py.lit "Neewer LED Panel") (Some 250)] in
  let prix_df :=
    [PrixRow.mk (Py.lit "camera") (Py.lit "Sony A6400") 200] in
  exists catalog,
    _clean_and_enhance_data Examples.latin1_lower configs prix_df
    = Some catalog
    /\ Forall (fun row => 0 <= Row.prix_jour row) catalog
    /\ Forall (fun row =>
                 exists whole : Z, Row.prix_jour row == inject_Z whole)
              catalog.
Proof.
  intros configs prix_df.
  destruct (_clean_and_enhance_data Examples.latin1_lower configs prix_df)
    as [catalog |] eqn:E; [| discriminate E].
  exists catalog. split; [reflexivity |].
  destruct (proj2 (prepared_catalog_invariants Examples.latin1_lower configs
                     prix_df) catalog E)
    as (_ & _ & Hpos & Hwhole).
  split.
  - apply Hpos.
    + intros row [<- | Hnil]; [| destruct Hnil].
      cbn [PrixRow.prix_location_par_jour]. lra.
    + intros c e [<- | Hnil]; [| destruct Hnil]. intros [= <-]. lra.
  - apply Hwhole.
    intros row [<- | Hnil]; [| destruct Hnil]. exists 200%Z. reflexivity.
Defined.

(** ** JSON sanitising *)

Section ValueInduction.

Variable P : Value -> Prop.
Hypothesis HNone : P VNone.
Hypothesis HBool : forall b, P (VBool b).
Hypothesis HInt : forall z, P (VInt z).
Hypothesis HFloat : forall x, P (VFloat x).
Hypothesis HStr : forall s, P (VStr s).
Hypothesis HNpInteger : forall z, P (VNpInteger z).
Hypothesis HNpFloating : forall x, P (VNpFloating x).
Hypothesis HNpBool : forall b, P (VNpBool b).
Hypothesis HNdarray : forall a, P (VNdarray a).
Hypothesis HDict : forall items, Forall (fun item => P (snd item)) items -> P (VDict items).
Hypothesis HList : forall items, Forall P items -> P (VList items).
Hypothesis HTuple : forall items, Forall P items -> P (VTuple items).

Lemma Value_nested_ind (obj : Value) : P obj.
Proof.
  revert obj. fix IH 1. intros [| b | z | x | s | z | x | b | a | items | items | items].
  - exact HNone.
  - apply HBool.
  - apply HInt.
  - apply HFloat.
  - apply HStr.
  - apply HNpInteger.
  - apply HNpFloating.
  - apply HNpBool.
  - apply HNdarray.
  - apply HDict. induction items as [| [k v] items IHitems];
      constructor; [apply IH | exact IHitems].
  - apply HList. induction items as [| v items IHitems];
      constructor; [apply IH | exact IHitems].
  - apply HTuple. induction items as [| v items IHitems];
      constructor; [apply IH | exact IHitems].
Qed.

End ValueInduction.

Section NdarrayInduction.

Variable P : Ndarray -> Prop.
Hypothesis HInteger : forall z, P (NdInteger z).
Hypothesis HFloating : forall x, P (NdFloating x).
Hypothesis HAxis : forall items, Forall P items -> P (NdAxis items).

Lemma Ndarray_nested_ind (a : Ndarray) : P a.
Proof.
  revert a. fix IH 1. intros [z | x | items].
  - apply HInteger.
  - apply HFloating.
  - apply HAxis. induction items as [| v items IHitems];
      constructor; [apply IH | exact IHitems].
Qed.

End NdarrayInduction.

Lemma tolist_builtin (a : Ndarray) : builtin_values (tolist a) = true.
Proof.
  induction a as [z | x | items IH] using Ndarray_nested_ind; try reflexivity.
  cbn [tolist builtin_values]. rewrite forallb_forall. intros v Hv.
  apply in_map_iff in Hv as (a & <- & Ha).
  rewrite Forall_forall in IH. apply IH, list_elem_of_In, Ha.
Qed.

Lemma tolist_no_keys (a : Ndarray) : dict_keys (tolist a) = [].
Proof.
  induction a as [z | x | items IH] using Ndarray_nested_ind; try reflexivity.
  cbn [tolist dict_keys]. induction IH as [| a items Ha _ IHitems]; [reflexivity |].
  cbn [map flat_map]. rewrite Ha, IHitems. reflexivity.
Qed.

Lemma sanitize_builtin (obj : Value) :
  builtin_values (sanitize_for_json obj) = true.
Proof.
  induction obj as [| | | | | | | | a | items IH | items IH | items IH]
    using Value_nested_ind; try reflexivity.
  - apply tolist_builtin.
  - cbn [sanitize_for_json builtin_values]. rewrite forallb_forall.
    intros item Hitem. apply in_map_iff in Hitem as ([k v] & <- & Hin).
    rewrite Forall_forall in IH. apply (IH (k, v)), list_elem_of_In, Hin.
  - cbn [sanitize_for_json builtin_values]. rewrite forallb_forall.
    intros v Hv. apply in_map_iff in Hv as (v0 & <- & Hin).
    rewrite Forall_forall in IH. apply IH, list_elem_of_In, Hin.
  - cbn [sanitize_for_json builtin_values]. rewrite forallb_forall.
    intros v Hv. apply in_map_iff in Hv as (v0 & <- & Hin).
    rewrite Forall_forall in IH. apply IH, list_elem_of_In, Hin.
Qed.

Lemma sanitize_fixes_builtin (obj : Value) :
  builtin_values obj = true -> sanitize_for_json obj = obj.
Proof.
  induction obj as [| | | | | | | | a | items IH | items IH | items IH]
    using Value_nested_ind; try reflexivity; try discriminate.
  - cbn [sanitize_for_json builtin_values]. intros H. f_equal.
    induction IH as [| [k v] items Hv _ IHitems]; [reflexivity |].
    cbn [forallb map snd] in *. apply andb_true_iff in H as [H1 H2].
    rewrite (Hv H1), (IHitems H2). reflexivity.
  - cbn [sanitize_for_json builtin_values]. intros H. f_equal.
    induction IH as [| v items Hv _ IHitems]; [reflexivity |].
    cbn [forallb map] in *. apply andb_true_iff in H as [H1 H2].
    rewrite (Hv H1), (IHitems H2). reflexivity.
Qed.

Lemma sanitize_keeps_keys (obj : Value) :
  dict_keys (sanitize_for_json obj) = dict_keys obj.
Proof.
  induction obj as [| | | | | | | | a | items IH | items IH | items IH]
    using Value_nested_ind; try reflexivity.
  - apply tolist_no_keys.
  - cbn [sanitize_for_json dict_keys].
    induction IH as [| [k v] items Hv _ IHitems]; [reflexivity |].
    cbn [map flat_map snd] in *. rewrite Hv, IHitems. reflexivity.
  - cbn [sanitize_for_json dict_keys].
    induction IH as [| v items Hv _ IHitems]; [reflexivity |].
    cbn [map flat_map] in *. rewrite Hv, IHitems. reflexivity.
  - cbn [sanitize_for_json dict_keys].
    induction IH as [| v items Hv _ IHitems]; [reflexivity |].
    cbn [map flat_map] in *. rewrite Hv, IHitems. reflexivity.
Qed.

(** X24. [sanitize_for_json] returns a value without NumPy integer, NumPy
    float, array or tuple at any position reached through list items and
    dictionary values; it leaves exactly such values unchanged, so applying it
    twice is the same as applying it once; dictionary keys are never
    converted. *)
Theorem sanitize_for_json_normal_form (obj : Value) :
  builtin_values (sanitize_for_json obj) = true
  /\ (sanitize_for_json obj = obj <-> builtin_values obj = true)
  /\ sanitize_for_json (sanitize_for_json obj) = sanitize_for_json obj
  /\ dict_keys (sanitize_for_json obj) = dict_keys obj.
Proof.
  split; [apply sanitize_builtin |]. split.
  - split; [| apply sanitize_fixes_builtin].
    intros H. rewrite <- H. apply sanitize_builtin.
  - split; [apply sanitize_fixes_builtin, sanitize_builtin |].
    apply sanitize_keeps_keys.
Qed.

(** ** The fallback model *)

(** X25. With the fallback model installed, every request whose stripped query
    has at least three characters succeeds with exactly one recommendation:
    450 per day with match score 85, or 320 per day with match score 70; the
    confidence is the handler's default 0.8 and the total cost the per-day
    price times the number of days. *)
Theorem fallback_always_recommends_one_kit (lower : str -> str)
  (body : App.Body) :
  (3 <= length (Py.strip (default [] (App.query body))))%nat ->
  let days := default 1%Z (App.days body) in
  exists kit,
    Fallback.recommend_equipment lower (Some body)
    = Fallback.Success
        {| Fallback.explanation := Py.lit "Found 1 recommendations";
           Fallback.formatted := [kit];
           Fallback.data_confidence := 0.8;
           Fallback.totalEstimatedCost := (Fallback.pricePerDay kit * days)%Z |}
    /\ ((Fallback.pricePerDay kit = 450%Z /\ Fallback.matchScore kit = 85%Z
         /\ Fallback.rec_confidence kit = Py.lit "very_good")
        \/ (Fallback.pricePerDay kit = 320%Z /\ Fallback.matchScore kit = 70%Z
            /\ Fallback.rec_confidence kit = Py.lit "relevant")).
Proof.
  intros Hlen days. unfold Fallback.recommend_equipment.
  assert (Htruthy : Py.truthy_opt (App.query body) = true).
  { destruct (App.query body) as [q |]; [| simpl in Hlen; lia].
    destruct q; [simpl in Hlen; lia | reflexivity]. }
  rewrite Htruthy. cbn [negb]. apply Nat.ltb_ge in Hlen. rewrite Hlen.
  fold days. unfold Fallback.get_recommendations.
  destruct (any_in Fallback.outdoor_words _);
    cbn [Fallback.success negb Fallback.recommendations Fallback.message map
         fold_left length];
    eexists; (split; [reflexivity |]);
    [left | right]; repeat split.
Qed.

Lemma fallback_always_recommends_one_kit_witness :
  let body := {| App.query := Some (Py.lit "mariage en extérieur");
                 App.days := Some 2%Z |} in
  exists kit,
    Fallback.recommend_equipment Examples.latin1_lower (Some body)
    = Fallback.Success
        {| Fallback.explanation := Py.lit "Found 1 recommendations";
           Fallback.formatted := [kit];
           Fallback.data_confidence := 0.8;
           Fallback.totalEstimatedCost := (Fallback.pricePerDay kit * 2)%Z |}
    /\ ((Fallback.pricePerDay kit = 450%Z /\ Fallback.matchScore kit = 85%Z
         /\ Fallback.rec_confidence kit = Py.lit "very_good")
        \/ (Fallback.pricePerDay kit = 320%Z /\ Fallback.matchScore kit = 70%Z
            /\ Fallback.rec_confidence kit = Py.lit "relevant")).
Proof.
  apply (fallback_always_recommends_one_kit Examples.latin1_lower
           {| App.query := Some (Py.lit "mariage en extérieur");
              App.days := Some 2%Z |}).
  vm_compute. lia.
Defined.

(** ** Start-up *)

Lemma length_times {A : Type} (l : list A) (n : nat) :
  length (times l n) = (n * length l)%nat.
Proof.
  unfold times. induction n as [| n IH]; [reflexivity |].
  cbn [repeat concat]. rewrite length_app, IH. reflexivity.
Qed.

Lemma sample_data_raises (w : World) :
  _create_enhanced_sample_data w
  = (None, Build_World (rng_stream w) (rng_pos w + 1000)%nat (encoded w)).
Proof.
  unfold _create_enhanced_sample_data, configs_frame.
  rewrite !length_times, !length_map, length_seq.
  reflexivity.
Qed.

(** X26. [initialize] succeeds only from the two data files: the model it
    returns is initialised and its catalog is the prepared content of the
    files, which has at least one row. When a file is missing, building the sample tables raises (their
    columns have different lengths), [initialize] returns [False] and
    [initialize_models] installs the fallback model. *)
Theorem enhanced_model_needs_data_files (rt : Runtime) (w : World) :
  (forall self w', initialize rt w = (Some self, w') ->
     is_initialized self = true
     /\ configs self <> []
     /\ exists raw prix_df,
         data_files rt = Some (raw, prix_df)
         /\ _clean_and_enhance_data (runtime_lower rt) raw prix_df
            = Some (configs self))
  /\ (data_files rt = None ->
      (_create_enhanced_sample_data w).1 = None
      /\ (initialize rt w).1 = None
      /\ (initialize_models rt w).1 = FallbackModel).
Proof.
  assert (Hinit : forall self w', initialize rt w = (Some self, w') ->
     is_initialized self = true
     /\ configs self <> []
     /\ exists raw prix_df,
         data_files rt = Some (raw, prix_df)
         /\ _clean_and_enhance_data (runtime_lower rt) raw prix_df
            = Some (configs self)).
  { intros self w'. unfold initialize, _load_enhanced_data.
    destruct (nlp_models rt) as [nlp |]; [| discriminate].
    destruct (data_files rt) as [[raw prix_df] |].
    - destruct (_clean_and_enhance_data (runtime_lower rt) raw prix_df)
        as [catalog |] eqn:Hclean; [| discriminate].
      destruct (embed rt _) as [similarity |]; [| discriminate].
      intros [= <- <-]. split; [reflexivity |]. cbn [configs].
      split.
      + intros ->. revert Hclean. unfold _clean_and_enhance_data.
        destruct (map _ (map _ raw)); discriminate.
      + exists raw, prix_df. split; [reflexivity | exact Hclean].
    - rewrite sample_data_raises. discriminate. }
  split; [exact Hinit |].
  intros Hfiles.
  split; [rewrite sample_data_raises; reflexivity |].
  assert (Hnone : (initialize rt w).1 = None).
  { destruct (initialize rt w) as [[self |] w'] eqn:E; [| reflexivity].
    destruct (Hinit self w' eq_refl) as (_ & _ & raw & prix_df & H & _).
    congruence. }
  split; [exact Hnone |].
  unfold initialize_models. destruct (initialize rt w) as [[self |] w'];
    [discriminate | reflexivity].
Qed.

Lemma enhanced_model_needs_data_files_witness :
  let rt := {| nlp_models := Some None;
               data_files := None;
               embed := fun _ => Some (Examples.constant_similarity (1 # 2));
               runtime_lower := Examples.latin1_lower;
               runtime_is_word_char := Examples.latin1_is_word;
               runtime_set_order := Examples.first_seen_order;
               runtime_argsort_ties := Examples.index_order_ties |} in
  (_create_enhanced_sample_data Examples.world0).1 = None
  /\ (initialize rt Examples.world0).1 = None
  /\ (initialize_models rt Examples.world0).1 = FallbackModel.
Proof.
  intros rt.
  exact (proj2 (enhanced_model_needs_data_files rt Examples.world0) eq_refl).
Defined.

(** ** Where the extracted features come from *)

Lemma lieu_hit_spec (words : gset str) (lieu : str) :
  lieu_hit words lieu = true ->
  lieu ∈ words
  \/ exists synonym, In (synonym, lieu) SYNONYMS /\ synonym ∈ words.
Proof.
  unfold lieu_hit. intros H. apply orb_true_iff in H as [H | H].
  - left. apply bool_decide_eq_true in H. exact H.
  - right. apply existsb_exists in H as ([syn std] & Hin & H).
    apply andb_true_iff in H as [H1 H2].
    apply bool_decide_eq_true in H1, H2. cbn [fst snd] in H1, H2. subst std.
    exists syn. split; assumption.
Qed.

Lemma lieu_hit_no_words (lieu : str) : lieu_hit ∅ lieu = false.
Proof.
  unfold lieu_hit. rewrite bool_decide_eq_false_2 by apply not_elem_of_empty.
  cbn [orb]. generalize SYNONYMS. intros l.
  induction l as [| kv l IH]; [reflexivity |].
  cbn [existsb]. rewrite IH.
  rewrite (bool_decide_eq_false_2 (kv.1 ∈ (∅ : gset str)))
    by apply not_elem_of_empty.
  rewrite andb_false_r. reflexivity.
Qed.

Lemma find_none_all {A : Type} (f : A -> bool) (l : list A) :
  (forall x, f x = false) -> find f l = None.
Proof.
  intros H. induction l as [| x l IH]; [reflexivity |].
  cbn [find]. rewrite H. exact IH.
Qed.

(** X27. Every extracted feature is grounded in the query text (given that
    iterating over a set yields elements of the set): a detected lieu is one
    of the three canonical locations, and it or a synonym mapped to it is a
    word of the normalised text; a detected type is a type of the catalog
    that is a word of the text, or pub inferred from mariage, wedding or
    photo, or interview inferred from entretien or reportage. A query whose
    normalised text is empty yields no feature and specificity 0. *)
Theorem extracted_features_grounded (self : Model) (query : str) :
  (forall l x, In x (set_order self l) -> In x l) ->
  let text := _enhanced_preprocess_text self query in
  let words : gset str := list_to_set (Py.split text) in
  let features := _extract_enhanced_features self query in
  (forall lieu,
     Features.lieu features = Some lieu ->
     In lieu LIEU_VALUES
     /\ (lieu ∈ words
         \/ exists synonym, In (synonym, lieu) SYNONYMS /\ synonym ∈ words))
  /\ (forall type,
        Features.type features = Some type ->
        (In type (map Row.type (configs self)) /\ type ∈ words)
        \/ (type = Py.lit "pub"
            /\ any_in (map Py.lit ["mariage"; "wedding"; "photo"]%string) text
               = true)
        \/ (type = Py.lit "interview"
            /\ any_in (map Py.lit ["entretien"; "reportage"]%string) text
               = true))
  /\ (text = [] -> features = Features.mk None None None 0).
Proof.
  intros Horder text words features.
  subst features. unfold _extract_enhanced_features. fold text. fold words.
  set (f0 := Features.mk None None None 0).
  set (f1 := detect_budget text f0).
  set (f2 := detect_lieu self words f1).
  set (f3 := detect_type self words f2).
  assert (Hl1 : Features.lieu f1 = None /\ Features.type f1 = None).
  { subst f1. unfold detect_budget.
    destruct (find _ budget_patterns) as [[b p] |]; split; reflexivity. }
  assert (Hl2 : Features.type f2 = None
                /\ forall lieu, Features.lieu f2 = Some lieu ->
                     In lieu LIEU_VALUES /\ lieu_hit words lieu = true).
  { subst f2. unfold detect_lieu.
    destruct (find (lieu_hit words) (set_order self LIEU_VALUES)) as [l |] eqn:E.
    - cbn [Features.type Features.lieu]. split; [apply Hl1 |].
      intros lieu [= <-]. apply find_some in E as [Hin Hhit].
      split; [apply Horder, Hin | exact Hhit].
    - split; [apply Hl1 |]. intros lieu H.
      destruct Hl1 as [Hl1 _]. congruence. }
  assert (Hl3 : Features.lieu f3 = Features.lieu f2
                /\ forall type, Features.type f3 = Some type ->
                     In type (map Row.type (configs self)) /\ type ∈ words).
  { subst f3. unfold detect_type.
    destruct (find _ (TYPE_VALUES self)) as [ty |] eqn:E.
    - cbn [Features.type Features.lieu]. split; [reflexivity |].
      intros type [= <-]. apply find_some in E as [Hin Hw].
      split; [apply Horder, Hin | apply bool_decide_eq_true in Hw; exact Hw].
    - split; [reflexivity |]. intros type H.
      destruct Hl2 as [Hl2 _]. congruence. }
  assert (Hl4 : Features.lieu (infer_type text f3) = Features.lieu f3).
  { unfold infer_type. destruct (negb _); [| reflexivity].
    destruct (any_in _ text); [reflexivity |].
    destruct (any_in _ text); reflexivity. }
  split; [| split].
  - intros lieu H. rewrite Hl4 in H. destruct Hl3 as [Hl3 _]. rewrite Hl3 in H.
    destruct Hl2 as [_ Hl2]. destruct (Hl2 lieu H) as [Hin Hhit].
    split; [exact Hin | apply lieu_hit_spec, Hhit].
  - intros type. unfold infer_type.
    destruct (Features.type f3) as [ty |] eqn:Ety.
    + destruct (negb (Py.truthy_opt (Some ty))) eqn:Etruthy.
      * destruct Hl3 as [_ Hl3]. destruct (Hl3 ty eq_refl) as [_ Hw].
        apply words_truthy in Hw. cbn [Py.truthy_opt] in Etruthy.
        rewrite Hw in Etruthy. discriminate.
      * rewrite Ety. intros [= <-]. left. destruct Hl3 as [_ Hl3].
        apply Hl3. reflexivity.
    + cbn [Py.truthy_opt negb].
      destruct (any_in (map Py.lit ["mariage"; "wedding"; "photo"]%string) text)
        eqn:E1.
      * cbn [Features.type]. intros [= <-]. right. left.
        split; reflexivity.
      * destruct (any_in (map Py.lit ["entretien"; "reportage"]%string) text)
          eqn:E2.
        -- cbn [Features.type]. intros [= <-]. right. right.
           split; reflexivity.
        -- rewrite Ety. discriminate.
  - intros Htext.
    assert (Hwords : words = ∅) by (subst words; rewrite Htext; reflexivity).
    assert (H1 : f1 = f0) by (subst f1; rewrite Htext; reflexivity).
    assert (H2 : f2 = f0).
    { subst f2. unfold detect_lieu. rewrite Hwords.
      rewrite (find_none_all _ _ lieu_hit_no_words). exact H1. }
    assert (H3 : f3 = f0).
    { subst f3. unfold detect_type. rewrite Hwords.
      rewrite find_none_all; [exact H2 |].
      intros x. apply bool_decide_eq_false_2, not_elem_of_empty. }
    rewrite H3, Htext. reflexivity.
Qed.

Lemma extracted_features_grounded_witness :
  let text := _enhanced_preprocess_text Examples.twin_model
                (Py.lit "pub low studio") in
  let words : gset str := list_to_set (Py.split text) in
  let features :=
    _extract_enhanced_features Examples.twin_model (Py.lit "pub low studio") in
  (forall lieu,
     Features.lieu features = Some lieu ->
     In lieu LIEU_VALUES
     /\ (lieu ∈ words
         \/ exists synonym, In (synonym, lieu) SYNONYMS /\ synonym ∈ words))
  /\ (forall type,
        Features.type features = Some type ->
        (In type (map Row.type (configs Examples.twin_model)) /\ type ∈ words)
        \/ (type = Py.lit "pub"
            /\ any_in (map Py.lit ["mariage"; "wedding"; "photo"]%string) text
               = true)
        \/ (type = Py.lit "interview"
            /\ any_in (map Py.lit ["entretien"; "reportage"]%string) text
               = true))
  /\ (text = [] -> features = Features.mk None None None 0).
Proof.
  apply (extracted_features_grounded Examples.twin_model
           (Py.lit "pub low studio")).
  intros l x Hx. cbn [set_order Examples.twin_model Examples.model_of] in Hx.
  unfold Examples.first_seen_order in Hx.
  rewrite <- list_elem_of_In in Hx |- *.
  rewrite elem_of_remove_dups in Hx. exact Hx.
Defined.

(** ** Demand prediction without a planning model *)





